(** * Deadlines and notifications of the CRM Jurídico backend

    A shallow embedding of the deadline ("prazo") and notification
    ("notificação") code of [backend/app]:

    - [models/processo.py]: [StatusPrazo], [Prazo] and its derived reads,
      [Processo] and its derived reads;
    - [models/notificacao.py]: the notification enums and rows;
    - [schemas/processo.py], [schemas/notificacao.py]: the payloads of the
      services;
    - [repositories/base.py]: [BaseRepository] and [MultiTenantRepository];
    - [repositories/notificacao_repository.py], [repositories/processo_repository.py];
    - [services/notificacao_service.py], [services/processo_service.py];
    - [core/config.py]: the setting that the daily scan reads.

    Conventions.  A UUID is a natural number, a [date] is a day number and a
    [datetime] an instant, both in [Z].  A table is the list of its rows in
    creation order (the order of [created_at]).  A date is the day number
    that [date.toordinal()] gives, from 1 to 3652059.  [date.today()] and
    [datetime.now()] are explicit arguments.  A coroutine that reads or
    writes the session is a function on [Estado] that returns the new state
    together with either the raised exception or the returned value.  The
    table of cases is an argument of the functions that read or write it.

    Python raises where the code makes it raise.  Reading a name that a
    class does not declare ([Prazo.responsavel_id],
    [PreferenciaNotificacao.tipos_ativos] and [canais_ativos],
    [TipoNotificacao.PRAZO_URGENTE]) is an [AttributeError]; a keyword
    given twice in a call is a [TypeError]; a payload built without a
    required field is a [ValidationError]; a date outside
    [date.min .. date.max] is an [OverflowError]; a row that breaks a
    unique constraint is an [IntegrityError].  The setting
    [NOTIFICATION_DAYS_BEFORE_DEADLINE] is the list that [core/config.py]
    declares.  A typed row holds the columns that the services name; the
    bookkeeping column [updated_at], which the ORM rewrites on update, is
    a column of the dictionary rows of [BaseRepository] below.  The
    channel senders are stubs that log; the outcome of a sender (return
    or raise) is a parameter of the service. *)

From Stdlib Require Import ZArith.
From stdpp Require Import base decidable option list sorting gmap strings pretty.

Local Open Scope Z_scope.

Definition UUID := nat.
Bind Scope nat_scope with UUID.

(** ** models/notificacao.py: the enums *)

Inductive TipoNotificacao :=
  | PRAZO_VENCENDO | PRAZO_HOJE | PRAZO_VENCIDO
  | NOVO_ANDAMENTO | MUDANCA_FASE | DOCUMENTO_PROCESSADO
  | SISTEMA | ALERTA.

#[global] Instance TipoNotificacao_eq_dec : EqDecision TipoNotificacao.
Proof. solve_decision. Defined.

Inductive CanalNotificacao := PUSH | EMAIL | SMS | IN_APP.

#[global] Instance CanalNotificacao_eq_dec : EqDecision CanalNotificacao.
Proof. solve_decision. Defined.

Module StatusNotificacao.
Inductive t := PENDENTE | ENVIADA | LIDA | FALHA.

#[global] Instance eq_dec : EqDecision t.
Proof. solve_decision. Defined.
End StatusNotificacao.

(** ** core/exceptions.py, and the exceptions of Python, pydantic and the ORM *)

Inductive Erro :=
  | ResourceNotFoundError (resource_type : string) (resource_id : UUID)
  | BusinessRuleError (message : string)
  | MultipleResultsFound
  | ChannelDeliveryError (canal : CanalNotificacao)
  (* the class has no attribute of that name *)
  | AttributeError (classe nome : string)
  (* a keyword given twice in a call, or an operand of the wrong type *)
  | TypeError (mensagem : string)
  (* pydantic: a required field is missing *)
  | ValidationError (campo : string)
  (* a date or a timedelta out of range *)
  | OverflowError
  (* a constraint of the database *)
  | IntegrityError (restricao : string).

Definition Resultado (A : Type) : Type := Erro + A.

(** [Result.scalar_one_or_none()]. *)
Definition scalar_one_or_none {A} (rows : list A) : Resultado (option A) :=
  match rows with
  | [] => inr None
  | [x] => inr (Some x)
  | _ => inl MultipleResultsFound
  end.

(** [TipoNotificacao.PRAZO_URGENTE]: the enum has no such member. *)
Definition TipoNotificacao_PRAZO_URGENTE : Resultado TipoNotificacao :=
  inl (AttributeError "TipoNotificacao" "PRAZO_URGENTE").

(** ** datetime

    [date.min] is day 1 and [date.max], 9999-12-31, is day 3652059; a
    [timedelta] holds at most 999999999 days. *)

Module datetime.

Definition date_min : Z := 1.
Definition date_max : Z := 3652059.

(** [timedelta(days=days)] *)
Definition timedelta (days : Z) : Resultado Z :=
  if decide (-999999999 ≤ days ≤ 999999999) then inr days
  else inl OverflowError.

(** [d + delta] for a date [d] *)
Definition date_add (d delta : Z) : Resultado Z :=
  if decide (date_min ≤ d + delta ≤ date_max) then inr (d + delta)
  else inl OverflowError.

(** [date.today() + timedelta(days=days)] *)
Definition today_plus (hoje days : Z) : Resultado Z :=
  match timedelta days with
  | inl e => inl e
  | inr delta => date_add hoje delta
  end.

End datetime.

(** ** core/config.py *)

Module settings.
Definition NOTIFICATION_DAYS_BEFORE_DEADLINE : list Z := [7; 3; 1; 0].
End settings.

(** ** models/processo.py *)

Inductive StatusPrazo :=
  | PENDENTE | EM_ANDAMENTO | CUMPRIDO | PERDIDO | CANCELADO.

#[global] Instance StatusPrazo_eq_dec : EqDecision StatusPrazo.
Proof. solve_decision. Defined.

Inductive TipoPrazo :=
  | CONTESTACAO | RECURSO | MANIFESTACAO | PERICIA | AUDIENCIA
  | CUMPRIMENTO_SENTENCA | JUNTADA_DOCUMENTOS | OUTROS.

Module Prazo.

Record t := mk {
  id : UUID;
  escritorio_id : UUID;
  processo_id : UUID;
  (* prazo.processo.numero_principal, read through the relationship *)
  processo_numero : string;
  tipo : TipoPrazo;
  descricao : string;
  data_fatal : Z;
  data_inicio : option Z;
  dias_prazo : option Z;
  status : StatusPrazo;
  data_cumprimento : option Z;
  cumprido_por_id : option UUID;
  notificacao_enviada : bool;
  observacoes : option string
}.

(** [prazo.responsavel_id], read by [verificar_prazos_e_notificar]: the
    class has no such attribute. *)
Definition responsavel_id (self : t) : Resultado (option UUID) :=
  inl (AttributeError "Prazo" "responsavel_id").

(** [Prazo.dias_restantes]: 0 unless the deadline is PENDENTE. *)
Definition dias_restantes (hoje : Z) (self : t) : Z :=
  if decide (status self ≠ PENDENTE) then 0
  else data_fatal self - hoje.

(** [Prazo.is_urgente]: [0 < self.dias_restantes <= 3]. *)
Definition is_urgente (hoje : Z) (self : t) : bool :=
  (0 <? dias_restantes hoje self) && (dias_restantes hoje self <=? 3).

(** [Prazo.is_vencido]. *)
Definition is_vencido (hoje : Z) (self : t) : bool :=
  (dias_restantes hoje self <? 0) && bool_decide (status self = PENDENTE).

(** Keyword arguments of [PrazoRepository.update] used by the services;
    [None] is a keyword that is absent or whose value is Python's [None]. *)
Record kwargs := mk_kwargs {
  kw_descricao : option string;
  kw_data_fatal : option Z;
  kw_status : option StatusPrazo;
  kw_observacoes : option string;
  kw_data_cumprimento : option Z;
  kw_cumprido_por_id : option UUID
}.

(** The loop [for key, value in kwargs.items(): if value is not None:
    setattr(instance, key, value)]. *)
Definition setattrs (kw : kwargs) (self : t) : t :=
  {| id := id self;
     escritorio_id := escritorio_id self;
     processo_id := processo_id self;
     processo_numero := processo_numero self;
     tipo := tipo self;
     descricao := default (descricao self) (kw_descricao kw);
     data_fatal := default (data_fatal self) (kw_data_fatal kw);
     data_inicio := data_inicio self;
     dias_prazo := dias_prazo self;
     status := default (status self) (kw_status kw);
     data_cumprimento :=
       match kw_data_cumprimento kw with
       | Some v => Some v | None => data_cumprimento self end;
     cumprido_por_id :=
       match kw_cumprido_por_id kw with
       | Some v => Some v | None => cumprido_por_id self end;
     notificacao_enviada := notificacao_enviada self;
     observacoes :=
       match kw_observacoes kw with
       | Some v => Some v | None => observacoes self end |}.

End Prazo.

(** ** models/notificacao.py: the rows *)

Module Notificacao.

Import StatusNotificacao.

Record t := mk {
  id : UUID;
  escritorio_id : UUID;
  tipo : TipoNotificacao;
  titulo : string;
  mensagem : string;
  canal : CanalNotificacao;
  status : StatusNotificacao.t;
  agendada_para : option Z;
  enviada_em : option Z;
  lida_em : option Z;
  tentativas : Z;
  erro_envio : option string;
  action_url : option string;
  usuario_id : UUID;
  prazo_id : option UUID;
  processo_id : option UUID;
  andamento_id : option UUID
}.

Definition is_lida (self : t) : bool := bool_decide (status self = LIDA).
Definition is_pendente (self : t) : bool := bool_decide (status self = PENDENTE).

(** Keyword arguments the services pass to [NotificacaoRepository.update]. *)
Record kwargs := mk_kwargs {
  kw_status : option StatusNotificacao.t;
  kw_enviada_em : option Z
}.

Definition setattrs (kw : kwargs) (self : t) : t :=
  {| id := id self;
     escritorio_id := escritorio_id self;
     tipo := tipo self;
     titulo := titulo self;
     mensagem := mensagem self;
     canal := canal self;
     status := default (status self) (kw_status kw);
     agendada_para := agendada_para self;
     enviada_em :=
       match kw_enviada_em kw with
       | Some v => Some v | None => enviada_em self end;
     lida_em := lida_em self;
     tentativas := tentativas self;
     erro_envio := erro_envio self;
     action_url := action_url self;
     usuario_id := usuario_id self;
     prazo_id := prazo_id self;
     processo_id := processo_id self;
     andamento_id := andamento_id self |}.

(** [.values(status=StatusNotificacao.LIDA, lida_em=now)] of the two
    bulk UPDATE statements. *)
Definition values_lida (agora : Z) (self : t) : t :=
  {| id := id self;
     escritorio_id := escritorio_id self;
     tipo := tipo self;
     titulo := titulo self;
     mensagem := mensagem self;
     canal := canal self;
     status := LIDA;
     agendada_para := agendada_para self;
     enviada_em := enviada_em self;
     lida_em := Some agora;
     tentativas := tentativas self;
     erro_envio := erro_envio self;
     action_url := action_url self;
     usuario_id := usuario_id self;
     prazo_id := prazo_id self;
     processo_id := processo_id self;
     andamento_id := andamento_id self |}.

End Notificacao.

Module PreferenciaNotificacao.

Record t := mk {
  id : UUID;
  escritorio_id : UUID;
  usuario_id : UUID;
  push_enabled : bool;
  email_enabled : bool;
  sms_enabled : bool;
  prazo_vencendo_enabled : bool;
  prazo_hoje_enabled : bool;
  prazo_vencido_enabled : bool;
  novo_andamento_enabled : bool;
  mudanca_fase_enabled : bool;
  fcm_token : option string
}.

(** [prefs.tipos_ativos], read by [_tipo_ativo]: the class has no such
    attribute. *)
Definition tipos_ativos (self : t) : Resultado (option (list TipoNotificacao)) :=
  inl (AttributeError "PreferenciaNotificacao" "tipos_ativos").

(** [prefs.canais_ativos], read by [_enviar_notificacao]: the class has
    no such attribute. *)
Definition canais_ativos (self : t) : Resultado (option (list CanalNotificacao)) :=
  inl (AttributeError "PreferenciaNotificacao" "canais_ativos").

(** Keywords of [PreferenciaNotificacaoUpdate.model_dump(exclude_unset=True)]
    and of [update(prefs.id, fcm_token=...)]; [None] is a field that is
    unset, or [fcm_token] passed as [None]. *)
Record kwargs := mk_kwargs {
  kw_push_enabled : option bool;
  kw_email_enabled : option bool;
  kw_sms_enabled : option bool;
  kw_prazo_vencendo_enabled : option bool;
  kw_prazo_hoje_enabled : option bool;
  kw_prazo_vencido_enabled : option bool;
  kw_novo_andamento_enabled : option bool;
  kw_mudanca_fase_enabled : option bool;
  kw_fcm_token : option string
}.

(** The loop of [BaseRepository.update] over these keywords. *)
Definition setattrs (kw : kwargs) (self : t) : t :=
  {| id := id self;
     escritorio_id := escritorio_id self;
     usuario_id := usuario_id self;
     push_enabled := default (push_enabled self) (kw_push_enabled kw);
     email_enabled := default (email_enabled self) (kw_email_enabled kw);
     sms_enabled := default (sms_enabled self) (kw_sms_enabled kw);
     prazo_vencendo_enabled :=
       default (prazo_vencendo_enabled self) (kw_prazo_vencendo_enabled kw);
     prazo_hoje_enabled := default (prazo_hoje_enabled self) (kw_prazo_hoje_enabled kw);
     prazo_vencido_enabled :=
       default (prazo_vencido_enabled self) (kw_prazo_vencido_enabled kw);
     novo_andamento_enabled :=
       default (novo_andamento_enabled self) (kw_novo_andamento_enabled kw);
     mudanca_fase_enabled :=
       default (mudanca_fase_enabled self) (kw_mudanca_fase_enabled kw);
     fcm_token :=
       match kw_fcm_token kw with
       | Some v => Some v | None => fcm_token self end |}.

(** [PreferenciaNotificacao(usuario_id=..., **kwargs)] with the column
    defaults for what is not passed. *)
Definition nova (kw : kwargs) (usuario : UUID) (novo_id escritorio : UUID) : t :=
  {| id := novo_id;
     escritorio_id := escritorio;
     usuario_id := usuario;
     push_enabled := default true (kw_push_enabled kw);
     email_enabled := default true (kw_email_enabled kw);
     sms_enabled := default false (kw_sms_enabled kw);
     prazo_vencendo_enabled := default true (kw_prazo_vencendo_enabled kw);
     prazo_hoje_enabled := default true (kw_prazo_hoje_enabled kw);
     prazo_vencido_enabled := default true (kw_prazo_vencido_enabled kw);
     novo_andamento_enabled := default true (kw_novo_andamento_enabled kw);
     mudanca_fase_enabled := default true (kw_mudanca_fase_enabled kw);
     fcm_token := kw_fcm_token kw |}.

(** No keyword. *)
Definition sem_kwargs : kwargs :=
  {| kw_push_enabled := None; kw_email_enabled := None; kw_sms_enabled := None;
     kw_prazo_vencendo_enabled := None; kw_prazo_hoje_enabled := None;
     kw_prazo_vencido_enabled := None; kw_novo_andamento_enabled := None;
     kw_mudanca_fase_enabled := None; kw_fcm_token := None |}.

End PreferenciaNotificacao.

(** ** repositories/base.py

    [MultiTenantRepository] over a model that derives from
    [MultiTenantBase]: [get_by_id] is the tenant-filtered override and
    [update], inherited from [BaseRepository], calls it through [self].
    With [row_escritorio_id] constant the filter is on [id] alone, which
    is [BaseRepository.get_by_id].  [setattrs] is the loop over the
    keywords, given per model below. *)

Section MultiTenantRepository.

Context {Row Kw : Type}.
Variable row_id : Row → UUID.
Variable row_escritorio_id : Row → UUID.
Variable setattrs : Kw → Row → Row.

(* self.escritorio_id *)
Variable escritorio_id : UUID.

Definition get_by_id (id : UUID) (tabela : list Row) : Resultado (option Row) :=
  scalar_one_or_none
    (filter (λ r, row_id r = id ∧ row_escritorio_id r = escritorio_id) tabela).

(** [setattr] on the instance of the session's identity map, then commit. *)
Definition persist (id : UUID) (kw : Kw) (tabela : list Row) : list Row :=
  (λ r, if decide (row_id r = id ∧ row_escritorio_id r = escritorio_id)
        then setattrs kw r else r) <$> tabela.

Definition update (id : UUID) (kw : Kw) (tabela : list Row)
  : list Row * Resultado (option Row) :=
  match get_by_id id tabela with
  | inl e => (tabela, inl e)
  | inr None => (tabela, inr None)
  | inr (Some instance) => (persist id kw tabela, inr (Some (setattrs kw instance)))
  end.

End MultiTenantRepository.

(** [BaseRepository.update] for any model, the instance seen as its
    attribute dictionary: a row maps a column name to its value, [None]
    being SQL NULL, and [kwargs] lists the keywords of the call in order.
    Every model has the column [updated_at] of [db/base.py], declared
    with [onupdate]. *)

Module BaseRepository.

Section Update.

Context {V : Type} `{EqDecision V}.

Definition setattr (key : string) (value : V) (instance : gmap string (option V))
  : gmap string (option V) :=
  <[key := Some value]> instance.

(** [for key, value in kwargs.items(): if value is not None: setattr(...)] *)
Fixpoint setattrs (kw : list (string * option V)) (instance : gmap string (option V))
  : gmap string (option V) :=
  match kw with
  | [] => instance
  | (key, Some value) :: kw' => setattrs kw' (setattr key value instance)
  | (key, None) :: kw' => setattrs kw' instance
  end.

(** The keyword [key] is passed with a value that is not [None]. *)
Definition named (key : string) (kw : list (string * option V)) : Prop :=
  ∃ value, (key, Some value) ∈ kw.

(** [commit] of an instance that went from [antes] to [depois]: without
    a change no UPDATE is sent; otherwise the UPDATE sets the columns
    that changed and, by [onupdate], [updated_at] to the instant of the
    flush, unless [updated_at] is one of the columns that changed. *)
Definition flush (agora : V) (antes depois : gmap string (option V))
  : gmap string (option V) :=
  if decide (depois = antes) then depois
  else if decide (depois !! "updated_at" = antes !! "updated_at")
       then <["updated_at" := Some agora]> depois
       else depois.

(** The loop over the keywords, [commit] and [refresh]. *)
Definition setattrs_commit (agora : V) (kw : list (string * option V))
    (instance : gmap string (option V)) : gmap string (option V) :=
  flush agora instance (setattrs kw instance).

End Update.

End BaseRepository.

(** The other operations of [BaseRepository] as [MultiTenantRepository]
    overrides them for a model that derives from [MultiTenantBase]. *)

Module Repository.

Section Ops.

Context {Row : Type}.
Variable row_id : Row → UUID.
Variable row_escritorio_id : Row → UUID.

(* self.escritorio_id *)
Variable escritorio_id : UUID.

(** [get_all(skip, limit)]: [WHERE escritorio_id = ... OFFSET skip LIMIT limit]. *)
Definition get_all (skip limit : nat) (tabela : list Row) : list Row :=
  take limit (drop skip (filter (λ r, row_escritorio_id r = escritorio_id) tabela)).

(** [count()] *)
Definition count (tabela : list Row) : nat :=
  length (filter (λ r, row_escritorio_id r = escritorio_id) tabela).


End Ops.

Section SoftDelete.

Context {V : Type} `{EqDecision V}.
Variable row_id : gmap string (option V) → UUID.
Variable row_escritorio_id : gmap string (option V) → UUID.
Variable escritorio_id : UUID.

(* the value False *)
Variable falso : V.

(* datetime.now() at the flush *)
Variable agora : V.

(** [soft_delete(id)]: [self.update(id, is_active=False)]. *)
Definition soft_delete (id : UUID) (tabela : list (gmap string (option V)))
  : list (gmap string (option V)) * Resultado (option (gmap string (option V))) :=
  update row_id row_escritorio_id (BaseRepository.setattrs_commit agora)
    escritorio_id id [("is_active", Some falso)] tabela.

End SoftDelete.

End Repository.

(** ** The session: tables, and the calls made to the channel senders *)

Record Estado := mkEstado {
  notificacoes : list Notificacao.t;
  preferencias : list PreferenciaNotificacao.t;
  prazos : list Prazo.t;
  (* calls of _enviar_push, _enviar_email, _enviar_sms and _enviar_in_app,
     most recent first *)
  chamadas : list (CanalNotificacao * UUID)
}.

Definition com_notificacoes (l : list Notificacao.t) (s : Estado) : Estado :=
  {| notificacoes := l; preferencias := preferencias s;
     prazos := prazos s; chamadas := chamadas s |}.

Definition com_prazos (l : list Prazo.t) (s : Estado) : Estado :=
  {| notificacoes := notificacoes s; preferencias := preferencias s;
     prazos := l; chamadas := chamadas s |}.

Definition com_chamada (c : CanalNotificacao * UUID) (s : Estado) : Estado :=
  {| notificacoes := notificacoes s; preferencias := preferencias s;
     prazos := prazos s; chamadas := c :: chamadas s |}.

Definition com_preferencias (l : list PreferenciaNotificacao.t) (s : Estado) : Estado :=
  {| notificacoes := notificacoes s; preferencias := l;
     prazos := prazos s; chamadas := chamadas s |}.

(** A coroutine over the session. *)
Definition Acao (A : Type) : Type := Estado → Estado * Resultado A.

Definition ret {A} (x : A) : Acao A := λ s, (s, inr x).

Definition raise {A} (e : Erro) : Acao A := λ s, (s, inl e).

(** A computation that does not touch the session. *)
Definition lift {A} (r : Resultado A) : Acao A := λ s, (s, r).

Definition bind {A B} (m : Acao A) (k : A → Acao B) : Acao B :=
  λ s, match m s with
       | (s', inr x) => k x s'
       | (s', inl e) => (s', inl e)
       end.

(** [try: body  except Exception as e: handler(e)] *)
Definition try_except {A} (body : Acao A) (handler : Erro → Acao A) : Acao A :=
  λ s, match body s with
       | (s', inr x) => (s', inr x)
       | (s', inl e) => handler e s'
       end.

Declare Scope acao_scope.
Delimit Scope acao_scope with acao.
Notation "x <- m ;; k" := (bind m (λ x, k))
  (at level 100, m at next level, right associativity) : acao_scope.
Notation "m ;;; k" := (bind m (λ _, k))
  (at level 100, right associativity) : acao_scope.

(** [for x in xs: body(x)], stopping at the first exception that escapes. *)
Fixpoint for_each {A} (xs : list A) (body : A → Acao unit) : Acao unit :=
  match xs with
  | [] => ret tt
  | x :: xs' => bind (body x) (λ _, for_each xs' body)
  end.

(** ** repositories/notificacao_repository.py *)

Module NotificacaoRepository.

Import StatusNotificacao.

Section Repo.

Variable escritorio_id : UUID.

Definition get_by_id (id : UUID) : Acao (option Notificacao.t) :=
  λ s, (s, get_by_id Notificacao.id Notificacao.escritorio_id
             escritorio_id id (notificacoes s)).

Definition update (id : UUID) (kw : Notificacao.kwargs)
  : Acao (option Notificacao.t) :=
  λ s, let '(tabela, r) :=
         update Notificacao.id Notificacao.escritorio_id Notificacao.setattrs
           escritorio_id id kw (notificacoes s) in
       (com_notificacoes tabela s, r).

(** [MultiTenantRepository.create]: the row gets a fresh id, the
    tenant of the repository and the column defaults. *)
Definition novo_id (tabela : list Notificacao.t) : UUID :=
  S (max_list (Notificacao.id <$> tabela)).

Definition create (novo : UUID → UUID → Notificacao.t) : Acao Notificacao.t :=
  λ s, let instance := novo (novo_id (notificacoes s)) escritorio_id in
       (com_notificacoes (notificacoes s ++ [instance]) s, inr instance).

(** WHERE clause of [marcar_como_lida]. *)
Definition where_lida (notificacao_ids : list UUID) (usuario_id : UUID)
    (n : Notificacao.t) : Prop :=
  Notificacao.id n ∈ notificacao_ids
  ∧ Notificacao.escritorio_id n = escritorio_id
  ∧ Notificacao.usuario_id n = usuario_id.

(** WHERE clause of [marcar_todas_como_lidas]. *)
Definition where_todas (usuario_id : UUID) (n : Notificacao.t) : Prop :=
  Notificacao.escritorio_id n = escritorio_id
  ∧ Notificacao.usuario_id n = usuario_id
  ∧ Notificacao.status n ≠ LIDA.

#[global] Instance where_lida_dec ids u n : Decision (where_lida ids u n).
Proof. unfold where_lida. apply _. Defined.

#[global] Instance where_todas_dec u n : Decision (where_todas u n).
Proof. unfold where_todas. apply _. Defined.

(** [UPDATE notificacoes SET status = LIDA, lida_em = now WHERE ...];
    the result is [rowcount]. *)
Definition update_lida (P : Notificacao.t → Prop) `{∀ n, Decision (P n)}
    (agora : Z) : Acao nat :=
  λ s, (com_notificacoes
          ((λ n, if decide (P n) then Notificacao.values_lida agora n else n)
             <$> notificacoes s) s,
        inr (length (filter P (notificacoes s)))).

Definition marcar_como_lida (notificacao_ids : list UUID) (usuario_id : UUID)
    (agora : Z) : Acao nat :=
  update_lida (where_lida notificacao_ids usuario_id) agora.

Definition marcar_todas_como_lidas (usuario_id : UUID) (agora : Z) : Acao nat :=
  update_lida (where_todas usuario_id) agora.

(** WHERE clause of [get_pendentes_envio]: it has no condition on
    [escritorio_id]. *)
Definition pendente_envio (canal : option CanalNotificacao) (agora : Z)
    (n : Notificacao.t) : Prop :=
  Notificacao.status n = PENDENTE
  ∧ match canal with
    | Some c => Notificacao.canal n = c
    | None => True
    end
  ∧ match Notificacao.agendada_para n with
    | None => True
    | Some t => t ≤ agora
    end.

#[global] Instance pendente_envio_dec canal agora n :
  Decision (pendente_envio canal agora n).
Proof.
  unfold pendente_envio.
  destruct canal, (Notificacao.agendada_para n); apply _.
Defined.

(** [get_pendentes_envio(canal=None, limit=100)], ordered by
    [created_at]. *)
Definition get_pendentes_envio (canal : option CanalNotificacao)
    (limit : nat) (agora : Z) : Acao (list Notificacao.t) :=
  λ s, (s, inr (take limit (filter (pendente_envio canal agora) (notificacoes s)))).

(** [atualizar_status_envio]: the only writer of [tentativas] and
    [erro_envio]; no service calls it. *)
Definition atualizar_status_envio (notificacao_id : UUID)
    (status : StatusNotificacao.t) (erro : option string) (agora : Z)
  : Acao unit :=
  λ s, (com_notificacoes
          ((λ n, if decide (Notificacao.id n = notificacao_id) then
                   {| Notificacao.id := Notificacao.id n;
                      Notificacao.escritorio_id := Notificacao.escritorio_id n;
                      Notificacao.tipo := Notificacao.tipo n;
                      Notificacao.titulo := Notificacao.titulo n;
                      Notificacao.mensagem := Notificacao.mensagem n;
                      Notificacao.canal := Notificacao.canal n;
                      Notificacao.status := status;
                      Notificacao.agendada_para := Notificacao.agendada_para n;
                      Notificacao.enviada_em :=
                        if decide (status = ENVIADA) then Some agora
                        else Notificacao.enviada_em n;
                      Notificacao.lida_em := Notificacao.lida_em n;
                      Notificacao.tentativas := Notificacao.tentativas n + 1;
                      Notificacao.erro_envio :=
                        if decide (status = ENVIADA) then Notificacao.erro_envio n
                        else if decide (status = FALHA) then
                          match erro with
                          | Some e => if decide (e = EmptyString)
                                      then Notificacao.erro_envio n else Some e
                          | None => Notificacao.erro_envio n
                          end
                        else Notificacao.erro_envio n;
                      Notificacao.action_url := Notificacao.action_url n;
                      Notificacao.usuario_id := Notificacao.usuario_id n;
                      Notificacao.prazo_id := Notificacao.prazo_id n;
                      Notificacao.processo_id := Notificacao.processo_id n;
                      Notificacao.andamento_id := Notificacao.andamento_id n |}
                 else n) <$> notificacoes s) s,
        inr tt).

(** WHERE clause of [get_by_usuario]. *)
Definition where_usuario (usuario_id : UUID) (apenas_nao_lidas : bool)
    (n : Notificacao.t) : Prop :=
  Notificacao.escritorio_id n = escritorio_id
  ∧ Notificacao.usuario_id n = usuario_id
  ∧ (if apenas_nao_lidas then Notificacao.status n ≠ LIDA else True).

#[global] Instance where_usuario_dec u b n : Decision (where_usuario u b n).
Proof. unfold where_usuario. destruct b; apply _. Defined.

(** [get_by_usuario(usuario_id, apenas_nao_lidas, skip, limit)], newest
    first. *)
Definition get_by_usuario (usuario_id : UUID) (apenas_nao_lidas : bool)
    (skip limit : nat) : Acao (list Notificacao.t) :=
  λ s, (s, inr (take limit
                  (drop skip
                     (reverse (filter (where_usuario usuario_id apenas_nao_lidas)
                                 (notificacoes s)))))).

(** [count_nao_lidas(usuario_id)] *)
Definition count_nao_lidas (usuario_id : UUID) : Acao nat :=
  λ s, (s, inr (length (filter (where_todas usuario_id) (notificacoes s)))).

End Repo.

End NotificacaoRepository.

Module PreferenciaNotificacaoRepository.

Section Repo.

Variable escritorio_id : UUID.

Definition get_by_usuario (usuario_id : UUID)
  : Acao (option PreferenciaNotificacao.t) :=
  λ s, (s, scalar_one_or_none
             (filter (λ p, PreferenciaNotificacao.escritorio_id p = escritorio_id
                           ∧ PreferenciaNotificacao.usuario_id p = usuario_id)
                     (preferencias s))).

Definition update (id : UUID) (kw : PreferenciaNotificacao.kwargs)
  : Acao (option PreferenciaNotificacao.t) :=
  λ s, let '(tabela, r) :=
         update PreferenciaNotificacao.id PreferenciaNotificacao.escritorio_id
           PreferenciaNotificacao.setattrs escritorio_id id kw (preferencias s) in
       (com_preferencias tabela s, r).

(** [MultiTenantRepository.create(usuario_id=..., **kwargs)]: a fresh id
    and the tenant of the repository. *)
Definition novo_id (tabela : list PreferenciaNotificacao.t) : UUID :=
  S (max_list (PreferenciaNotificacao.id <$> tabela)).

Definition create (usuario_id : UUID) (kw : PreferenciaNotificacao.kwargs)
  : Acao PreferenciaNotificacao.t :=
  λ s, let instance :=
         PreferenciaNotificacao.nova kw usuario_id (novo_id (preferencias s))
           escritorio_id in
       (com_preferencias (preferencias s ++ [instance]) s, inr instance).

Definition get_or_create (usuario_id : UUID) : Acao PreferenciaNotificacao.t :=
  (pref <- get_by_usuario usuario_id ;;
   match pref with
   | None => create usuario_id PreferenciaNotificacao.sem_kwargs
   | Some pref => ret pref
   end)%acao.

(** [atualizar_fcm_token]: one UPDATE over the rows of the tenant and user. *)
Definition atualizar_fcm_token (usuario_id : UUID) (fcm_token : string) : Acao unit :=
  λ s, (com_preferencias
          ((λ p, if decide (PreferenciaNotificacao.escritorio_id p = escritorio_id
                            ∧ PreferenciaNotificacao.usuario_id p = usuario_id)
                 then PreferenciaNotificacao.setattrs
                        {| PreferenciaNotificacao.kw_push_enabled := None;
                           PreferenciaNotificacao.kw_email_enabled := None;
                           PreferenciaNotificacao.kw_sms_enabled := None;
                           PreferenciaNotificacao.kw_prazo_vencendo_enabled := None;
                           PreferenciaNotificacao.kw_prazo_hoje_enabled := None;
                           PreferenciaNotificacao.kw_prazo_vencido_enabled := None;
                           PreferenciaNotificacao.kw_novo_andamento_enabled := None;
                           PreferenciaNotificacao.kw_mudanca_fase_enabled := None;
                           PreferenciaNotificacao.kw_fcm_token := Some fcm_token |} p
                 else p) <$> preferencias s) s,
        inr tt).

End Repo.

End PreferenciaNotificacaoRepository.

(** ** repositories/processo_repository.py *)

Module PrazoRepository.

Section Repo.

Variable escritorio_id : UUID.

Definition get_by_id (id : UUID) : Acao (option Prazo.t) :=
  λ s, (s, get_by_id Prazo.id Prazo.escritorio_id escritorio_id id (prazos s)).

Definition update (id : UUID) (kw : Prazo.kwargs) : Acao (option Prazo.t) :=
  λ s, let '(tabela, r) :=
         update Prazo.id Prazo.escritorio_id Prazo.setattrs
           escritorio_id id kw (prazos s) in
       (com_prazos tabela s, r).

(** WHERE clause of [get_pendentes]. *)
Definition where_pendentes (data_limite : Z) (p : Prazo.t) : Prop :=
  Prazo.escritorio_id p = escritorio_id
  ∧ Prazo.status p = PENDENTE
  ∧ Prazo.data_fatal p ≤ data_limite.

#[global] Instance where_pendentes_dec d p : Decision (where_pendentes d p).
Proof. unfold where_pendentes. apply _. Defined.

(** [ORDER BY data_fatal]; rows with the same date keep their order. *)
Definition data_fatal_le (p q : Prazo.t) : Prop :=
  Prazo.data_fatal p ≤ Prazo.data_fatal q.

#[global] Instance data_fatal_le_dec p q : Decision (data_fatal_le p q).
Proof. unfold data_fatal_le. apply _. Defined.

Definition order_by_data_fatal (l : list Prazo.t) : list Prazo.t :=
  merge_sort data_fatal_le l.

Definition get_pendentes (dias_futuros : Z) (hoje : Z) : Acao (list Prazo.t) :=
  (data_limite <- lift (datetime.today_plus hoje dias_futuros) ;;
   λ s, (s, inr (order_by_data_fatal
                   (filter (where_pendentes data_limite) (prazos s)))))%acao.

(** WHERE clause of [get_urgentes] and [count_urgentes]. *)
Definition where_urgentes (data_limite hoje : Z) (p : Prazo.t) : Prop :=
  Prazo.escritorio_id p = escritorio_id
  ∧ Prazo.status p = PENDENTE
  ∧ Prazo.data_fatal p ≤ data_limite
  ∧ hoje ≤ Prazo.data_fatal p.

#[global] Instance where_urgentes_dec d h p : Decision (where_urgentes d h p).
Proof. unfold where_urgentes. apply _. Defined.

(** WHERE clause of [get_vencidos]. *)
Definition where_vencidos (hoje : Z) (p : Prazo.t) : Prop :=
  Prazo.escritorio_id p = escritorio_id
  ∧ Prazo.status p = PENDENTE
  ∧ Prazo.data_fatal p < hoje.

#[global] Instance where_vencidos_dec h p : Decision (where_vencidos h p).
Proof. unfold where_vencidos. apply _. Defined.

Definition get_urgentes (dias : Z) (hoje : Z) : Acao (list Prazo.t) :=
  (data_limite <- lift (datetime.today_plus hoje dias) ;;
   λ s, (s, inr (order_by_data_fatal
                   (filter (where_urgentes data_limite hoje) (prazos s)))))%acao.

Definition get_vencidos (hoje : Z) : Acao (list Prazo.t) :=
  λ s, (s, inr (order_by_data_fatal (filter (where_vencidos hoje) (prazos s)))).

Definition get_by_processo (processo_id : UUID) : Acao (list Prazo.t) :=
  λ s, (s, inr (order_by_data_fatal
                  (filter (λ p, Prazo.processo_id p = processo_id
                                ∧ Prazo.escritorio_id p = escritorio_id)
                          (prazos s)))).

Definition count_pendentes : Acao nat :=
  λ s, (s, inr (length (filter (λ p, Prazo.escritorio_id p = escritorio_id
                                     ∧ Prazo.status p = PENDENTE)
                               (prazos s)))).

Definition count_urgentes (dias : Z) (hoje : Z) : Acao nat :=
  (data_limite <- lift (datetime.today_plus hoje dias) ;;
   λ s, (s, inr (length (filter (where_urgentes data_limite hoje) (prazos s)))))%acao.

(** [MultiTenantRepository.create]: a fresh id and the tenant of the
    repository. *)
Definition novo_id (tabela : list Prazo.t) : UUID :=
  S (max_list (Prazo.id <$> tabela)).

Definition create (novo : UUID → UUID → Prazo.t) : Acao Prazo.t :=
  λ s, let instance := novo (novo_id (prazos s)) escritorio_id in
       (com_prazos (prazos s ++ [instance]) s, inr instance).

End Repo.

End PrazoRepository.

(** ** models/processo.py: the case *)

Module TipoBeneficio.
Inductive t :=
  | APOSENTADORIA_IDADE | APOSENTADORIA_TEMPO_CONTRIBUICAO | APOSENTADORIA_ESPECIAL
  | APOSENTADORIA_RURAL | APOSENTADORIA_INVALIDEZ | APOSENTADORIA_PROGRAMADA
  | AUXILIO_DOENCA | AUXILIO_ACIDENTE | BPC_LOAS_IDOSO | BPC_LOAS_DEFICIENCIA
  | PENSAO_MORTE | AUXILIO_RECLUSAO
  | SALARIO_MATERNIDADE | REVISAO_BENEFICIO | OUTROS.
End TipoBeneficio.

Module FaseProcessual.
Inductive t :=
  | REQUERIMENTO_ADMINISTRATIVO | RECURSO_ADMINISTRATIVO
  | INICIAL_PROTOCOLADA | CITACAO | CONTESTACAO | PERICIA_AGENDADA
  | PERICIA_REALIZADA | ALEGACOES_FINAIS | SENTENCA
  | RECURSO_INSS | CONTRARRAZOES | TRIBUNAL | ACORDAO
  | EXECUCAO | RPV_PRECATORIO
  | ARQUIVADO | TRANSITADO_JULGADO.
End FaseProcessual.

(** The [float] columns hold amounts; no function modelled computes with
    them. *)
Definition Valor := Z.

Module Processo.

Record t := mk {
  id : UUID;
  escritorio_id : UUID;
  numero_cnj : option string;
  numero_administrativo : option string;
  tipo_beneficio : TipoBeneficio.t;
  fase : FaseProcessual.t;
  tribunal : option string;
  vara : option string;
  comarca : option string;
  agencia_inss : option string;
  data_entrada : Z;
  data_distribuicao : option Z;
  data_citacao : option Z;
  data_sentenca : option Z;
  data_transito : option Z;
  valor_causa : option Valor;
  valor_condenacao : option Valor;
  objeto : option string;
  observacoes : option string;
  is_active : bool;
  is_archived : bool;
  resultado : option string;
  cliente_id : UUID;
  advogado_responsavel_id : option UUID
}.

(** Truth value of an optional string: [None] and [""] are false. *)
Definition truthy (o : option string) : Prop :=
  match o with
  | Some v => v ≠ EmptyString
  | None => False
  end.

#[global] Instance truthy_dec o : Decision (truthy o).
Proof. destruct o; simpl; apply _. Defined.

(** [self.numero_cnj or self.numero_administrativo or "Sem número"] *)
Definition numero_principal (self : t) : string :=
  if decide (truthy (numero_cnj self)) then default EmptyString (numero_cnj self)
  else if decide (truthy (numero_administrativo self))
       then default EmptyString (numero_administrativo self)
       else "Sem número".

(** [proximo_prazo], over the collection [self.prazos] of the case. *)
Fixpoint proximo_prazo (prazos : list Prazo.t) : option Prazo.t :=
  match prazos with
  | [] => None
  | prazo :: resto =>
    if decide (Prazo.status prazo = PENDENTE) then Some prazo
    else proximo_prazo resto
  end.

(** The keyword [arquivar_processo] passes to [update]. *)
Record kwargs := mk_kwargs {
  kw_is_archived : option bool
}.

Definition setattrs (kw : kwargs) (self : t) : t :=
  {| id := id self;
     escritorio_id := escritorio_id self;
     numero_cnj := numero_cnj self;
     numero_administrativo := numero_administrativo self;
     tipo_beneficio := tipo_beneficio self;
     fase := fase self;
     tribunal := tribunal self;
     vara := vara self;
     comarca := comarca self;
     agencia_inss := agencia_inss self;
     data_entrada := data_entrada self;
     data_distribuicao := data_distribuicao self;
     data_citacao := data_citacao self;
     data_sentenca := data_sentenca self;
     data_transito := data_transito self;
     valor_causa := valor_causa self;
     valor_condenacao := valor_condenacao self;
     objeto := objeto self;
     observacoes := observacoes self;
     is_active := is_active self;
     is_archived := default (is_archived self) (kw_is_archived kw);
     resultado := resultado self;
     cliente_id := cliente_id self;
     advogado_responsavel_id := advogado_responsavel_id self |}.

End Processo.

(** The relationship [Processo.prazos]: the deadlines of the case,
    [order_by="Prazo.data_fatal"]. *)
Definition Processo_prazos (self : Processo.t) (tabela : list Prazo.t) : list Prazo.t :=
  PrazoRepository.order_by_data_fatal
    (filter (λ p, Prazo.processo_id p = Processo.id self) tabela).

(** ** schemas/processo.py *)

Module PrazoCreate.
Record t := mk {
  tipo : TipoPrazo;
  descricao : string;
  data_fatal : Z;
  data_inicio : option Z;
  dias_prazo : option Z;
  observacoes : option string;
  processo_id : UUID
}.
End PrazoCreate.

Module PrazoUpdate.
(** [None] is a field that is unset, or set to [None]. *)
Record t := mk {
  descricao : option string;
  data_fatal : option Z;
  status : option StatusPrazo;
  observacoes : option string
}.
End PrazoUpdate.

Module ProcessoCreate.
Record t := mk {
  numero_cnj : option string;
  numero_administrativo : option string;
  tipo_beneficio : TipoBeneficio.t;
  tribunal : option string;
  vara : option string;
  comarca : option string;
  agencia_inss : option string;
  data_entrada : Z;
  data_distribuicao : option Z;
  valor_causa : option Valor;
  objeto : option string;
  observacoes : option string;
  cliente_id : UUID;
  advogado_responsavel_id : option UUID
}.
End ProcessoCreate.

(** ** repositories/processo_repository.py: the cases

    The table of cases is an argument of these functions. *)

Module ProcessoRepository.

Section Repo.

Variable escritorio_id : UUID.

Definition get_by_id (id : UUID) (processos : list Processo.t)
  : Resultado (option Processo.t) :=
  get_by_id Processo.id Processo.escritorio_id escritorio_id id processos.

Definition update (id : UUID) (kw : Processo.kwargs) (processos : list Processo.t)
  : list Processo.t * Resultado (option Processo.t) :=
  update Processo.id Processo.escritorio_id Processo.setattrs
    escritorio_id id kw processos.


Definition novo_id (processos : list Processo.t) : UUID :=
  S (max_list (Processo.id <$> processos)).

(** [create] with the fields of [dados], the given [fase] and the column
    defaults.  The column [numero_cnj] is declared [unique=True]: the
    INSERT of a number that a row of the table already holds, whatever
    the tenant of that row, fails with [IntegrityError]; NULL never
    collides. *)
Definition create (dados : ProcessoCreate.t) (fase : FaseProcessual.t)
    (processos : list Processo.t) : list Processo.t * Resultado Processo.t :=
  let instance :=
    {| Processo.id := novo_id processos;
       Processo.escritorio_id := escritorio_id;
       Processo.numero_cnj := ProcessoCreate.numero_cnj dados;
       Processo.numero_administrativo := ProcessoCreate.numero_administrativo dados;
       Processo.tipo_beneficio := ProcessoCreate.tipo_beneficio dados;
       Processo.fase := fase;
       Processo.tribunal := ProcessoCreate.tribunal dados;
       Processo.vara := ProcessoCreate.vara dados;
       Processo.comarca := ProcessoCreate.comarca dados;
       Processo.agencia_inss := ProcessoCreate.agencia_inss dados;
       Processo.data_entrada := ProcessoCreate.data_entrada dados;
       Processo.data_distribuicao := ProcessoCreate.data_distribuicao dados;
       Processo.data_citacao := None;
       Processo.data_sentenca := None;
       Processo.data_transito := None;
       Processo.valor_causa := ProcessoCreate.valor_causa dados;
       Processo.valor_condenacao := None;
       Processo.objeto := ProcessoCreate.objeto dados;
       Processo.observacoes := ProcessoCreate.observacoes dados;
       Processo.is_active := true;
       Processo.is_archived := false;
       Processo.resultado := None;
       Processo.cliente_id := ProcessoCreate.cliente_id dados;
       Processo.advogado_responsavel_id :=
         ProcessoCreate.advogado_responsavel_id dados |} in
  if decide (is_Some (Processo.numero_cnj instance)
             ∧ Processo.numero_cnj instance ∈ Processo.numero_cnj <$> processos)
  then (processos, inl (IntegrityError "processos_numero_cnj_key"))
  else (processos ++ [instance], inr instance).

End Repo.

End ProcessoRepository.

(** ** services/processo_service.py *)

Definition StatusPrazo_value (s : StatusPrazo) : string :=
  match s with
  | PENDENTE => "pendente"
  | EM_ANDAMENTO => "em_andamento"
  | CUMPRIDO => "cumprido"
  | PERDIDO => "perdido"
  | CANCELADO => "cancelado"
  end.

Module ProcessoService.

Section Service.

Variable escritorio_id : UUID.

Definition listar_prazos_pendentes (dias_futuros : Z) (hoje : Z)
  : Acao (list Prazo.t) :=
  PrazoRepository.get_pendentes escritorio_id dias_futuros hoje.

Definition cumprir_prazo (prazo_id usuario_id : UUID) (agora : Z)
  : Acao (option Prazo.t) :=
  (prazo <- PrazoRepository.get_by_id escritorio_id prazo_id ;;
   match prazo with
   | None => raise (ResourceNotFoundError "Prazo" prazo_id)
   | Some prazo =>
     if decide (Prazo.status prazo ≠ PENDENTE) then
       raise (BusinessRuleError
                ("Prazo já está " +:+ StatusPrazo_value (Prazo.status prazo)))
     else
       PrazoRepository.update escritorio_id prazo_id
         {| Prazo.kw_descricao := None;
            Prazo.kw_data_fatal := None;
            Prazo.kw_status := Some CUMPRIDO;
            Prazo.kw_observacoes := None;
            Prazo.kw_data_cumprimento := Some agora;
            Prazo.kw_cumprido_por_id := Some usuario_id |}
   end)%acao.

(** [ProcessoArquivadoError], a [BusinessRuleError]. *)
Definition ProcessoArquivadoError (processo_id : UUID) : Erro :=
  BusinessRuleError
    ("Processo " +:+ pretty processo_id
       +:+ " está arquivado e não pode ser modificado").


(** [buscar_processo]; with or without relations the row is the one of
    this id in the tenant. *)
Definition buscar_processo (processo_id : UUID) (processos : list Processo.t)
  : Resultado Processo.t :=
  match ProcessoRepository.get_by_id escritorio_id processo_id processos with
  | inl e => inl e
  | inr None => inl (ResourceNotFoundError "Processo" processo_id)
  | inr (Some processo) => inr processo
  end.

Definition arquivar_processo (processo_id : UUID) (processos : list Processo.t)
  : list Processo.t * Resultado (option Processo.t) :=
  match buscar_processo processo_id processos with
  | inl e => (processos, inl e)
  | inr processo =>
    if Processo.is_archived processo then (processos, inr (Some processo))
    else ProcessoRepository.update escritorio_id processo_id
           {| Processo.kw_is_archived := Some true |} processos
  end.

(** [criar_prazo]; the table of cases is only read. *)
Definition criar_prazo (processos : list Processo.t) (dados : PrazoCreate.t)
  : Acao Prazo.t :=
  match buscar_processo (PrazoCreate.processo_id dados) processos with
  | inl e => raise e
  | inr processo =>
    if Processo.is_archived processo then
      raise (ProcessoArquivadoError (PrazoCreate.processo_id dados))
    else
      PrazoRepository.create escritorio_id
        (λ id escritorio,
           {| Prazo.id := id;
              Prazo.escritorio_id := escritorio;
              Prazo.processo_id := PrazoCreate.processo_id dados;
              Prazo.processo_numero := Processo.numero_principal processo;
              Prazo.tipo := PrazoCreate.tipo dados;
              Prazo.descricao := PrazoCreate.descricao dados;
              Prazo.data_fatal := PrazoCreate.data_fatal dados;
              Prazo.data_inicio := PrazoCreate.data_inicio dados;
              Prazo.dias_prazo := PrazoCreate.dias_prazo dados;
              Prazo.status := PENDENTE;
              Prazo.data_cumprimento := None;
              Prazo.cumprido_por_id := None;
              Prazo.notificacao_enviada := false;
              Prazo.observacoes := PrazoCreate.observacoes dados |})
  end.

Definition listar_prazos_urgentes (dias : Z) (hoje : Z) : Acao (list Prazo.t) :=
  PrazoRepository.get_urgentes escritorio_id dias hoje.

Definition listar_prazos_vencidos (hoje : Z) : Acao (list Prazo.t) :=
  PrazoRepository.get_vencidos escritorio_id hoje.

Definition atualizar_prazo (prazo_id : UUID) (dados : PrazoUpdate.t)
  : Acao (option Prazo.t) :=
  (prazo <- PrazoRepository.get_by_id escritorio_id prazo_id ;;
   match prazo with
   | None => raise (ResourceNotFoundError "Prazo" prazo_id)
   | Some _ =>
     PrazoRepository.update escritorio_id prazo_id
       {| Prazo.kw_descricao := PrazoUpdate.descricao dados;
          Prazo.kw_data_fatal := PrazoUpdate.data_fatal dados;
          Prazo.kw_status := PrazoUpdate.status dados;
          Prazo.kw_observacoes := PrazoUpdate.observacoes dados;
          Prazo.kw_data_cumprimento := None;
          Prazo.kw_cumprido_por_id := None |}
   end)%acao.

End Service.

End ProcessoService.

(** ** schemas/notificacao.py *)

Module NotificacaoCreate.

Record t := mk {
  tipo : TipoNotificacao;
  titulo : string;
  mensagem : string;
  canal : CanalNotificacao;
  usuario_id : UUID;
  agendada_para : option Z;
  action_url : option string;
  prazo_id : option UUID;
  processo_id : option UUID;
  andamento_id : option UUID
}.

(** The keys of [dados.model_dump()]: the fields of the schema. *)
Definition campos : list string :=
  ["tipo"; "titulo"; "mensagem"; "canal"; "usuario_id"; "agendada_para";
   "action_url"; "prazo_id"; "processo_id"; "andamento_id"].

(** [NotificacaoCreate(tipo=..., titulo=..., mensagem=..., prioridade=...,
    dados_extras=...)], the call of [criar_notificacao_prazo]: the
    required field [usuario_id] is not given, and pydantic raises. *)
Definition sem_usuario_id (tipo : TipoNotificacao) (titulo mensagem : string)
  : Resultado t :=
  inl (ValidationError "usuario_id").

End NotificacaoCreate.

(** ** services/notificacao_service.py *)

(** Truth value of [prefs.fcm_token]. *)
Definition fcm_token_truthy (token : option string) : Prop :=
  match token with
  | Some t => t ≠ EmptyString
  | None => False
  end.

#[global] Instance fcm_token_truthy_dec token : Decision (fcm_token_truthy token).
Proof. destruct token; simpl; apply _. Defined.

Module NotificacaoService.

Import StatusNotificacao.

(** The [if]/[elif] chain of [criar_notificacao_prazo]: type, title and
    priority from the days that remain. *)
Definition tipo_titulo_prioridade (dias_restantes : Z)
  : Resultado (TipoNotificacao * string * Z) :=
  if decide (dias_restantes ≤ 0) then
    inr (PRAZO_VENCIDO, "⚠️ PRAZO VENCIDO", 10)
  else if decide (dias_restantes = 0) then
    inr (PRAZO_HOJE, "⚡ PRAZO PARA HOJE", 9)
  else if decide (dias_restantes ≤ 3) then
    match TipoNotificacao_PRAZO_URGENTE with
    | inl e => inl e
    | inr tipo =>
      inr (tipo, "🔴 PRAZO URGENTE - " +:+ pretty dias_restantes +:+ " dia(s)", 8)
    end
  else
    inr (PRAZO_VENCENDO, "📅 Prazo em " +:+ pretty dias_restantes +:+ " dias", 5).

Section Service.

(** Outcome of a channel sender: [true] when it returns, [false] when
    it raises.  The senders of the source only log and return. *)
Variable adaptador : CanalNotificacao → Notificacao.t → bool.

(* self._escritorio_id *)
Variable escritorio_id : UUID.

(** [self._repo.create(usuario_id=usuario_id, **dados.model_dump())]:
    [usuario_id] is also a key of the dump, and a call that gets a
    keyword twice raises before the callee runs. *)
Definition criar_notificacao (dados : NotificacaoCreate.t) (usuario_id : UUID)
  : Acao Notificacao.t :=
  if decide ("usuario_id" ∈ NotificacaoCreate.campos) then
    raise (TypeError "got multiple values for keyword argument 'usuario_id'")
  else
    NotificacaoRepository.create escritorio_id
      (λ id escritorio,
         {| Notificacao.id := id;
            Notificacao.escritorio_id := escritorio;
            Notificacao.tipo := NotificacaoCreate.tipo dados;
            Notificacao.titulo := NotificacaoCreate.titulo dados;
            Notificacao.mensagem := NotificacaoCreate.mensagem dados;
            Notificacao.canal := NotificacaoCreate.canal dados;
            Notificacao.status := PENDENTE;
            Notificacao.agendada_para := NotificacaoCreate.agendada_para dados;
            Notificacao.enviada_em := None;
            Notificacao.lida_em := None;
            Notificacao.tentativas := 0;
            Notificacao.erro_envio := None;
            Notificacao.action_url := NotificacaoCreate.action_url dados;
            Notificacao.usuario_id := usuario_id;
            Notificacao.prazo_id := NotificacaoCreate.prazo_id dados;
            Notificacao.processo_id := NotificacaoCreate.processo_id dados;
            Notificacao.andamento_id := NotificacaoCreate.andamento_id dados |}).

Definition criar_notificacao_prazo (usuario_id prazo_id : UUID)
    (processo_numero descricao_prazo : string) (data_fatal dias_restantes : Z)
  : Acao Notificacao.t :=
  (classe <- lift (tipo_titulo_prioridade dias_restantes) ;;
   let '(tipo, titulo, prioridade) := classe in
   dados <- lift (NotificacaoCreate.sem_usuario_id tipo titulo
                    ("Processo " +:+ processo_numero +:+ ": " +:+ descricao_prazo)) ;;
   criar_notificacao dados usuario_id)%acao.

(** A sender is called, and returns or raises. *)
Definition enviar (canal : CanalNotificacao) (notificacao : Notificacao.t)
  : Acao unit :=
  λ s, (com_chamada (canal, Notificacao.id notificacao) s,
        if adaptador canal notificacao then inr tt
        else inl (ChannelDeliveryError canal)).

Definition _enviar_push (notificacao : Notificacao.t) (fcm_token : option string)
  : Acao unit := enviar PUSH notificacao.

Definition _enviar_email (notificacao : Notificacao.t) : Acao unit :=
  enviar EMAIL notificacao.

Definition _enviar_sms (notificacao : Notificacao.t) : Acao unit :=
  enviar SMS notificacao.

(** In-app: nothing is sent, the call only logs. *)
Definition _enviar_in_app (notificacao : Notificacao.t) : Acao unit :=
  λ s, (com_chamada (IN_APP, Notificacao.id notificacao) s, inr tt).

Definition _tipo_ativo (tipo : TipoNotificacao)
    (prefs : PreferenciaNotificacao.t) : Resultado bool :=
  match PreferenciaNotificacao.tipos_ativos prefs with
  | inl e => inl e
  | inr None => inr true
  | inr (Some tipos) => inr (bool_decide (tipo ∈ tipos))
  end.

(** [prefs.canais_ativos or [CanalNotificacao.IN_APP]] *)
Definition canais_ou_in_app (prefs : PreferenciaNotificacao.t)
  : Resultado (list CanalNotificacao) :=
  match PreferenciaNotificacao.canais_ativos prefs with
  | inl e => inl e
  | inr (Some (c :: cs)) => inr (c :: cs)
  | inr _ => inr [IN_APP]
  end.

(** One turn of the loop over the channels, with its [try]/[except]. *)
Definition enviar_por_canal (notificacao : Notificacao.t)
    (prefs : PreferenciaNotificacao.t) (canal : CanalNotificacao) : Acao unit :=
  try_except
    (if decide (canal = PUSH
                ∧ fcm_token_truthy (PreferenciaNotificacao.fcm_token prefs)) then
       _enviar_push notificacao (PreferenciaNotificacao.fcm_token prefs)
     else if decide (canal = EMAIL) then _enviar_email notificacao
     else if decide (canal = SMS) then _enviar_sms notificacao
     else if decide (canal = IN_APP) then _enviar_in_app notificacao
     else ret tt)
    (λ e, ret tt).

Definition marcar_enviada (agora : Z) : Notificacao.kwargs :=
  {| Notificacao.kw_status := Some ENVIADA;
     Notificacao.kw_enviada_em := Some agora |}.

Definition _enviar_notificacao (notificacao : Notificacao.t) (agora : Z)
  : Acao unit :=
  (prefs <- PreferenciaNotificacaoRepository.get_by_usuario escritorio_id
              (Notificacao.usuario_id notificacao) ;;
   match prefs with
   | None => _enviar_in_app notificacao
   | Some prefs =>
     ativo <- lift (_tipo_ativo (Notificacao.tipo notificacao) prefs) ;;
     if negb ativo then
       NotificacaoRepository.update escritorio_id (Notificacao.id notificacao)
         (marcar_enviada agora) ;;;
       ret tt
     else
       canais_ativos <- lift (canais_ou_in_app prefs) ;;
       for_each canais_ativos (enviar_por_canal notificacao prefs) ;;;
       NotificacaoRepository.update escritorio_id (Notificacao.id notificacao)
         (marcar_enviada agora) ;;;
       ret tt
   end)%acao.

Definition marcar_falha : Notificacao.kwargs :=
  {| Notificacao.kw_status := Some FALHA; Notificacao.kw_enviada_em := None |}.

(** The body of the loop of [processar_pendentes]: send, count, and on
    any exception mark the notification FALHA. *)
Definition tentar_enviar (notificacao : Notificacao.t) (agora : Z) (count : nat)
  : Acao nat :=
  try_except
    (_enviar_notificacao notificacao agora ;;; ret (S count))%acao
    (λ e, NotificacaoRepository.update escritorio_id
            (Notificacao.id notificacao) marcar_falha ;;;
          ret count)%acao.

Fixpoint processar (pendentes : list Notificacao.t) (agora : Z) (count : nat)
  : Acao nat :=
  match pendentes with
  | [] => ret count
  | notificacao :: resto =>
    (count' <- tentar_enviar notificacao agora count ;;
     processar resto agora count')%acao
  end.

Definition processar_pendentes (agora : Z) : Acao nat :=
  (pendentes <- NotificacaoRepository.get_pendentes_envio None 100 agora ;;
   processar pendentes agora 0%nat)%acao.

(** The loop of [verificar_prazos_e_notificar] with its counter. *)
Fixpoint notificar (prazos_urgentes : list Prazo.t) (hoje : Z)
    (notificacoes_criadas : nat) : Acao nat :=
  match prazos_urgentes with
  | [] => ret notificacoes_criadas
  | prazo :: resto =>
    (responsavel_id <- lift (Prazo.responsavel_id prazo) ;;
     match responsavel_id with
     | Some responsavel =>
       criar_notificacao_prazo responsavel (Prazo.id prazo)
         (Prazo.processo_numero prazo) (Prazo.descricao prazo)
         (Prazo.data_fatal prazo) (Prazo.dias_restantes hoje prazo) ;;;
       notificar resto hoje (S notificacoes_criadas)
     | None => notificar resto hoje notificacoes_criadas
     end)%acao
  end.

(** [verificar_prazos_e_notificar(db, escritorio_id)].  The setting
    [NOTIFICATION_DAYS_BEFORE_DEADLINE] is a list of days.  In
    [dias_antes = settings.NOTIFICATION_DAYS_BEFORE_DEADLINE or 7] an
    empty list gives 7; a list that is not empty is itself the value,
    and [get_pendentes] passes it to [timedelta(days=...)], which raises
    [TypeError] before any query. *)
Definition verificar_prazos_e_notificar
    (NOTIFICATION_DAYS_BEFORE_DEADLINE : list Z) (hoje : Z) : Acao nat :=
  match NOTIFICATION_DAYS_BEFORE_DEADLINE with
  | [] =>
    (prazos_urgentes <-
       ProcessoService.listar_prazos_pendentes escritorio_id 7 hoje ;;
     notificar prazos_urgentes hoje 0%nat)%acao
  | _ :: _ =>
    raise (TypeError "unsupported type for timedelta days component: list")
  end.

Definition listar_notificacoes_usuario (usuario_id : UUID)
    (apenas_nao_lidas : bool) (skip limit : nat) : Acao (list Notificacao.t) :=
  NotificacaoRepository.get_by_usuario escritorio_id usuario_id apenas_nao_lidas
    skip limit.

Definition contar_nao_lidas (usuario_id : UUID) : Acao nat :=
  NotificacaoRepository.count_nao_lidas escritorio_id usuario_id.

Definition get_preferencias (usuario_id : UUID)
  : Acao (option PreferenciaNotificacao.t) :=
  PreferenciaNotificacaoRepository.get_by_usuario escritorio_id usuario_id.

(** [atualizar_preferencias]; [dados] holds the fields that were set. *)
Definition atualizar_preferencias (usuario_id : UUID)
    (dados : PreferenciaNotificacao.kwargs)
  : Acao (option PreferenciaNotificacao.t) :=
  (prefs <- PreferenciaNotificacaoRepository.get_by_usuario escritorio_id usuario_id ;;
   match prefs with
   | Some prefs =>
     PreferenciaNotificacaoRepository.update escritorio_id
       (PreferenciaNotificacao.id prefs) dados
   | None =>
     prefs <- PreferenciaNotificacaoRepository.create escritorio_id usuario_id dados ;;
     ret (Some prefs)
   end)%acao.

Definition fcm_token_kwargs (fcm_token : string) : PreferenciaNotificacao.kwargs :=
  {| PreferenciaNotificacao.kw_push_enabled := None;
     PreferenciaNotificacao.kw_email_enabled := None;
     PreferenciaNotificacao.kw_sms_enabled := None;
     PreferenciaNotificacao.kw_prazo_vencendo_enabled := None;
     PreferenciaNotificacao.kw_prazo_hoje_enabled := None;
     PreferenciaNotificacao.kw_prazo_vencido_enabled := None;
     PreferenciaNotificacao.kw_novo_andamento_enabled := None;
     PreferenciaNotificacao.kw_mudanca_fase_enabled := None;
     PreferenciaNotificacao.kw_fcm_token := Some fcm_token |}.

Definition atualizar_fcm_token (usuario_id : UUID) (fcm_token : string)
  : Acao (option PreferenciaNotificacao.t) :=
  (prefs <- PreferenciaNotificacaoRepository.get_by_usuario escritorio_id usuario_id ;;
   match prefs with
   | Some prefs =>
     PreferenciaNotificacaoRepository.update escritorio_id
       (PreferenciaNotificacao.id prefs) (fcm_token_kwargs fcm_token)
   | None =>
     prefs <- PreferenciaNotificacaoRepository.create escritorio_id usuario_id
                (fcm_token_kwargs fcm_token) ;;
     ret (Some prefs)
   end)%acao.

End Service.

End NotificacaoService.

(** ** Concrete rows and sessions used by the examples below *)

Module Cenario.

Import StatusNotificacao.

Definition prazo (id escritorio : UUID) (status : StatusPrazo) (data_fatal : Z)
    (cumprido_por : option UUID) : Prazo.t :=
  {| Prazo.id := id;
     Prazo.escritorio_id := escritorio;
     Prazo.processo_id := 1%nat;
     Prazo.processo_numero := "0001";
     Prazo.tipo := RECURSO;
     Prazo.descricao := "Recurso ordinario";
     Prazo.data_fatal := data_fatal;
     Prazo.data_inicio := None;
     Prazo.dias_prazo := None;
     Prazo.status := status;
     Prazo.data_cumprimento := None;
     Prazo.cumprido_por_id := cumprido_por;
     Prazo.notificacao_enviada := false;
     Prazo.observacoes := None |}.

Definition notificacao (id escritorio usuario : UUID) (tipo : TipoNotificacao)
    (status : StatusNotificacao.t) (prazo_id : option UUID) : Notificacao.t :=
  {| Notificacao.id := id;
     Notificacao.escritorio_id := escritorio;
     Notificacao.tipo := tipo;
     Notificacao.titulo := "Prazo";
     Notificacao.mensagem := "Processo 0001: Recurso ordinario";
     Notificacao.canal := IN_APP;
     Notificacao.status := status;
     Notificacao.agendada_para := None;
     Notificacao.enviada_em := None;
     Notificacao.lida_em := None;
     Notificacao.tentativas := 0;
     Notificacao.erro_envio := None;
     Notificacao.action_url := None;
     Notificacao.usuario_id := usuario;
     Notificacao.prazo_id := prazo_id;
     Notificacao.processo_id := None;
     Notificacao.andamento_id := None |}.

Definition preferencia (id escritorio usuario : UUID) : PreferenciaNotificacao.t :=
  {| PreferenciaNotificacao.id := id;
     PreferenciaNotificacao.escritorio_id := escritorio;
     PreferenciaNotificacao.usuario_id := usuario;
     PreferenciaNotificacao.push_enabled := true;
     PreferenciaNotificacao.email_enabled := true;
     PreferenciaNotificacao.sms_enabled := false;
     PreferenciaNotificacao.prazo_vencendo_enabled := true;
     PreferenciaNotificacao.prazo_hoje_enabled := true;
     PreferenciaNotificacao.prazo_vencido_enabled := true;
     PreferenciaNotificacao.novo_andamento_enabled := true;
     PreferenciaNotificacao.mudanca_fase_enabled := true;
     PreferenciaNotificacao.fcm_token := Some "token" |}.

(** A row of preferences with the category of approaching deadlines
    turned off. *)
Definition preferencia_sem_prazo_vencendo (id escritorio usuario : UUID)
  : PreferenciaNotificacao.t :=
  {| PreferenciaNotificacao.id := id;
     PreferenciaNotificacao.escritorio_id := escritorio;
     PreferenciaNotificacao.usuario_id := usuario;
     PreferenciaNotificacao.push_enabled := true;
     PreferenciaNotificacao.email_enabled := true;
     PreferenciaNotificacao.sms_enabled := false;
     PreferenciaNotificacao.prazo_vencendo_enabled := false;
     PreferenciaNotificacao.prazo_hoje_enabled := true;
     PreferenciaNotificacao.prazo_vencido_enabled := true;
     PreferenciaNotificacao.novo_andamento_enabled := true;
     PreferenciaNotificacao.mudanca_fase_enabled := true;
     PreferenciaNotificacao.fcm_token := Some "token" |}.

Definition sessao (ns : list Notificacao.t) (ps : list PreferenciaNotificacao.t)
    (zs : list Prazo.t) : Estado :=
  {| notificacoes := ns; preferencias := ps; prazos := zs; chamadas := [] |}.


(** Every sender returns, as the senders of the source do. *)
Definition envia_sempre (c : CanalNotificacao) (n : Notificacao.t) : bool := true.

End Cenario.

(** ** Vocabulary of the properties *)

(** The dedup key of a deadline notification: the deadline it refers to
    and its tier. *)
Definition chave_dedup (prazo_id : UUID) (tipo : TipoNotificacao)
    (n : Notificacao.t) : Prop :=
  Notificacao.prazo_id n = Some prazo_id ∧ Notificacao.tipo n = tipo.

#[global] Instance chave_dedup_dec prazo_id tipo n :
  Decision (chave_dedup prazo_id tipo n).
Proof. unfold chave_dedup. apply _. Defined.



(** The calls to senders made for one notification. *)
Definition chamadas_de (id : UUID) (s : Estado) : list (CanalNotificacao * UUID) :=
  filter (λ c, c.2 = id) (chamadas s).


(** An action whose outcome does not depend on the table of
    notifications and which leaves that table alone. *)
Definition ignora_notificacoes {A} (m : Acao A) : Prop :=
  ∀ (ns : list Notificacao.t) (s : Estado),
    m (com_notificacoes ns s) = (com_notificacoes ns (m s).1, (m s).2).

(** What one turn of the loop of [processar_pendentes] writes on the
    notification it handles, by the outcome of the lookup of the
    recipient's preferences: nothing when there are no preferences,
    FALHA when there are, or when the lookup raises. *)
Definition efeito (prefs : Resultado (option PreferenciaNotificacao.t))
  : option Notificacao.kwargs :=
  match prefs with
  | inr None => None
  | _ => Some NotificacaoService.marcar_falha
  end.

(** The row of a claimed notification after the sweep of [escritorio]. *)
Definition resultado (escritorio : UUID) (s : Estado)
    (r : Notificacao.t) : Notificacao.t :=
  if decide (Notificacao.escritorio_id r = escritorio) then
    match efeito
            (PreferenciaNotificacaoRepository.get_by_usuario escritorio
               (Notificacao.usuario_id r) s).2 with
    | Some kw => Notificacao.setattrs kw r
    | None => r
    end
  else r.

(** The notifications claimed by the sweep at instant [agora]. *)
Definition pendentes_envio (agora : Z) (s : Estado) : list Notificacao.t :=
  take 100 (filter (NotificacaoRepository.pendente_envio None agora) (notificacoes s)).

(** The recipient of the notification has no preferences in the tenant
    of the sweep. *)
Definition sem_preferencias (escritorio : UUID) (s : Estado)
    (n : Notificacao.t) : Prop :=
  match (PreferenciaNotificacaoRepository.get_by_usuario escritorio
           (Notificacao.usuario_id n) s).2 with
  | inr None => True
  | _ => False
  end.

#[global] Instance sem_preferencias_dec escritorio s n :
  Decision (sem_preferencias escritorio s n).
Proof. unfold sem_preferencias. destruct (_.2) as [?|[?|]]; apply _. Defined.

(** The sweep of [escritorio] writes nothing on the notification: it
    belongs to another tenant, or its recipient has no preferences. *)
Definition sem_escrita (escritorio : UUID) (s : Estado) (n : Notificacao.t) : Prop :=
  Notificacao.escritorio_id n ≠ escritorio
  ∨ (PreferenciaNotificacaoRepository.get_by_usuario escritorio
       (Notificacao.usuario_id n) s).2 = inr None.

(** [k] sweeps in a row at instant [agora]. *)
Fixpoint varridas (adaptador : CanalNotificacao → Notificacao.t → bool)
    (escritorio : UUID) (agora : Z) (k : nat) (s : Estado) : Estado :=
  match k with
  | O => s
  | S k' =>
    varridas adaptador escritorio agora k'
      (NotificacaoService.processar_pendentes adaptador escritorio agora s).1
  end.


(** The key of a row of preferences: the tenant and the user. *)
Definition chave_preferencia (p : PreferenciaNotificacao.t) : UUID * UUID :=
  (PreferenciaNotificacao.escritorio_id p, PreferenciaNotificacao.usuario_id p).

(** No user of a tenant has two rows of preferences. *)
Definition preferencia_unica (s : Estado) : Prop :=
  NoDup (chave_preferencia <$> preferencias s).

(** A window of [dias] days from [hoje] that [timedelta] accepts and
    that ends on a date. *)
Definition janela_valida (hoje dias : Z) : Prop :=
  (-999999999 ≤ dias ≤ 999999999)
  ∧ datetime.date_min ≤ hoje + dias ≤ datetime.date_max.

#[global] Instance janela_valida_dec hoje dias : Decision (janela_valida hoje dias).
Proof. unfold janela_valida. apply _. Defined.

(** * Properties *)

(** ** Derived reads of a deadline *)

Lemma dias_restantes_pendente hoje p :
  Prazo.status p = PENDENTE →
  Prazo.dias_restantes hoje p = Prazo.data_fatal p - hoje.
Proof.
  intros Hst. unfold Prazo.dias_restantes.
  destruct (decide (Prazo.status p ≠ PENDENTE)) as [Hne|_]; [by destruct Hne|done].
Qed.

Lemma dias_restantes_nao_pendente hoje p :
  Prazo.status p ≠ PENDENTE → Prazo.dias_restantes hoje p = 0.
Proof.
  intros Hst. unfold Prazo.dias_restantes.
  destruct (decide (Prazo.status p ≠ PENDENTE)); [done|contradiction].
Qed.

(** C8, the claim as stated fails: a fulfilled deadline due in five days
    reads zero days remaining, not five. *)
Lemma dias_restantes_cumprido_nao_e_diferenca :
  Prazo.dias_restantes 5 (Cenario.prazo 1 1 CUMPRIDO 10 None)
  ≠ Prazo.data_fatal (Cenario.prazo 1 1 CUMPRIDO 10 None) - 5.
Proof. vm_compute. discriminate. Qed.

(** C8, amended: [dias_restantes] is the due date minus today (possibly
    negative) for a PENDENTE deadline and 0 for every other status;
    [is_urgente] holds iff [0 < dias_restantes <= 3]; [is_vencido] holds
    iff [dias_restantes < 0] and the status is PENDENTE. *)
Theorem prazo_leituras_derivadas (hoje : Z) (p : Prazo.t) :
  Prazo.dias_restantes hoje p
    = (if decide (Prazo.status p = PENDENTE) then Prazo.data_fatal p - hoje else 0)
  ∧ (Prazo.is_urgente hoje p = true ↔ 0 < Prazo.dias_restantes hoje p ≤ 3)
  ∧ (Prazo.is_vencido hoje p = true
     ↔ Prazo.dias_restantes hoje p < 0 ∧ Prazo.status p = PENDENTE).
Proof.
  split; [|split].
  - destruct (decide (Prazo.status p = PENDENTE)) as [Hst|Hst].
    + by apply dias_restantes_pendente.
    + by apply dias_restantes_nao_pendente.
  - unfold Prazo.is_urgente.
    rewrite andb_true_iff, Z.ltb_lt, Z.leb_le. done.
  - unfold Prazo.is_vencido.
    rewrite andb_true_iff, Z.ltb_lt, bool_decide_eq_true. done.
Qed.

(** ** Classification of a deadline notification *)

(** The [elif dias_restantes == 0] branch is never taken. *)
Lemma tipo_nunca_prazo_hoje (dias_restantes : Z)
    (classe : TipoNotificacao * string * Z) :
  NotificacaoService.tipo_titulo_prioridade dias_restantes = inr classe →
  classe.1.1 ≠ PRAZO_HOJE.
Proof.
  unfold NotificacaoService.tipo_titulo_prioridade.
  repeat case_decide; intros Heq; simplify_eq/=; try discriminate; lia.
Qed.

(** C5, at the failing input: with zero days remaining the chain of
    [criar_notificacao_prazo] picks the type PRAZO_VENCIDO, with the
    title and priority of an overdue deadline, not PRAZO_HOJE.  The
    first test [dias_restantes <= 0] takes every number of days that is
    not positive, zero included, so the branch of PRAZO_HOJE is reached
    for no number of days. *)
Theorem tipo_titulo_prioridade_dia_zero :
  NotificacaoService.tipo_titulo_prioridade 0
    = inr (PRAZO_VENCIDO, "⚠️ PRAZO VENCIDO", 10)
  ∧ (∀ dias classe,
       NotificacaoService.tipo_titulo_prioridade dias = inr classe →
       classe.1.1 ≠ PRAZO_HOJE)
  ∧ (∀ dias, dias ≤ 0 →
       NotificacaoService.tipo_titulo_prioridade dias
       = inr (PRAZO_VENCIDO, "⚠️ PRAZO VENCIDO", 10)).
Proof.
  split; [reflexivity|]. split; [apply tipo_nunca_prazo_hoje|].
  intros dias Hd. unfold NotificacaoService.tipo_titulo_prioridade.
  by rewrite decide_True.
Qed.

(** ** Lists *)

Lemma filter_nenhum {A} (P : A → Prop) `{∀ x, Decision (P x)} (l : list A) :
  (∀ q, q ∈ l → ¬ P q) → filter P l = [].
Proof.
  induction l as [|x l IH]; intros Hn; [done|].
  rewrite filter_cons, decide_False by (apply Hn; by left).
  apply IH. intros q Hq. apply Hn. by right.
Qed.

(** With [f] a key of the table, a condition that fixes the key selects
    one row. *)
Lemma filter_unico {A} (f : A → UUID) (P : A → Prop) `{∀ x, Decision (P x)}
    (l : list A) (p : A) :
  NoDup (f <$> l) → p ∈ l → P p → (∀ q, P q → f q = f p) →
  filter P l = [p].
Proof.
  intros Hnd Hin Hp Hid. induction l as [|x l IH]; [by apply elem_of_nil in Hin|].
  rewrite fmap_cons in Hnd. apply NoDup_cons in Hnd as [Hx Hnd].
  apply elem_of_cons in Hin as [<-|Hin].
  - rewrite filter_cons, decide_True by done. f_equal.
    apply filter_nenhum. intros q Hq HPq. apply Hx.
    rewrite <- (Hid q HPq). apply list_elem_of_fmap. by exists q.
  - rewrite filter_cons, decide_False; [by apply IH|].
    intros HPx. apply Hx. rewrite (Hid x HPx).
    apply list_elem_of_fmap. by exists p.
Qed.

(** ** The generic repository *)

Section RepositoryFacts.

Context {Row Kw : Type}.
Variable row_id : Row → UUID.
Variable row_escritorio_id : Row → UUID.
Variable setattrs : Kw → Row → Row.

(** No keyword of the services names [id] or [escritorio_id]. *)
Hypothesis setattrs_id : ∀ kw r, row_id (setattrs kw r) = row_id r.
Hypothesis setattrs_escritorio_id :
  ∀ kw r, row_escritorio_id (setattrs kw r) = row_escritorio_id r.

Local Abbreviation get := (get_by_id row_id row_escritorio_id).
Local Abbreviation pers := (persist row_id row_escritorio_id setattrs).
Local Abbreviation upd := (update row_id row_escritorio_id setattrs).

Lemma filter_persist_same t id kw (tabela : list Row) :
  filter (λ r, row_id r = id ∧ row_escritorio_id r = t) (pers t id kw tabela)
  = setattrs kw <$> filter (λ r, row_id r = id ∧ row_escritorio_id r = t) tabela.
Proof.
  unfold persist.
  induction tabela as [|r l IH]; [done|].
  rewrite fmap_cons, !filter_cons.
  destruct (decide (row_id r = id ∧ row_escritorio_id r = t)) as [Hr|Hr].
  - rewrite decide_True by (by rewrite setattrs_id, setattrs_escritorio_id).
    by rewrite fmap_cons, IH.
  - by rewrite decide_False, IH.
Qed.

Lemma filter_persist_other t id t' id' kw (tabela : list Row) :
  (id', t') ≠ (id, t) →
  filter (λ r, row_id r = id' ∧ row_escritorio_id r = t') (pers t id kw tabela)
  = filter (λ r, row_id r = id' ∧ row_escritorio_id r = t') tabela.
Proof.
  intros Hne. unfold persist.
  induction tabela as [|r l IH]; [done|].
  rewrite fmap_cons, !filter_cons, IH.
  destruct (decide (row_id r = id ∧ row_escritorio_id r = t)) as [[Hi Ht]|Hr]; [|done].
  rewrite !decide_False; [done| |].
  - intros [??]. apply Hne. congruence.
  - rewrite setattrs_id, setattrs_escritorio_id. intros [??]. apply Hne. congruence.
Qed.

Lemma scalar_one_or_none_fmap {A B} (f : A → B) (l : list A) :
  scalar_one_or_none (f <$> l)
  = match scalar_one_or_none l with
    | inl e => inl e
    | inr o => inr (f <$> o)
    end.
Proof. by destruct l as [|x [|y l]]. Qed.

Lemma get_by_id_persist_same t id kw tabela r :
  get t id tabela = inr (Some r) →
  get t id (pers t id kw tabela) = inr (Some (setattrs kw r)).
Proof.
  unfold get_by_id. intros H.
  by rewrite filter_persist_same, scalar_one_or_none_fmap, H.
Qed.

Lemma get_by_id_persist_other t id t' id' kw tabela :
  (id', t') ≠ (id, t) →
  get t' id' (pers t id kw tabela) = get t' id' tabela.
Proof.
  unfold get_by_id. intros H.
  by rewrite filter_persist_other.
Qed.

Lemma get_by_id_Some t id tabela r :
  get t id tabela = inr (Some r) →
  r ∈ tabela ∧ row_id r = id ∧ row_escritorio_id r = t.
Proof.
  unfold get_by_id. intros H.
  assert (r ∈ filter (λ r, row_id r = id ∧ row_escritorio_id r = t) tabela) as Hin.
  { destruct (filter _ tabela) as [|x [|y l]]; simplify_eq/=. by left. }
  apply list_elem_of_filter in Hin as [[??] ?]. done.
Qed.

(** A row of another tenant is never found, hence never updated. *)
Lemma update_outro_escritorio t id kw tabela :
  (∀ r, r ∈ tabela → row_id r = id → row_escritorio_id r ≠ t) →
  upd t id kw tabela = (tabela, inr None).
Proof.
  intros H. unfold update, get_by_id.
  assert (filter (λ r, row_id r = id ∧ row_escritorio_id r = t) tabela = []) as ->; [|done].
  induction tabela as [|r l IH]; [done|].
  rewrite filter_cons, decide_False.
  - apply IH. intros ???. apply H; [by right|done].
  - intros [??]. by eapply H; [left|..].
Qed.

Lemma update_Some t id kw tabela r :
  get t id tabela = inr (Some r) →
  upd t id kw tabela = (pers t id kw tabela, inr (Some (setattrs kw r))).
Proof. intros H. unfold update. by rewrite H. Qed.

Lemma persist_ids t id kw tabela :
  row_id <$> pers t id kw tabela = row_id <$> tabela.
Proof.
  unfold persist. rewrite <- list_fmap_compose.
  apply list_fmap_ext. intros i r _. simpl. case_decide; [apply setattrs_id|done].
Qed.

(** With [id] a primary key, [get_by_id] does not raise. *)
Lemma get_by_id_NoDup t id tabela :
  NoDup (row_id <$> tabela) →
  ∃ o, get t id tabela = inr o.
Proof.
  clear setattrs_id setattrs_escritorio_id.
  intros Hnd. unfold get_by_id.
  destruct (filter _ tabela) as [|x [|y l]] eqn:Hf; [by eexists..|].
  exfalso.
  assert (row_id <$> (x :: y :: l) = [id; id] ++ (row_id <$> l)
          ∨ ¬ (row_id x = id ∧ row_id y = id)) as [Heq|Hne].
  { destruct (decide (row_id x = id ∧ row_id y = id)) as [[Hx Hy]|]; [left|by right].
    simpl. by rewrite Hx, Hy. }
  - assert (NoDup (row_id <$> (x :: y :: l))) as Hnd'.
    { rewrite <- Hf. eapply sublist_NoDup; [exact Hnd|].
      apply fmap_sublist, sublist_filter. }
    rewrite Heq in Hnd'. simpl in Hnd'. apply NoDup_cons in Hnd' as [Hni _].
    apply Hni. by left.
  - apply Hne.
    assert (x ∈ filter (λ r, row_id r = id ∧ row_escritorio_id r = t) tabela) as Hx
      by (rewrite Hf; set_solver).
    assert (y ∈ filter (λ r, row_id r = id ∧ row_escritorio_id r = t) tabela) as Hy
      by (rewrite Hf; set_solver).
    apply list_elem_of_filter in Hx as [[??] _], Hy as [[??] _]. done.
Qed.

Lemma get_by_id_elem t tabela r :
  NoDup (row_id <$> tabela) → r ∈ tabela → row_escritorio_id r = t →
  get t (row_id r) tabela = inr (Some r).
Proof.
  clear setattrs_id setattrs_escritorio_id.
  intros Hnd Hin Ht.
  destruct (get_by_id_NoDup t (row_id r) tabela Hnd) as [o Ho].
  rewrite Ho. f_equal. destruct o as [r'|].
  - apply get_by_id_Some in Ho as (Hin' & Hid & _). f_equal.
    apply list_elem_of_lookup in Hin as [i Hi], Hin' as [j Hj].
    assert (i = j) as ->; [|congruence].
    eapply NoDup_lookup; [exact Hnd|..].
    + by rewrite list_lookup_fmap, Hi.
    + by rewrite list_lookup_fmap, Hj, <- Hid.
  - exfalso. revert Ho. unfold get_by_id.
    assert (r ∈ filter (λ r0, row_id r0 = row_id r ∧ row_escritorio_id r0 = t) tabela)
      as Hf by (apply list_elem_of_filter; done).
    destruct (filter _ tabela) as [|x [|y l]]; [set_solver|done..].
Qed.

End RepositoryFacts.

Lemma get_by_id_nenhum {Row} (row_id row_escritorio_id : Row → UUID) t id
    (tabela : list Row) :
  (∀ r, r ∈ tabela → row_id r = id → row_escritorio_id r ≠ t) →
  get_by_id row_id row_escritorio_id t id tabela = inr None.
Proof.
  intros H. unfold get_by_id.
  rewrite filter_nenhum; [done|]. intros r Hr [Hid He]. by apply (H r Hr Hid).
Qed.

(** ** Fulfilling a deadline *)

Lemma Prazo_setattrs_id kw r : Prazo.id (Prazo.setattrs kw r) = Prazo.id r.
Proof. reflexivity. Qed.

Lemma Prazo_setattrs_escritorio_id kw r :
  Prazo.escritorio_id (Prazo.setattrs kw r) = Prazo.escritorio_id r.
Proof. reflexivity. Qed.

(** C7, the claim as stated fails: a deadline that is IN_PROGRESS
    (EM_ANDAMENTO) cannot be fulfilled; the call is rejected and the
    session is left as it was. *)
Lemma cumprir_prazo_em_andamento_rejeitado :
  let s := Cenario.sessao [] [] [Cenario.prazo 1 1 EM_ANDAMENTO 10 None] in
  ProcessoService.cumprir_prazo 1 1 7 100 s
  = (s, inl (BusinessRuleError "Prazo já está em_andamento")).
Proof. reflexivity. Qed.

(** C7, amended: [cumprir_prazo] succeeds exactly when the deadline is
    found for the tenant and is PENDENTE; it then sets the status to
    CUMPRIDO and records the actor and the instant, and a second call on
    the same deadline is rejected with [BusinessRuleError] and leaves the
    session unchanged.  For any other status, EM_ANDAMENTO included, the
    call is rejected with [BusinessRuleError]; for an id that no
    deadline has, or that only a deadline of another tenant has, it is
    rejected with [ResourceNotFoundError]; a rejected call leaves the
    session unchanged. *)
Theorem cumprir_prazo_exatamente_pendente
    (escritorio prazo_id usuario : UUID) (agora : Z) (s : Estado) :
  (∀ p,
     get_by_id Prazo.id Prazo.escritorio_id escritorio prazo_id (prazos s)
       = inr (Some p) →
     Prazo.status p = PENDENTE →
     ∃ s' p',
       ProcessoService.cumprir_prazo escritorio prazo_id usuario agora s
         = (s', inr (Some p'))
       ∧ Prazo.status p' = CUMPRIDO
       ∧ Prazo.data_cumprimento p' = Some agora
       ∧ Prazo.cumprido_por_id p' = Some usuario
       ∧ Prazo.data_fatal p' = Prazo.data_fatal p
       ∧ get_by_id Prazo.id Prazo.escritorio_id escritorio prazo_id (prazos s')
           = inr (Some p')
       ∧ ∀ usuario2 agora2,
           ProcessoService.cumprir_prazo escritorio prazo_id usuario2 agora2 s'
           = (s', inl (BusinessRuleError "Prazo já está cumprido")))
  ∧ (∀ p,
       get_by_id Prazo.id Prazo.escritorio_id escritorio prazo_id (prazos s)
         = inr (Some p) →
       Prazo.status p ≠ PENDENTE →
       ProcessoService.cumprir_prazo escritorio prazo_id usuario agora s
       = (s, inl (BusinessRuleError
                    ("Prazo já está " +:+ StatusPrazo_value (Prazo.status p)))))
  ∧ ((∀ q, q ∈ prazos s → Prazo.id q = prazo_id →
           Prazo.escritorio_id q ≠ escritorio) →
     ProcessoService.cumprir_prazo escritorio prazo_id usuario agora s
     = (s, inl (ResourceNotFoundError "Prazo" prazo_id)))
  ∧ ((∃ s' r,
        ProcessoService.cumprir_prazo escritorio prazo_id usuario agora s
        = (s', inr r))
     ↔ ∃ p,
         get_by_id Prazo.id Prazo.escritorio_id escritorio prazo_id (prazos s)
           = inr (Some p)
         ∧ Prazo.status p = PENDENTE).
Proof.
  set (kw := {| Prazo.kw_descricao := None; Prazo.kw_data_fatal := None;
                Prazo.kw_status := Some CUMPRIDO; Prazo.kw_observacoes := None;
                Prazo.kw_data_cumprimento := Some agora;
                Prazo.kw_cumprido_por_id := Some usuario |}).
  assert (∀ p,
            get_by_id Prazo.id Prazo.escritorio_id escritorio prazo_id (prazos s)
              = inr (Some p) →
            Prazo.status p = PENDENTE →
            ProcessoService.cumprir_prazo escritorio prazo_id usuario agora s
            = (com_prazos (persist Prazo.id Prazo.escritorio_id Prazo.setattrs
                             escritorio prazo_id kw (prazos s)) s,
               inr (Some (Prazo.setattrs kw p)))) as Hok.
  { intros p Hget Hst.
    unfold ProcessoService.cumprir_prazo, bind, PrazoRepository.get_by_id,
      PrazoRepository.update.
    rewrite Hget. rewrite decide_False by (intros H; by apply H).
    erewrite update_Some by exact Hget. done. }
  assert (∀ p,
            get_by_id Prazo.id Prazo.escritorio_id escritorio prazo_id (prazos s)
              = inr (Some p) →
            Prazo.status p ≠ PENDENTE →
            ProcessoService.cumprir_prazo escritorio prazo_id usuario agora s
            = (s, inl (BusinessRuleError
                         ("Prazo já está " +:+ StatusPrazo_value (Prazo.status p)))))
    as Hno.
  { intros p Hget Hst.
    unfold ProcessoService.cumprir_prazo, bind, PrazoRepository.get_by_id.
    rewrite Hget. by rewrite decide_True. }
  split; [|split; [exact Hno|split]].
  - intros p Hget Hst.
    eexists _, _. split; [by apply Hok|].
    assert (get_by_id Prazo.id Prazo.escritorio_id escritorio prazo_id
              (persist Prazo.id Prazo.escritorio_id Prazo.setattrs
                 escritorio prazo_id kw (prazos s))
            = inr (Some (Prazo.setattrs kw p))) as Hget'.
    { apply get_by_id_persist_same;
        [apply Prazo_setattrs_id|apply Prazo_setattrs_escritorio_id|exact Hget]. }
    split; [done|]. split; [done|]. split; [done|]. split; [done|].
    split; [exact Hget'|].
    intros usuario2 agora2.
    unfold ProcessoService.cumprir_prazo, bind, PrazoRepository.get_by_id.
    cbn [prazos com_prazos]. rewrite Hget'.
    rewrite decide_True by done. done.
  - intros Hfora.
    unfold ProcessoService.cumprir_prazo, bind, PrazoRepository.get_by_id.
    by rewrite get_by_id_nenhum.
  - split.
    + intros (s' & r & Heq).
      destruct (get_by_id Prazo.id Prazo.escritorio_id escritorio prazo_id (prazos s))
        as [e|[p|]] eqn:Hget.
      * unfold ProcessoService.cumprir_prazo, bind, PrazoRepository.get_by_id in Heq.
        rewrite Hget in Heq. discriminate Heq.
      * exists p. split; [done|].
        destruct (decide (Prazo.status p = PENDENTE)) as [Hst|Hst]; [done|].
        rewrite (Hno p eq_refl Hst) in Heq. discriminate Heq.
      * unfold ProcessoService.cumprir_prazo, bind, PrazoRepository.get_by_id in Heq.
        rewrite Hget in Heq. discriminate Heq.
    + intros (p & Hget & Hst). eexists _, _. by apply Hok.
Qed.

Lemma cumprir_prazo_exatamente_pendente_witness :
  let s := Cenario.sessao [] [] [Cenario.prazo 1 1 PENDENTE 10 None] in
  (∃ s' p',
     ProcessoService.cumprir_prazo 1 1 7 100 s = (s', inr (Some p'))
     ∧ Prazo.status p' = CUMPRIDO
     ∧ Prazo.data_cumprimento p' = Some 100
     ∧ Prazo.cumprido_por_id p' = Some 7%nat
     ∧ Prazo.data_fatal p' = 10
     ∧ get_by_id Prazo.id Prazo.escritorio_id 1 1 (prazos s') = inr (Some p')
     ∧ ∀ usuario2 agora2,
         ProcessoService.cumprir_prazo 1 1 usuario2 agora2 s'
         = (s', inl (BusinessRuleError "Prazo já está cumprido")))
  ∧ ProcessoService.cumprir_prazo 2 1 7 100 s
    = (s, inl (ResourceNotFoundError "Prazo" 1)).
Proof.
  intros s. split.
  - exact (proj1 (cumprir_prazo_exatamente_pendente 1 1 7 100 s)
             (Cenario.prazo 1 1 PENDENTE 10 None) eq_refl eq_refl).
  - apply (proj1 (proj2 (proj2 (cumprir_prazo_exatamente_pendente 2 1 7 100 s)))).
    intros q Hq _. apply list_elem_of_singleton in Hq as ->. discriminate.
Defined.

(** ** Marking notifications as read *)

(** C9, the claim as stated fails: a PENDENTE notification that was never
    sent becomes LIDA through [marcar_como_lida], and a FALHA one through
    [marcar_todas_como_lidas]. *)
Lemma marcar_como_lida_de_pendente_e_falha :
  let s := Cenario.sessao
             [Cenario.notificacao 1 1 7 SISTEMA StatusNotificacao.PENDENTE None;
              Cenario.notificacao 2 1 7 SISTEMA StatusNotificacao.FALHA None] [] [] in
  Notificacao.status
    <$> notificacoes (NotificacaoRepository.marcar_como_lida 1 [1%nat] 7 50 s).1
    = [StatusNotificacao.LIDA; StatusNotificacao.FALHA]
  ∧ Notificacao.status
      <$> notificacoes (NotificacaoRepository.marcar_todas_como_lidas 1 7 50 s).1
      = [StatusNotificacao.LIDA; StatusNotificacao.LIDA].
Proof. split; reflexivity. Qed.

Lemma update_lida_lookup (P : Notificacao.t → Prop) `{∀ n, Decision (P n)}
    agora s i n :
  notificacoes s !! i = Some n →
  notificacoes (NotificacaoRepository.update_lida P agora s).1 !! i
  = Some (if decide (P n) then Notificacao.values_lida agora n else n).
Proof.
  intros Hi. unfold NotificacaoRepository.update_lida. cbn.
  by rewrite list_lookup_fmap, Hi.
Qed.

(** C9, amended: neither mark-as-read operation looks for ENVIADA.
    [marcar_como_lida] turns every listed notification of the tenant and
    user into LIDA with [lida_em] set, whatever its status was, and
    [marcar_todas_como_lidas] does so for every notification of the tenant
    and user that is not yet LIDA, so PENDENTE and FALHA ones included;
    a notification that is not selected is unchanged. *)
Theorem marcar_lida_sem_olhar_status
    (escritorio usuario : UUID) (ids : list UUID) (agora : Z) (s : Estado)
    (i : nat) (n : Notificacao.t) :
  notificacoes s !! i = Some n →
  let s1 := (NotificacaoRepository.marcar_como_lida escritorio ids usuario agora s).1 in
  let s2 := (NotificacaoRepository.marcar_todas_como_lidas escritorio usuario agora s).1 in
  (Notificacao.escritorio_id n = escritorio → Notificacao.usuario_id n = usuario →
   (Notificacao.id n ∈ ids →
    ∃ n', notificacoes s1 !! i = Some n'
          ∧ Notificacao.id n' = Notificacao.id n
          ∧ Notificacao.status n' = StatusNotificacao.LIDA
          ∧ Notificacao.lida_em n' = Some agora)
   ∧ (Notificacao.status n ≠ StatusNotificacao.LIDA →
      ∃ n', notificacoes s2 !! i = Some n'
            ∧ Notificacao.id n' = Notificacao.id n
            ∧ Notificacao.status n' = StatusNotificacao.LIDA
            ∧ Notificacao.lida_em n' = Some agora))
  ∧ (¬ NotificacaoRepository.where_lida escritorio ids usuario n →
     notificacoes s1 !! i = Some n)
  ∧ (¬ NotificacaoRepository.where_todas escritorio usuario n →
     notificacoes s2 !! i = Some n).
Proof.
  intros Hi s1 s2. subst s1 s2.
  unfold NotificacaoRepository.marcar_como_lida,
    NotificacaoRepository.marcar_todas_como_lidas.
  rewrite !(update_lida_lookup _ agora s i n Hi).
  split; [intros Ht Hu; split; intros Hsel|split; intros Hsel].
  - rewrite decide_True by done. eexists. by split.
  - rewrite decide_True by done. eexists. by split.
  - by rewrite decide_False.
  - by rewrite decide_False.
Qed.

Lemma marcar_lida_sem_olhar_status_witness :
  let s := Cenario.sessao
             [Cenario.notificacao 1 1 7 SISTEMA StatusNotificacao.PENDENTE None] [] [] in
  (∃ n', notificacoes
           (NotificacaoRepository.marcar_como_lida 1 [1%nat] 7 50 s).1 !! 0%nat
         = Some n'
         ∧ Notificacao.id n' = 1%nat
         ∧ Notificacao.status n' = StatusNotificacao.LIDA
         ∧ Notificacao.lida_em n' = Some 50)
  ∧ (∃ n', notificacoes
             (NotificacaoRepository.marcar_todas_como_lidas 1 7 50 s).1 !! 0%nat
           = Some n'
           ∧ Notificacao.id n' = 1%nat
           ∧ Notificacao.status n' = StatusNotificacao.LIDA
           ∧ Notificacao.lida_em n' = Some 50).
Proof.
  pose proof (marcar_lida_sem_olhar_status 1 7 [1%nat] 50
                (Cenario.sessao
                   [Cenario.notificacao 1 1 7 SISTEMA StatusNotificacao.PENDENTE None]
                   [] [])
                0 (Cenario.notificacao 1 1 7 SISTEMA StatusNotificacao.PENDENTE None)
                eq_refl) as [H _].
  destruct (H eq_refl eq_refl) as [H1 H2].
  split; [apply H1; by left|apply H2; discriminate].
Defined.

(** ** [BaseRepository.update]: keywords whose value is [None] *)

Section UpdateFacts.

Context {V : Type} `{EqDecision V}.
Implicit Types (kw : list (string * option V)).
Implicit Types (instance : gmap string (option V)).

Lemma setattrs_not_named kw instance key :
  ¬ BaseRepository.named key kw →
  BaseRepository.setattrs kw instance !! key = instance !! key.
Proof.
  revert instance. induction kw as [|[k [v|]] kw IH]; intros instance Hn; simpl.
  - done.
  - rewrite IH.
    + unfold BaseRepository.setattr. apply lookup_insert_ne.
      intros ->. apply Hn. exists v. by left.
    + intros [v' Hv']. apply Hn. exists v'. by right.
  - apply IH. intros [v' Hv']. apply Hn. exists v'. by right.
Qed.


(** A keyword with a value is stored when no later keyword names the column. *)
Lemma setattrs_named_last kw kw' instance key v :
  ¬ BaseRepository.named key kw' →
  BaseRepository.setattrs (kw ++ (key, Some v) :: kw') instance !! key = Some (Some v).
Proof.
  intros Hn. revert instance. induction kw as [|[k [w|]] kw IH]; intros instance; simpl.
  - rewrite setattrs_not_named by done. apply lookup_insert_eq.
  - apply IH.
  - apply IH.
Qed.






End UpdateFacts.




(** In the example the keyword that is [None] is indeed not named, the
    column keeps "timeout", and the other keyword is stored. *)
Lemma update_exemplo :
  let row_id (r : gmap string (option string)) : UUID := 1%nat in
  let row : gmap string (option string) :=
    {[ "titulo" := Some "Prazo"; "erro_envio" := Some "timeout";
       "updated_at" := Some "t0" ]} in
  let kw : list (string * option string) :=
    [("titulo", Some "Novo"); ("erro_envio", None)] in
  ¬ BaseRepository.named "erro_envio" kw
  ∧ ∃ tabela' instance',
      update row_id row_id (BaseRepository.setattrs_commit "t1") 1 1 kw [row]
        = (tabela', inr (Some instance'))
      ∧ instance' !! "erro_envio" = Some (Some "timeout")
      ∧ instance' !! "titulo" = Some (Some "Novo").
Proof.
  intros row_id row kw. split.
  - intros [v Hv]. subst kw.
    apply elem_of_cons in Hv as [Hv|Hv]; [discriminate Hv|].
    apply elem_of_cons in Hv as [Hv|Hv]; [discriminate Hv|].
    by apply elem_of_nil in Hv.
  - eexists _, _. split; [reflexivity|]. split; by vm_compute.
Qed.

(** ** The daily scan *)

Lemma order_by_data_fatal_elem (l : list Prazo.t) (p : Prazo.t) :
  p ∈ PrazoRepository.order_by_data_fatal l ↔ p ∈ l.
Proof.
  unfold PrazoRepository.order_by_data_fatal. by rewrite merge_sort_Permutation.
Qed.

Lemma order_by_data_fatal_length (l : list Prazo.t) :
  length (PrazoRepository.order_by_data_fatal l) = length l.
Proof.
  unfold PrazoRepository.order_by_data_fatal. by rewrite merge_sort_Permutation.
Qed.

(** [criar_notificacao] raises at the call of [create], whatever the
    payload. *)
Lemma criar_notificacao_falha escritorio dados usuario s :
  NotificacaoService.criar_notificacao escritorio dados usuario s
  = (s, inl (TypeError "got multiple values for keyword argument 'usuario_id'")).
Proof. reflexivity. Qed.

(** [criar_notificacao_prazo] raises before it reaches the repository:
    at the read of [PRAZO_URGENTE] with one to three days remaining, at
    the construction of the payload otherwise. *)
Lemma criar_notificacao_prazo_falha escritorio usuario pid numero descricao
    data_fatal dias s :
  NotificacaoService.criar_notificacao_prazo escritorio usuario pid numero descricao
    data_fatal dias s
  = (s, inl (if decide (1 ≤ dias ≤ 3)
             then AttributeError "TipoNotificacao" "PRAZO_URGENTE"
             else ValidationError "usuario_id")).
Proof.
  unfold NotificacaoService.criar_notificacao_prazo,
    NotificacaoService.tipo_titulo_prioridade, bind, lift.
  repeat case_decide; try reflexivity; lia.
Qed.

(** The loop of the scan stops at its first deadline, on the read of
    [responsavel_id]. *)
Lemma notificar_spec escritorio (l : list Prazo.t) hoje c s :
  NotificacaoService.notificar escritorio l hoje c s
  = (s, match l with
        | [] => inr c
        | _ :: _ => inl (AttributeError "Prazo" "responsavel_id")
        end).
Proof. by destruct l. Qed.

(** The outcome of the daily scan; the session is left as it was. *)
Lemma verificar_prazos_e_notificar_spec escritorio dias hoje s :
  NotificacaoService.verificar_prazos_e_notificar escritorio dias hoje s
  = (s, match dias with
        | _ :: _ =>
          inl (TypeError "unsupported type for timedelta days component: list")
        | [] =>
          match datetime.today_plus hoje 7 with
          | inl e => inl e
          | inr data_limite =>
            match filter (PrazoRepository.where_pendentes escritorio data_limite)
                    (prazos s) with
            | [] => inr 0%nat
            | _ :: _ => inl (AttributeError "Prazo" "responsavel_id")
            end
          end
        end).
Proof.
  destruct dias as [|d dias]; [|reflexivity].
  unfold NotificacaoService.verificar_prazos_e_notificar,
    ProcessoService.listar_prazos_pendentes, PrazoRepository.get_pendentes, lift.
  unfold bind.
  destruct (datetime.today_plus hoje 7) as [e|data_limite]; [reflexivity|].
  rewrite notificar_spec.
  pose proof (order_by_data_fatal_length
                (filter (PrazoRepository.where_pendentes escritorio data_limite)
                   (prazos s))) as Hlen.
  destruct (filter _ (prazos s)) as [|p l];
    destruct (PrazoRepository.order_by_data_fatal _) as [|q l'];
    simpl in Hlen; try discriminate Hlen; reflexivity.
Qed.




(** ** One notification through the dispatch *)

Lemma Notificacao_setattrs_id kw r :
  Notificacao.id (Notificacao.setattrs kw r) = Notificacao.id r.
Proof. reflexivity. Qed.

Lemma Notificacao_setattrs_escritorio_id kw r :
  Notificacao.escritorio_id (Notificacao.setattrs kw r) = Notificacao.escritorio_id r.
Proof. reflexivity. Qed.

(** [_tipo_ativo] raises for every type and every row of preferences. *)
Lemma tipo_ativo_falha tipo prefs :
  NotificacaoService._tipo_ativo tipo prefs
  = inl (AttributeError "PreferenciaNotificacao" "tipos_ativos").
Proof. reflexivity. Qed.

Section Envio.

Variable adaptador : CanalNotificacao → Notificacao.t → bool.
Variable escritorio : UUID.
Variable agora : Z.

(** [_enviar_notificacao], by the outcome of the lookup of the
    preferences: the in-app sender alone when there are none; with a row
    of preferences the call of [_tipo_ativo] raises, before any sender
    and any write. *)
Lemma enviar_notificacao_spec n s :
  NotificacaoService._enviar_notificacao adaptador escritorio n agora s
  = match (PreferenciaNotificacaoRepository.get_by_usuario escritorio
             (Notificacao.usuario_id n) s).2 with
    | inl e => (s, inl e)
    | inr None => (com_chamada (IN_APP, Notificacao.id n) s, inr tt)
    | inr (Some prefs) =>
      (s, inl (AttributeError "PreferenciaNotificacao" "tipos_ativos"))
    end.
Proof.
  unfold NotificacaoService._enviar_notificacao,
    PreferenciaNotificacaoRepository.get_by_usuario, bind.
  cbn [snd].
  by destruct (scalar_one_or_none _) as [e|[prefs|]].
Qed.

End Envio.

Section RepositoryKeyFacts.

Context {Row Kw : Type}.
Variable row_id : Row → UUID.
Variable row_escritorio_id : Row → UUID.
Variable setattrs : Kw → Row → Row.

Lemma persist_sem_linha t id kw (tabela : list Row) :
  filter (λ r, row_id r = id ∧ row_escritorio_id r = t) tabela = [] →
  persist row_id row_escritorio_id setattrs t id kw tabela = tabela.
Proof.
  intros Hf. unfold persist.
  rewrite <- (list_fmap_id tabela) at 2. apply list_fmap_ext.
  intros i r Hi. simpl. rewrite decide_False; [reflexivity|].
  intros Hr. assert (r ∈ filter (λ r, row_id r = id ∧ row_escritorio_id r = t) tabela) as Hin.
  { apply list_elem_of_filter. split; [exact Hr|by eapply list_elem_of_lookup_2]. }
  rewrite Hf in Hin. by apply elem_of_nil in Hin.
Qed.

(** With [id] a primary key, [update] does not raise and its effect on
    the table is [persist]. *)
Lemma update_NoDup t id kw (tabela : list Row) :
  NoDup (row_id <$> tabela) →
  ∃ o, update row_id row_escritorio_id setattrs t id kw tabela
       = (persist row_id row_escritorio_id setattrs t id kw tabela, inr o).
Proof.
  intros Hnd. unfold update.
  destruct (get_by_id_NoDup row_id row_escritorio_id t id tabela Hnd) as [[r|] Ho].
  - rewrite Ho. by eexists.
  - rewrite Ho. exists None. f_equal. symmetry. apply persist_sem_linha.
    revert Ho. unfold get_by_id. by destruct (filter _ tabela) as [|? [|??]].
Qed.

(** A key identifies the row. *)
Lemma NoDup_fmap_chave (l : list Row) (x y : Row) :
  NoDup (row_id <$> l) → x ∈ l → y ∈ l → row_id x = row_id y → x = y.
Proof.
  intros Hnd [i Hi]%list_elem_of_lookup [j Hj]%list_elem_of_lookup Heq.
  assert (i = j) as ->; [|congruence].
  eapply NoDup_lookup; [exact Hnd|..].
  - by rewrite list_lookup_fmap, Hi.
  - by rewrite list_lookup_fmap, Hj, Heq.
Qed.

End RepositoryKeyFacts.

Section Varrida.

Variable adaptador : CanalNotificacao → Notificacao.t → bool.
Variable escritorio : UUID.
Variable agora : Z.

Local Abbreviation pers :=
  (persist Notificacao.id Notificacao.escritorio_id Notificacao.setattrs escritorio).

Lemma repo_update_NoDup id kw s :
  NoDup (Notificacao.id <$> notificacoes s) →
  ∃ o, NotificacaoRepository.update escritorio id kw s
       = (com_notificacoes (pers id kw (notificacoes s)) s, inr o).
Proof.
  intros Hnd. unfold NotificacaoRepository.update.
  destruct (update_NoDup Notificacao.id Notificacao.escritorio_id Notificacao.setattrs
              escritorio id kw (notificacoes s) Hnd) as [o ->].
  by exists o.
Qed.

(** One turn of the loop never raises.  It counts the notification and
    calls the in-app sender when the recipient has no preferences;
    otherwise it calls no sender, does not count, and marks the
    notification FALHA through the repository of the tenant. *)
Lemma tentar_enviar_spec n c s :
  NoDup (Notificacao.id <$> notificacoes s) →
  ∃ s',
    NotificacaoService.tentar_enviar adaptador escritorio n agora c s
      = (s', inr (if decide (sem_preferencias escritorio s n) then S c else c))
    ∧ preferencias s' = preferencias s
    ∧ prazos s' = prazos s
    ∧ notificacoes s'
      = match efeito
                (PreferenciaNotificacaoRepository.get_by_usuario escritorio
                   (Notificacao.usuario_id n) s).2 with
        | Some kw => pers (Notificacao.id n) kw (notificacoes s)
        | None => notificacoes s
        end
    ∧ chamadas s'
      = (if decide (sem_preferencias escritorio s n)
         then [(IN_APP, Notificacao.id n)] else []) ++ chamadas s.
Proof.
  intros Hnd.
  unfold NotificacaoService.tentar_enviar, try_except.
  unfold bind at 1. rewrite enviar_notificacao_spec.
  destruct (repo_update_NoDup (Notificacao.id n) NotificacaoService.marcar_falha s Hnd)
    as [o Hupd].
  destruct (decide (sem_preferencias escritorio s n)) as [Hs|Hs];
    unfold sem_preferencias in Hs;
    destruct ((PreferenciaNotificacaoRepository.get_by_usuario escritorio
                 (Notificacao.usuario_id n) s).2) as [e|[prefs|]];
    try done.
  - eexists. split; [reflexivity|]. done.
  - unfold bind. rewrite Hupd. eexists. split; [reflexivity|]. done.
  - unfold bind. rewrite Hupd. eexists. split; [reflexivity|]. done.
Qed.

Lemma resultado_preferencias s1 s r :
  preferencias s1 = preferencias s →
  resultado escritorio s1 r = resultado escritorio s r.
Proof.
  intros Hp. unfold resultado, PreferenciaNotificacaoRepository.get_by_usuario.
  cbn [snd]. by rewrite Hp.
Qed.

Lemma sem_preferencias_preferencias s1 s n :
  preferencias s1 = preferencias s →
  sem_preferencias escritorio s1 n ↔ sem_preferencias escritorio s n.
Proof.
  intros Hp. unfold sem_preferencias, PreferenciaNotificacaoRepository.get_by_usuario.
  cbn [snd]. by rewrite Hp.
Qed.

(** The effect of one turn on a row, as a function of the row. *)
Lemma tentar_enviar_linhas m c s :
  NoDup (Notificacao.id <$> notificacoes s) →
  m ∈ notificacoes s →
  ∃ s',
    NotificacaoService.tentar_enviar adaptador escritorio m agora c s
      = (s', inr (if decide (sem_preferencias escritorio s m) then S c else c))
    ∧ preferencias s' = preferencias s
    ∧ prazos s' = prazos s
    ∧ notificacoes s'
      = (λ r, if decide (Notificacao.id r = Notificacao.id m)
              then resultado escritorio s r else r) <$> notificacoes s
    ∧ chamadas s'
      = (if decide (sem_preferencias escritorio s m)
         then [(IN_APP, Notificacao.id m)] else []) ++ chamadas s.
Proof.
  intros Hnd Hm.
  destruct (tentar_enviar_spec m c s Hnd) as (s' & Heq & Hp & Hz & Hn & Hk).
  exists s'. split; [done|]. split; [done|]. split; [done|]. split; [|done].
  rewrite Hn. clear Heq Hp Hz Hn Hk.
  assert (∀ r, r ∈ notificacoes s → Notificacao.id r = Notificacao.id m → r = m) as Hum.
  { intros r Hr Hid. by eapply (NoDup_fmap_chave Notificacao.id). }
  destruct (efeito _) as [kw|] eqn:Hef.
  - unfold persist. apply list_fmap_ext. intros i r Hi. simpl.
    apply list_elem_of_lookup_2 in Hi.
    destruct (decide (Notificacao.id r = Notificacao.id m)) as [Hid|Hid].
    + rewrite (Hum r Hi Hid). unfold resultado. rewrite Hef.
      destruct (decide (Notificacao.escritorio_id m = escritorio)) as [He|He].
      * by rewrite decide_True.
      * rewrite decide_False; [done|]. by intros [_ ?].
    + rewrite decide_False; [done|]. by intros [? _].
  - rewrite <- (list_fmap_id (notificacoes s)) at 1. apply list_fmap_ext.
    intros i r Hi. simpl. apply list_elem_of_lookup_2 in Hi.
    destruct (decide (Notificacao.id r = Notificacao.id m)) as [Hid|Hid]; [|done].
    rewrite (Hum r Hi Hid). unfold resultado. rewrite Hef. by case_decide.
Qed.

Lemma resultado_id s r :
  Notificacao.id (resultado escritorio s r) = Notificacao.id r.
Proof. unfold resultado. case_decide; [|done]. by destruct (efeito _). Qed.

(** The loop of the sweep: it never raises; every claimed notification
    ends as [resultado] says; the count and the calls are those of the
    notifications whose recipient has no preferences. *)
Lemma processar_spec l : ∀ c s,
  NoDup (Notificacao.id <$> notificacoes s) →
  NoDup (Notificacao.id <$> l) →
  (∀ m, m ∈ l → m ∈ notificacoes s) →
  ∃ s',
    NotificacaoService.processar adaptador escritorio l agora c s
      = (s', inr (c + length (filter (sem_preferencias escritorio s) l))%nat)
    ∧ preferencias s' = preferencias s
    ∧ prazos s' = prazos s
    ∧ notificacoes s'
      = (λ r, if decide (Notificacao.id r ∈ Notificacao.id <$> l)
              then resultado escritorio s r else r) <$> notificacoes s
    ∧ chamadas s'
      = reverse ((λ n, (IN_APP, Notificacao.id n))
                   <$> filter (sem_preferencias escritorio s) l)
        ++ chamadas s.
Proof.
  induction l as [|m l IH]; intros c s Hnd Hndl Hsub.
  - exists s. simpl. unfold ret. rewrite Nat.add_0_r.
    split; [done|]. split; [done|]. split; [done|]. split; [|done].
    rewrite <- (list_fmap_id (notificacoes s)) at 1. apply list_fmap_ext.
    intros i r _. reflexivity.
  - rewrite fmap_cons in Hndl. apply NoDup_cons in Hndl as [Hm Hndl].
    destruct (tentar_enviar_linhas m c s Hnd) as (s1 & Heq1 & Hp1 & Hz1 & Hn1 & Hk1);
      [apply Hsub; by left|].
    destruct (IH (if decide (sem_preferencias escritorio s m) then S c else c) s1)
      as (s' & Heq & Hp & Hz & Hn & Hk).
    { rewrite Hn1, <- list_fmap_compose.
      erewrite list_fmap_ext; [exact Hnd|].
      intros i r _. simpl.
      destruct (decide (Notificacao.id r = Notificacao.id m));
        [apply resultado_id|done]. }
    { done. }
    { intros m' Hm'. rewrite Hn1. apply list_elem_of_fmap.
      exists m'. split; [|apply Hsub; by right].
      rewrite decide_False; [done|]. intros Hid. apply Hm. rewrite <- Hid.
      apply list_elem_of_fmap. by exists m'. }
    assert (filter (sem_preferencias escritorio s1) l
            = filter (sem_preferencias escritorio s) l) as Hfil.
    { apply list_filter_iff. intros x. by apply sem_preferencias_preferencias. }
    rewrite Hfil in Heq, Hk.
    exists s'. split; [|split; [congruence|split; [congruence|split]]].
    + simpl. unfold bind. rewrite Heq1, Heq. f_equal. f_equal.
      rewrite (filter_cons _ m).
      destruct (decide (sem_preferencias escritorio s m)); simpl; lia.
    + rewrite Hn, Hn1, <- list_fmap_compose. apply list_fmap_ext.
      intros i r Hi. simpl.
      destruct (decide (Notificacao.id r = Notificacao.id m)) as [Hid|Hid].
      * rewrite decide_False by (rewrite resultado_id, Hid; exact Hm).
        rewrite decide_True; [done|]. rewrite Hid. by left.
      * destruct (decide (Notificacao.id r ∈ Notificacao.id <$> l)) as [Hin|Hin].
        -- rewrite decide_True by (by right).
           by apply resultado_preferencias.
        -- rewrite decide_False; [done|].
           intros [?|?]%elem_of_cons; contradiction.
    + rewrite Hk, Hk1, (filter_cons _ m).
      destruct (decide (sem_preferencias escritorio s m)); [|done].
      by rewrite fmap_cons, reverse_cons, <- app_assoc.
Qed.

Lemma pendentes_envio_elem s n : n ∈ pendentes_envio agora s → n ∈ notificacoes s.
Proof.
  unfold pendentes_envio. intros Hn.
  apply (elem_of_sublist _ _ _ Hn).
  etrans; [apply sublist_take|apply sublist_filter].
Qed.

Lemma pendentes_envio_NoDup s :
  NoDup (Notificacao.id <$> notificacoes s) →
  NoDup (Notificacao.id <$> pendentes_envio agora s).
Proof.
  intros Hnd. eapply sublist_NoDup; [exact Hnd|].
  apply fmap_sublist. unfold pendentes_envio.
  etrans; [apply sublist_take|apply sublist_filter].
Qed.

(** The sweep in closed form. *)
Lemma processar_pendentes_spec s :
  NoDup (Notificacao.id <$> notificacoes s) →
  ∃ s',
    NotificacaoService.processar_pendentes adaptador escritorio agora s
      = (s', inr (length (filter (sem_preferencias escritorio s)
                            (pendentes_envio agora s))))
    ∧ preferencias s' = preferencias s
    ∧ prazos s' = prazos s
    ∧ notificacoes s'
      = (λ r, if decide (Notificacao.id r ∈ Notificacao.id <$> pendentes_envio agora s)
              then resultado escritorio s r else r) <$> notificacoes s
    ∧ chamadas s'
      = reverse ((λ n, (IN_APP, Notificacao.id n))
                   <$> filter (sem_preferencias escritorio s) (pendentes_envio agora s))
        ++ chamadas s.
Proof.
  intros Hnd.
  destruct (processar_spec (pendentes_envio agora s) 0 s Hnd
              (pendentes_envio_NoDup s Hnd) (pendentes_envio_elem s))
    as (s' & Heq & Hp & Hz & Hn & Hk).
  exists s'. split; [|done].
  unfold NotificacaoService.processar_pendentes, bind,
    NotificacaoRepository.get_pendentes_envio.
  exact Heq.
Qed.

(** The sweep calls a sender for a notification only if it claims it and
    the recipient has no preferences. *)
Lemma processar_pendentes_chamadas_de s i :
  NoDup (Notificacao.id <$> notificacoes s) →
  (∀ n, n ∈ pendentes_envio agora s → Notificacao.id n = i →
        ¬ sem_preferencias escritorio s n) →
  chamadas_de i
    (NotificacaoService.processar_pendentes adaptador escritorio agora s).1
  = chamadas_de i s.
Proof.
  intros Hnd Hfora.
  destruct (processar_pendentes_spec s Hnd) as (s' & Heq & _ & _ & _ & Hk).
  rewrite Heq. cbn [fst]. unfold chamadas_de. rewrite Hk, filter_app.
  rewrite (filter_nenhum _ (reverse _)); [done|].
  intros x Hx Hxi. apply elem_of_reverse, list_elem_of_fmap in Hx as (n & -> & Hn).
  apply list_elem_of_filter in Hn as [Hsem Hn]. by apply (Hfora n).
Qed.

(** The row of a claimed notification of the tenant after the sweep. *)
Lemma processar_pendentes_linha s n :
  NoDup (Notificacao.id <$> notificacoes s) →
  n ∈ pendentes_envio agora s →
  Notificacao.escritorio_id n = escritorio →
  get_by_id Notificacao.id Notificacao.escritorio_id escritorio (Notificacao.id n)
    (notificacoes
       (NotificacaoService.processar_pendentes adaptador escritorio agora s).1)
  = inr (Some (resultado escritorio s n)).
Proof.
  intros Hnd Hn He.
  destruct (processar_pendentes_spec s Hnd) as (s' & Heq & _ & _ & Hrows & _).
  rewrite Heq. cbn [fst].
  rewrite <- (resultado_id s n).
  apply (get_by_id_elem Notificacao.id Notificacao.escritorio_id).
  - rewrite Hrows, <- list_fmap_compose.
    erewrite list_fmap_ext; [exact Hnd|].
    intros i r _. simpl. case_decide; [apply resultado_id|done].
  - rewrite Hrows. apply list_elem_of_fmap. exists n.
    split; [|by apply pendentes_envio_elem].
    rewrite decide_True; [done|]. apply list_elem_of_fmap. by exists n.
  - unfold resultado. rewrite decide_True by done. by destruct (efeito _).
Qed.

(** Each row after the sweep, by its place in the table. *)
Lemma processar_pendentes_lookup s i r :
  NoDup (Notificacao.id <$> notificacoes s) →
  notificacoes s !! i = Some r →
  notificacoes
    (NotificacaoService.processar_pendentes adaptador escritorio agora s).1 !! i
  = Some (if decide (Notificacao.id r ∈ Notificacao.id <$> pendentes_envio agora s)
          then resultado escritorio s r else r).
Proof.
  intros Hnd Hi.
  destruct (processar_pendentes_spec s Hnd) as (s' & Heq & _ & _ & Hrows & _).
  rewrite Heq. cbn [fst]. by rewrite Hrows, list_lookup_fmap, Hi.
Qed.

(** Rows of another tenant are never rewritten by the sweep. *)
Lemma processar_pendentes_outro_escritorio s i r :
  NoDup (Notificacao.id <$> notificacoes s) →
  notificacoes s !! i = Some r →
  Notificacao.escritorio_id r ≠ escritorio →
  notificacoes
    (NotificacaoService.processar_pendentes adaptador escritorio agora s).1 !! i
  = Some r.
Proof.
  intros Hnd Hi He. rewrite (processar_pendentes_lookup s i r Hnd Hi). f_equal.
  case_decide; [|done]. unfold resultado. by rewrite decide_False.
Qed.


End Varrida.

(** ** Claims about the dispatch sweep *)

(** The claimed notifications are what [get_pendentes_envio] returns. *)
Lemma get_pendentes_envio_pendentes_envio agora s :
  NotificacaoRepository.get_pendentes_envio None 100 agora s
  = (s, inr (pendentes_envio agora s)).
Proof. reflexivity. Qed.

(** C6, what the code does where the claim promises ENVIADA: for a
    claimed notification of the tenant whose recipient has a row of
    preferences, the category disabled or not, [_tipo_ativo] raises
    [AttributeError] on [prefs.tipos_ativos]; the sweep does not raise,
    calls no sender for the notification, and marks it FALHA, with
    [enviada_em] left as it was. *)
Theorem tipo_desativado_marca_falha
    (adaptador : CanalNotificacao → Notificacao.t → bool)
    (escritorio : UUID) (agora : Z) (s : Estado)
    (n : Notificacao.t) (prefs : PreferenciaNotificacao.t) :
  NoDup (Notificacao.id <$> notificacoes s) →
  n ∈ pendentes_envio agora s →
  Notificacao.escritorio_id n = escritorio →
  (PreferenciaNotificacaoRepository.get_by_usuario escritorio
     (Notificacao.usuario_id n) s).2 = inr (Some prefs) →
  NotificacaoService._tipo_ativo (Notificacao.tipo n) prefs
  = inl (AttributeError "PreferenciaNotificacao" "tipos_ativos")
  ∧ NotificacaoService._enviar_notificacao adaptador escritorio n agora s
    = (s, inl (AttributeError "PreferenciaNotificacao" "tipos_ativos"))
  ∧ ∃ s' c n',
      NotificacaoService.processar_pendentes adaptador escritorio agora s = (s', inr c)
      ∧ get_by_id Notificacao.id Notificacao.escritorio_id escritorio
          (Notificacao.id n) (notificacoes s') = inr (Some n')
      ∧ Notificacao.status n' = StatusNotificacao.FALHA
      ∧ Notificacao.status n' ≠ StatusNotificacao.ENVIADA
      ∧ Notificacao.enviada_em n' = Notificacao.enviada_em n
      ∧ chamadas_de (Notificacao.id n) s' = chamadas_de (Notificacao.id n) s.
Proof.
  intros Hnd Hn He Hprefs.
  split; [reflexivity|]. split; [by rewrite enviar_notificacao_spec, Hprefs|].
  destruct (processar_pendentes_spec adaptador escritorio agora s Hnd)
    as (s' & Heq & _).
  pose proof (processar_pendentes_linha adaptador escritorio agora s n Hnd Hn He)
    as Hrow.
  pose proof (processar_pendentes_chamadas_de adaptador escritorio agora s
                (Notificacao.id n) Hnd) as Hcham.
  rewrite Heq in Hrow, Hcham. cbn [fst] in Hrow, Hcham.
  eexists s', _, (resultado escritorio s n).
  split; [exact Heq|]. split; [exact Hrow|].
  unfold resultado. rewrite decide_True by done. rewrite Hprefs. simpl.
  split; [done|]. split; [done|]. split; [done|].
  apply Hcham. intros m Hm Hid Hsem.
  assert (m = n) as ->.
  { eapply (NoDup_fmap_chave Notificacao.id); [exact Hnd| | |exact Hid];
      by apply (pendentes_envio_elem agora). }
  unfold sem_preferencias in Hsem. by rewrite Hprefs in Hsem.
Qed.

Lemma tipo_desativado_marca_falha_witness :
  let n := Cenario.notificacao 1 1 7 PRAZO_VENCENDO StatusNotificacao.PENDENTE None in
  let prefs := Cenario.preferencia_sem_prazo_vencendo 1 1 7 in
  let s := Cenario.sessao [n] [prefs] [] in
  PreferenciaNotificacao.prazo_vencendo_enabled prefs = false
  ∧ NotificacaoService._tipo_ativo PRAZO_VENCENDO prefs
    = inl (AttributeError "PreferenciaNotificacao" "tipos_ativos")
  ∧ NotificacaoService._enviar_notificacao Cenario.envia_sempre 1 n 100 s
    = (s, inl (AttributeError "PreferenciaNotificacao" "tipos_ativos"))
  ∧ ∃ s' c n',
      NotificacaoService.processar_pendentes Cenario.envia_sempre 1 100 s = (s', inr c)
      ∧ get_by_id Notificacao.id Notificacao.escritorio_id 1 1 (notificacoes s')
        = inr (Some n')
      ∧ Notificacao.status n' = StatusNotificacao.FALHA
      ∧ Notificacao.status n' ≠ StatusNotificacao.ENVIADA
      ∧ Notificacao.enviada_em n' = None
      ∧ chamadas_de 1 s' = chamadas_de 1 s.
Proof.
  intros n prefs s. split; [reflexivity|].
  assert (NoDup (Notificacao.id <$> notificacoes s)) as Hnd.
  { apply NoDup_cons. split; [apply not_elem_of_nil|apply NoDup_nil_2]. }
  assert (n ∈ pendentes_envio 100 s) as Hn by apply list_elem_of_here.
  exact (tipo_desativado_marca_falha Cenario.envia_sempre 1 100 s n prefs
           Hnd Hn eq_refl eq_refl).
Defined.




(** ** The sweep and the table of deadlines *)







Section VarridaPrazos.

Variable adaptador : CanalNotificacao → Notificacao.t → bool.
Variable escritorio : UUID.
Variable agora : Z.





End VarridaPrazos.



(** ** Tenant isolation of the sweep *)

(** C4, at the failing input: the sweep of tenant 1 selects the pending
    notification of tenant 2, calls the in-app sender for it and counts
    it as sent; only the write is kept inside the tenant, so the row of
    tenant 2 is left PENDENTE. *)
Theorem varrida_alcanca_outro_escritorio :
  let n1 := Cenario.notificacao 1 1 7 SISTEMA StatusNotificacao.PENDENTE None in
  let n2 := Cenario.notificacao 2 2 8 SISTEMA StatusNotificacao.PENDENTE None in
  let s := Cenario.sessao [n1; n2] [] [] in
  Notificacao.escritorio_id n2 ≠ 1%nat
  ∧ (NotificacaoRepository.get_pendentes_envio None 100 100 s).2 = inr [n1; n2]
  ∧ ∃ s', NotificacaoService.processar_pendentes Cenario.envia_sempre 1 100 s
          = (s', inr 2%nat)
          ∧ chamadas s' = [(IN_APP, 2%nat); (IN_APP, 1%nat)]
          ∧ notificacoes s' = [n1; n2].
Proof.
  intros n1 n2 s. split; [by vm_compute|]. split; [reflexivity|].
  eexists. split; [by vm_compute|]. by split.
Qed.

(** * Further properties of the code *)

(** ** The deadline queries *)

Lemma data_fatal_le_trans : Transitive PrazoRepository.data_fatal_le.
Proof. intros p q r. unfold PrazoRepository.data_fatal_le. lia. Qed.

Lemma data_fatal_le_total : Total PrazoRepository.data_fatal_le.
Proof. intros p q. unfold PrazoRepository.data_fatal_le. lia. Qed.

Lemma order_by_data_fatal_sorted (l : list Prazo.t) :
  StronglySorted PrazoRepository.data_fatal_le (PrazoRepository.order_by_data_fatal l).
Proof.
  unfold PrazoRepository.order_by_data_fatal.
  apply (@StronglySorted_merge_sort _ _ _ data_fatal_le_trans data_fatal_le_total).
Qed.

Lemma is_vencido_data_fatal hoje p :
  Prazo.is_vencido hoje p = true
  ↔ Prazo.status p = PENDENTE ∧ Prazo.data_fatal p < hoje.
Proof.
  unfold Prazo.is_vencido. rewrite andb_true_iff, Z.ltb_lt, bool_decide_eq_true.
  split.
  - intros [Hd Hst]. rewrite dias_restantes_pendente in Hd by done. split; [done|lia].
  - intros [Hst Hd]. rewrite dias_restantes_pendente by done. split; [lia|done].
Qed.

(** [date.today() + timedelta(days=dias)] is a date exactly when the
    window is valid; otherwise it raises [OverflowError]. *)
Lemma today_plus_spec hoje dias :
  datetime.today_plus hoje dias
  = if decide (janela_valida hoje dias) then inr (hoje + dias) else inl OverflowError.
Proof.
  unfold datetime.today_plus, datetime.timedelta, datetime.date_add, janela_valida.
  repeat case_decide; try reflexivity; exfalso; tauto.
Qed.

Ltac janela :=
  unfold janela_valida, datetime.date_min, datetime.date_max; lia.

Lemma get_pendentes_spec escritorio dias hoje s :
  PrazoRepository.get_pendentes escritorio dias hoje s
  = (s, if decide (janela_valida hoje dias) then
          inr (PrazoRepository.order_by_data_fatal
                 (filter (PrazoRepository.where_pendentes escritorio (hoje + dias))
                    (prazos s)))
        else inl OverflowError).
Proof.
  unfold PrazoRepository.get_pendentes, bind, lift. rewrite today_plus_spec.
  by case_decide.
Qed.

Lemma get_urgentes_spec escritorio dias hoje s :
  PrazoRepository.get_urgentes escritorio dias hoje s
  = (s, if decide (janela_valida hoje dias) then
          inr (PrazoRepository.order_by_data_fatal
                 (filter (PrazoRepository.where_urgentes escritorio (hoje + dias) hoje)
                    (prazos s)))
        else inl OverflowError).
Proof.
  unfold PrazoRepository.get_urgentes, bind, lift. rewrite today_plus_spec.
  by case_decide.
Qed.

Lemma count_urgentes_spec escritorio dias hoje s :
  PrazoRepository.count_urgentes escritorio dias hoje s
  = (s, if decide (janela_valida hoje dias) then
          inr (length
                 (filter (PrazoRepository.where_urgentes escritorio (hoje + dias) hoje)
                    (prazos s)))
        else inl OverflowError).
Proof.
  unfold PrazoRepository.count_urgentes, bind, lift. rewrite today_plus_spec.
  by case_decide.
Qed.

(** X1: [listar_prazos_vencidos] returns exactly the deadlines of the
    tenant for which [is_vencido] holds today, and leaves the session
    as it is. *)
Theorem listar_prazos_vencidos_is_vencido (escritorio : UUID) (hoje : Z) (s : Estado) :
  ∃ l, ProcessoService.listar_prazos_vencidos escritorio hoje s = (s, inr l)
       ∧ ∀ p, p ∈ l ↔ p ∈ prazos s
                       ∧ Prazo.escritorio_id p = escritorio
                       ∧ Prazo.is_vencido hoje p = true.
Proof.
  eexists. split; [reflexivity|]. intros p.
  rewrite order_by_data_fatal_elem, list_elem_of_filter, is_vencido_data_fatal.
  unfold PrazoRepository.where_vencidos. tauto.
Qed.

(** X2: when today plus [dias] days is a date, that is
    [janela_valida hoje dias], [listar_prazos_urgentes(dias)] returns
    exactly the PENDENTE deadlines of the tenant with
    [0 <= dias_restantes <= dias]; with the default of 3 days it returns
    every deadline of the tenant that [is_urgente], and also the
    deadlines due today, which [is_urgente] leaves out.  When it is not
    a date the listing raises [OverflowError].  The session is left as
    it is in both cases. *)
Theorem listar_prazos_urgentes_dias_restantes
    (escritorio : UUID) (dias hoje : Z) (s : Estado) :
  (janela_valida hoje dias →
   ∃ l, ProcessoService.listar_prazos_urgentes escritorio dias hoje s = (s, inr l)
        ∧ (∀ p, p ∈ l ↔ p ∈ prazos s
                         ∧ Prazo.escritorio_id p = escritorio
                         ∧ Prazo.status p = PENDENTE
                         ∧ 0 ≤ Prazo.dias_restantes hoje p ≤ dias)
        ∧ (∀ p, dias = 3 → p ∈ prazos s → Prazo.escritorio_id p = escritorio →
                Prazo.is_urgente hoje p = true → p ∈ l)
        ∧ (∀ p, 0 ≤ dias → p ∈ prazos s → Prazo.escritorio_id p = escritorio →
                Prazo.status p = PENDENTE → Prazo.data_fatal p = hoje →
                p ∈ l ∧ Prazo.is_urgente hoje p = false))
  ∧ (¬ janela_valida hoje dias →
     ProcessoService.listar_prazos_urgentes escritorio dias hoje s
     = (s, inl OverflowError)).
Proof.
  unfold ProcessoService.listar_prazos_urgentes. rewrite get_urgentes_spec.
  split; [|intros Hj; by rewrite decide_False].
  intros Hj. rewrite decide_True by done.
  eexists. split; [reflexivity|].
  assert (∀ p, p ∈ PrazoRepository.order_by_data_fatal
                     (filter (PrazoRepository.where_urgentes escritorio (hoje + dias) hoje)
                        (prazos s))
               ↔ p ∈ prazos s ∧ Prazo.escritorio_id p = escritorio
                 ∧ Prazo.status p = PENDENTE
                 ∧ 0 ≤ Prazo.dias_restantes hoje p ≤ dias) as Hchar.
  { intros p. rewrite order_by_data_fatal_elem, list_elem_of_filter.
    unfold PrazoRepository.where_urgentes. split.
    - intros [(He & Hst & H1 & H2) Hin].
      rewrite dias_restantes_pendente by done. repeat split; [done..|lia|lia].
    - intros (Hin & He & Hst & Hd). rewrite dias_restantes_pendente in Hd by done.
      repeat split; [done..|lia|lia|done]. }
  split; [exact Hchar|]. split.
  - intros p -> Hin He Hu. apply Hchar.
    unfold Prazo.is_urgente in Hu. apply andb_true_iff in Hu as [H1 H2].
    apply Z.ltb_lt in H1. apply Z.leb_le in H2.
    split; [done|]. split; [done|]. split; [|lia].
    destruct (decide (Prazo.status p = PENDENTE)) as [|Hst]; [done|].
    rewrite dias_restantes_nao_pendente in H1 by done. lia.
  - intros p Hd Hin He Hst Hhoje. split.
    + apply Hchar. rewrite dias_restantes_pendente by done.
      repeat split; [done..|lia|lia].
    + unfold Prazo.is_urgente. rewrite dias_restantes_pendente by done.
      rewrite Hhoje, Z.sub_diag. reflexivity.
Qed.

Lemma listar_prazos_urgentes_dias_restantes_witness :
  let p := Cenario.prazo 1 1 PENDENTE 10 None in
  let q := Cenario.prazo 2 1 PENDENTE 12 None in
  let s := Cenario.sessao [] [] [q; p] in
  (∃ l, ProcessoService.listar_prazos_urgentes 1 3 10 s = (s, inr l)
        ∧ q ∈ l
        ∧ (p ∈ l ∧ Prazo.is_urgente 10 p = false))
  ∧ ProcessoService.listar_prazos_urgentes 1 4000000 10 s = (s, inl OverflowError).
Proof.
  intros p q s. split.
  - destruct (listar_prazos_urgentes_dias_restantes 1 3 10 s) as [Hin _].
    destruct Hin as (l & Heq & _ & Hu & Hh); [janela|].
    exists l. split; [exact Heq|]. split.
    + apply (Hu q eq_refl); [apply list_elem_of_here|reflexivity|reflexivity].
    + apply (Hh p); [lia|apply list_elem_of_further, list_elem_of_here|reflexivity..].
  - apply (listar_prazos_urgentes_dias_restantes 1 4000000 10 s). janela.
Defined.

Lemma filter_length_particao {A} (P Q R : A → Prop)
    `{∀ x, Decision (P x)} `{∀ x, Decision (Q x)} `{∀ x, Decision (R x)}
    (l : list A) :
  (∀ x, P x ↔ Q x ∨ R x) → (∀ x, Q x → R x → False) →
  length (filter P l) = (length (filter Q l) + length (filter R l))%nat.
Proof.
  intros Hou Hdisj. induction l as [|x l IH]; [done|].
  rewrite !filter_cons.
  destruct (decide (Q x)) as [Hq|Hq], (decide (R x)) as [Hr|Hr].
  - destruct (Hdisj x Hq Hr).
  - rewrite decide_True by (apply Hou; by left). simpl. by rewrite IH.
  - rewrite decide_True by (apply Hou; by right). simpl. rewrite IH. lia.
  - rewrite decide_False; [done|]. intros [?|?]%Hou; contradiction.
Qed.

(** X3: with a window of [dias >= 0] days that ends on a date, the
    deadlines that [listar_prazos_pendentes] returns are those of
    [listar_prazos_vencidos] together with those of
    [listar_prazos_urgentes], no deadline being in both, so the counts
    add up.  With a window that does not end on a date,
    [listar_prazos_pendentes] and [listar_prazos_urgentes] raise
    [OverflowError]. *)
Theorem listar_prazos_pendentes_particao
    (escritorio : UUID) (dias hoje : Z) (s : Estado) :
  (0 ≤ dias → janela_valida hoje dias →
   ∃ lp lv lu,
     ProcessoService.listar_prazos_pendentes escritorio dias hoje s = (s, inr lp)
     ∧ ProcessoService.listar_prazos_vencidos escritorio hoje s = (s, inr lv)
     ∧ ProcessoService.listar_prazos_urgentes escritorio dias hoje s = (s, inr lu)
     ∧ (∀ p, p ∈ lp ↔ p ∈ lv ∨ p ∈ lu)
     ∧ (∀ p, p ∈ lv → p ∉ lu)
     ∧ length lp = (length lv + length lu)%nat)
  ∧ (¬ janela_valida hoje dias →
     ProcessoService.listar_prazos_pendentes escritorio dias hoje s
     = (s, inl OverflowError)
     ∧ ProcessoService.listar_prazos_urgentes escritorio dias hoje s
       = (s, inl OverflowError)).
Proof.
  unfold ProcessoService.listar_prazos_pendentes,
    ProcessoService.listar_prazos_urgentes.
  rewrite get_pendentes_spec, get_urgentes_spec.
  split; [|intros Hj; by rewrite !decide_False].
  intros Hd Hj. rewrite !decide_True by done. eexists _, _, _.
  split; [reflexivity|]. split; [reflexivity|]. split; [reflexivity|].
  assert (∀ p, PrazoRepository.where_pendentes escritorio (hoje + dias) p
               ↔ PrazoRepository.where_vencidos escritorio hoje p
                 ∨ PrazoRepository.where_urgentes escritorio (hoje + dias) hoje p) as Hou.
  { intros p. unfold PrazoRepository.where_pendentes, PrazoRepository.where_vencidos,
      PrazoRepository.where_urgentes.
    split.
    - intros (He & Hst & Hl).
      destruct (decide (Prazo.data_fatal p < hoje)); [left|right]; repeat split; [done..|lia].
    - intros [(He & Hst & Hl)|(He & Hst & Hl & _)]; repeat split; try done; lia. }
  assert (∀ p, PrazoRepository.where_vencidos escritorio hoje p →
               PrazoRepository.where_urgentes escritorio (hoje + dias) hoje p → False)
    as Hdisj.
  { intros p (_ & _ & H1) (_ & _ & _ & H2). lia. }
  split; [|split].
  - intros p. rewrite !order_by_data_fatal_elem, !list_elem_of_filter, Hou. tauto.
  - intros p. rewrite !order_by_data_fatal_elem, !list_elem_of_filter.
    intros [Hv _] [Hu _]. by eapply Hdisj.
  - rewrite !order_by_data_fatal_length. by apply filter_length_particao.
Qed.

Lemma listar_prazos_pendentes_particao_witness :
  let s := Cenario.sessao [] []
             [Cenario.prazo 1 1 PENDENTE 12 None; Cenario.prazo 2 1 PENDENTE 5 None;
              Cenario.prazo 3 1 CUMPRIDO 11 None] in
  (∃ lp lv lu,
     ProcessoService.listar_prazos_pendentes 1 7 10 s = (s, inr lp)
     ∧ ProcessoService.listar_prazos_vencidos 1 10 s = (s, inr lv)
     ∧ ProcessoService.listar_prazos_urgentes 1 7 10 s = (s, inr lu)
     ∧ (∀ p, p ∈ lp ↔ p ∈ lv ∨ p ∈ lu)
     ∧ (∀ p, p ∈ lv → p ∉ lu)
     ∧ length lp = (length lv + length lu)%nat)
  ∧ ProcessoService.listar_prazos_pendentes 1 4000000 10 s = (s, inl OverflowError)
  ∧ ProcessoService.listar_prazos_urgentes 1 4000000 10 s = (s, inl OverflowError).
Proof.
  intros s. split.
  - apply (listar_prazos_pendentes_particao 1 7 10 s); [lia|janela].
  - apply (listar_prazos_pendentes_particao 1 4000000 10 s). janela.
Defined.

Lemma StronglySorted_lookup_lt {A} (R : A → A → Prop) (l : list A) i j x y :
  StronglySorted R l → l !! i = Some x → l !! j = Some y → (i < j)%nat → R x y.
Proof.
  intros Hs Hi Hj Hlt. rewrite <- (take_drop j l) in Hs.
  eapply StronglySorted_app_1_elem_of; [exact Hs| |].
  - apply elem_of_take. by exists i.
  - apply list_elem_of_lookup. exists 0%nat. rewrite lookup_drop, Nat.add_0_r. done.
Qed.

(** X4: the deadline listings come in order of [data_fatal], the
    earliest first, and hold only deadlines of the tenant:
    [listar_prazos_vencidos] always, [listar_prazos_pendentes] and
    [listar_prazos_urgentes] whenever their window ends on a date; when
    it does not, these two raise [OverflowError]. *)
Theorem listagens_de_prazos_ordenadas (escritorio : UUID) (dias hoje : Z) (s : Estado) :
  let ordenada (l : list Prazo.t) :=
    (∀ i j p q, l !! i = Some p → l !! j = Some q → (i < j)%nat →
                Prazo.data_fatal p ≤ Prazo.data_fatal q)
    ∧ (∀ p, p ∈ l → Prazo.escritorio_id p = escritorio) in
  (∃ lv, ProcessoService.listar_prazos_vencidos escritorio hoje s = (s, inr lv)
         ∧ ordenada lv)
  ∧ (janela_valida hoje dias →
     ∃ lp lu,
       ProcessoService.listar_prazos_pendentes escritorio dias hoje s = (s, inr lp)
       ∧ ProcessoService.listar_prazos_urgentes escritorio dias hoje s = (s, inr lu)
       ∧ ordenada lp ∧ ordenada lu)
  ∧ (¬ janela_valida hoje dias →
     ProcessoService.listar_prazos_pendentes escritorio dias hoje s
     = (s, inl OverflowError)
     ∧ ProcessoService.listar_prazos_urgentes escritorio dias hoje s
       = (s, inl OverflowError)).
Proof.
  intros ordenada.
  assert (∀ (P : Prazo.t → Prop) `{∀ p, Decision (P p)} zs,
            (∀ p, P p → Prazo.escritorio_id p = escritorio) →
            ordenada (PrazoRepository.order_by_data_fatal (filter P zs))) as Hord.
  { intros P HP zs Hw. split.
    - intros i j p q.
      apply (StronglySorted_lookup_lt PrazoRepository.data_fatal_le).
      apply order_by_data_fatal_sorted.
    - intros p Hp. apply order_by_data_fatal_elem, list_elem_of_filter in Hp as [Hp _].
      by apply Hw. }
  unfold ProcessoService.listar_prazos_pendentes,
    ProcessoService.listar_prazos_urgentes.
  rewrite get_pendentes_spec, get_urgentes_spec.
  split; [|split].
  - eexists. split; [reflexivity|]. apply Hord. by intros p [He _].
  - intros Hj. rewrite !decide_True by done. eexists _, _.
    split; [reflexivity|]. split; [reflexivity|].
    split; apply Hord; by intros p [He _].
  - intros Hj. by rewrite !decide_False.
Qed.

Lemma listagens_de_prazos_ordenadas_witness :
  let s := Cenario.sessao [] []
             [Cenario.prazo 1 1 PENDENTE 12 None; Cenario.prazo 2 1 PENDENTE 5 None;
              Cenario.prazo 3 2 PENDENTE 11 None] in
  ProcessoService.listar_prazos_pendentes 1 7 10 s
  = (s, inr [Cenario.prazo 2 1 PENDENTE 5 None; Cenario.prazo 1 1 PENDENTE 12 None])
  ∧ (∃ lp lu,
       ProcessoService.listar_prazos_pendentes 1 7 10 s = (s, inr lp)
       ∧ ProcessoService.listar_prazos_urgentes 1 7 10 s = (s, inr lu)
       ∧ ((∀ i j p q, lp !! i = Some p → lp !! j = Some q → (i < j)%nat →
                      Prazo.data_fatal p ≤ Prazo.data_fatal q)
          ∧ (∀ p, p ∈ lp → Prazo.escritorio_id p = 1%nat))
       ∧ ((∀ i j p q, lu !! i = Some p → lu !! j = Some q → (i < j)%nat →
                      Prazo.data_fatal p ≤ Prazo.data_fatal q)
          ∧ (∀ p, p ∈ lu → Prazo.escritorio_id p = 1%nat)))
  ∧ ProcessoService.listar_prazos_pendentes 1 4000000 10 s = (s, inl OverflowError).
Proof.
  intros s. split; [by vm_compute|]. split.
  - apply (listagens_de_prazos_ordenadas 1 7 10 s). janela.
  - apply (listagens_de_prazos_ordenadas 1 4000000 10 s). janela.
Defined.

(** X5: when the window ends on a date, [count_urgentes] is the length
    of the list that [get_urgentes] returns for the same window, and
    never exceeds [count_pendentes]; when it does not, both raise
    [OverflowError]. *)
Theorem count_urgentes_get_urgentes (escritorio : UUID) (dias hoje : Z) (s : Estado) :
  (janela_valida hoje dias →
   ∃ l n m,
     PrazoRepository.get_urgentes escritorio dias hoje s = (s, inr l)
     ∧ PrazoRepository.count_urgentes escritorio dias hoje s = (s, inr n)
     ∧ PrazoRepository.count_pendentes escritorio s = (s, inr m)
     ∧ n = length l
     ∧ (n ≤ m)%nat)
  ∧ (¬ janela_valida hoje dias →
     PrazoRepository.get_urgentes escritorio dias hoje s = (s, inl OverflowError)
     ∧ PrazoRepository.count_urgentes escritorio dias hoje s
       = (s, inl OverflowError)).
Proof.
  rewrite get_urgentes_spec, count_urgentes_spec.
  split; [|intros Hj; by rewrite !decide_False].
  intros Hj. rewrite !decide_True by done.
  eexists _, _, _.
  split; [reflexivity|]. split; [reflexivity|]. split; [reflexivity|].
  split; [by rewrite order_by_data_fatal_length|].
  induction (prazos s) as [|p l IH]; [done|].
  rewrite !filter_cons. unfold PrazoRepository.where_urgentes at 1.
  destruct (decide (Prazo.escritorio_id p = escritorio ∧ Prazo.status p = PENDENTE))
    as [Hp|Hp].
  - case_decide; simpl; lia.
  - rewrite decide_False; [done|]. intros (? & ? & _). by apply Hp.
Qed.

Lemma count_urgentes_get_urgentes_witness :
  let s := Cenario.sessao [] []
             [Cenario.prazo 1 1 PENDENTE 12 None; Cenario.prazo 2 1 PENDENTE 5 None] in
  (∃ l n m,
     PrazoRepository.get_urgentes 1 3 10 s = (s, inr l)
     ∧ PrazoRepository.count_urgentes 1 3 10 s = (s, inr n)
     ∧ PrazoRepository.count_pendentes 1 s = (s, inr m)
     ∧ n = length l
     ∧ (n ≤ m)%nat)
  ∧ PrazoRepository.get_urgentes 1 (-4000000) 10 s = (s, inl OverflowError)
  ∧ PrazoRepository.count_urgentes 1 (-4000000) 10 s = (s, inl OverflowError).
Proof.
  intros s. split.
  - apply (count_urgentes_get_urgentes 1 3 10 s). janela.
  - apply (count_urgentes_get_urgentes 1 (-4000000) 10 s). janela.
Defined.

(** ** The case and its deadlines *)

Lemma proximo_prazo_Some (l : list Prazo.t) (p : Prazo.t) :
  Processo.proximo_prazo l = Some p →
  ∃ l1 l2, l = l1 ++ p :: l2
           ∧ Prazo.status p = PENDENTE
           ∧ ∀ q, q ∈ l1 → Prazo.status q ≠ PENDENTE.
Proof.
  induction l as [|x l IH]; [discriminate|]. simpl.
  destruct (decide (Prazo.status x = PENDENTE)) as [Hx|Hx].
  - intros [= ->]. exists [], l. split; [done|]. split; [done|].
    intros q Hq. by apply elem_of_nil in Hq.
  - intros (l1 & l2 & -> & Hp & Hl1)%IH. exists (x :: l1), l2.
    split; [done|]. split; [done|].
    intros q [->|Hq]%elem_of_cons; [done|by apply Hl1].
Qed.

Lemma proximo_prazo_None (l : list Prazo.t) :
  Processo.proximo_prazo l = None → ∀ q, q ∈ l → Prazo.status q ≠ PENDENTE.
Proof.
  induction l as [|x l IH]; simpl.
  - intros _ q Hq. by apply elem_of_nil in Hq.
  - destruct (decide (Prazo.status x = PENDENTE)); [discriminate|].
    intros Hn q [->|Hq]%elem_of_cons; [done|by apply IH].
Qed.

(** X6: [proximo_prazo] of a case is a PENDENTE deadline of the case whose
    [data_fatal] is the earliest among its PENDENTE deadlines, overdue
    ones included; it is [None] exactly when the case has no PENDENTE
    deadline. *)
Theorem proximo_prazo_mais_cedo (self : Processo.t) (tabela : list Prazo.t) :
  match Processo.proximo_prazo (Processo_prazos self tabela) with
  | Some p =>
    p ∈ tabela
    ∧ Prazo.processo_id p = Processo.id self
    ∧ Prazo.status p = PENDENTE
    ∧ ∀ q, q ∈ tabela → Prazo.processo_id q = Processo.id self →
           Prazo.status q = PENDENTE → Prazo.data_fatal p ≤ Prazo.data_fatal q
  | None =>
    ∀ q, q ∈ tabela → Prazo.processo_id q = Processo.id self →
         Prazo.status q ≠ PENDENTE
  end.
Proof.
  destruct (Processo.proximo_prazo _) as [p|] eqn:Hprox.
  - destruct (proximo_prazo_Some _ _ Hprox) as (l1 & l2 & Hl & Hst & Hl1).
    assert (p ∈ Processo_prazos self tabela) as Hp.
    { rewrite Hl. apply elem_of_app. right. by left. }
    apply order_by_data_fatal_elem, list_elem_of_filter in Hp as [Hpid Hp].
    split; [done|]. split; [done|]. split; [done|].
    intros q Hq Hqid Hqst.
    assert (q ∈ Processo_prazos self tabela) as Hq'.
    { apply order_by_data_fatal_elem, list_elem_of_filter. by split. }
    pose proof (order_by_data_fatal_sorted
                  (filter (λ p, Prazo.processo_id p = Processo.id self) tabela)) as Hs.
    fold (Processo_prazos self tabela) in Hs. rewrite Hl in Hs, Hq'.
    apply elem_of_app in Hq' as [Hq'|Hq']; [by destruct (Hl1 q Hq')|].
    apply StronglySorted_app in Hs as (_ & _ & Hs).
    apply StronglySorted_cons in Hs as [Hall _].
    apply elem_of_cons in Hq' as [->|Hq']; [lia|].
    rewrite Forall_forall in Hall. apply (Hall q Hq').
  - intros q Hq Hqid. apply (proximo_prazo_None _ Hprox).
    apply order_by_data_fatal_elem, list_elem_of_filter. by split.
Qed.

(** X7: [numero_principal] is never the empty string: it is the CNJ
    number when there is one that is not empty, otherwise the
    administrative number when there is one that is not empty, otherwise
    the text "Sem número". *)
Theorem numero_principal_nunca_vazio (self : Processo.t) :
  Processo.numero_principal self ≠ EmptyString
  ∧ match Processo.numero_cnj self, Processo.numero_administrativo self with
    | Some (String a cnj), _ => Processo.numero_principal self = String a cnj
    | _, Some (String a adm) => Processo.numero_principal self = String a adm
    | _, _ => Processo.numero_principal self = "Sem número"
    end.
Proof.
  unfold Processo.numero_principal.
  destruct (Processo.numero_cnj self) as [[|a cnj]|],
           (Processo.numero_administrativo self) as [[|b adm]|]; simpl;
    repeat case_decide; try done; simpl in *; try contradiction.
Qed.

(** ** Cases and deadlines through the service *)

Lemma novo_id_fresco {Row} (row_id : Row → UUID) (tabela : list Row) :
  S (max_list (row_id <$> tabela)) ∉ row_id <$> tabela.
Proof. apply max_list_not_elem_of_gt. lia. Qed.

Lemma NoDup_fmap_snoc {Row} (row_id : Row → UUID) (tabela : list Row) (r : Row) :
  NoDup (row_id <$> tabela) → row_id r ∉ row_id <$> tabela →
  NoDup (row_id <$> tabela ++ [r]).
Proof.
  intros Hnd Hr. rewrite fmap_app. apply NoDup_app. split; [done|]. split.
  - intros x Hx Hx'. apply list_elem_of_singleton in Hx'. by subst x.
  - apply NoDup_singleton.
Qed.

Lemma Processo_setattrs_id kw r : Processo.id (Processo.setattrs kw r) = Processo.id r.
Proof. reflexivity. Qed.

Lemma Processo_setattrs_escritorio_id kw r :
  Processo.escritorio_id (Processo.setattrs kw r) = Processo.escritorio_id r.
Proof. reflexivity. Qed.

(** X8: [criar_prazo] creates nothing and raises when the case is unknown
    to the tenant (a case of another tenant included) or is archived;
    otherwise it appends one PENDENTE deadline of the tenant with a new id,
    which [get_by_id] then finds, and leaves the other deadlines alone. *)
Theorem criar_prazo_erros_e_criacao
    (escritorio : UUID) (processos : list Processo.t) (dados : PrazoCreate.t)
    (s : Estado) :
  NoDup (Processo.id <$> processos) →
  NoDup (Prazo.id <$> prazos s) →
  ((∀ c, c ∈ processos → Processo.id c = PrazoCreate.processo_id dados →
         Processo.escritorio_id c ≠ escritorio) →
   ProcessoService.criar_prazo escritorio processos dados s
   = (s, inl (ResourceNotFoundError "Processo" (PrazoCreate.processo_id dados))))
  ∧ ∀ c, c ∈ processos → Processo.id c = PrazoCreate.processo_id dados →
      Processo.escritorio_id c = escritorio →
      if Processo.is_archived c then
        ProcessoService.criar_prazo escritorio processos dados s
        = (s, inl (ProcessoService.ProcessoArquivadoError
                     (PrazoCreate.processo_id dados)))
      else
        ∃ p, ProcessoService.criar_prazo escritorio processos dados s
             = (com_prazos (prazos s ++ [p]) s, inr p)
             ∧ Prazo.status p = PENDENTE
             ∧ Prazo.escritorio_id p = escritorio
             ∧ Prazo.processo_id p = Processo.id c
             ∧ Prazo.data_fatal p = PrazoCreate.data_fatal dados
             ∧ Prazo.processo_numero p = Processo.numero_principal c
             ∧ NoDup (Prazo.id <$> prazos s ++ [p])
             ∧ get_by_id Prazo.id Prazo.escritorio_id escritorio (Prazo.id p)
                 (prazos s ++ [p]) = inr (Some p).
Proof.
  intros Hndc Hndp. split.
  - intros Hfora. unfold ProcessoService.criar_prazo, ProcessoService.buscar_processo,
      ProcessoRepository.get_by_id.
    by rewrite get_by_id_nenhum.
  - intros c Hc Hid He.
    unfold ProcessoService.criar_prazo, ProcessoService.buscar_processo,
      ProcessoRepository.get_by_id.
    rewrite <- Hid.
    rewrite (get_by_id_elem Processo.id Processo.escritorio_id escritorio processos c)
      by done.
    destruct (Processo.is_archived c); [done|].
    eexists. split; [reflexivity|]. cbn [Prazo.status Prazo.escritorio_id
      Prazo.processo_id Prazo.data_fatal Prazo.processo_numero].
    split; [done|]. split; [done|]. split; [done|]. split; [done|]. split; [done|].
    assert (NoDup (Prazo.id <$> prazos s ++
              [{| Prazo.id := PrazoRepository.novo_id (prazos s);
                  Prazo.escritorio_id := escritorio;
                  Prazo.processo_id := Processo.id c;
                  Prazo.processo_numero := Processo.numero_principal c;
                  Prazo.tipo := PrazoCreate.tipo dados;
                  Prazo.descricao := PrazoCreate.descricao dados;
                  Prazo.data_fatal := PrazoCreate.data_fatal dados;
                  Prazo.data_inicio := PrazoCreate.data_inicio dados;
                  Prazo.dias_prazo := PrazoCreate.dias_prazo dados;
                  Prazo.status := PENDENTE;
                  Prazo.data_cumprimento := None;
                  Prazo.cumprido_por_id := None;
                  Prazo.notificacao_enviada := false;
                  Prazo.observacoes := PrazoCreate.observacoes dados |}])) as Hnd'.
    { apply NoDup_fmap_snoc; [done|]. apply novo_id_fresco. }
    split; [exact Hnd'|].
    apply (get_by_id_elem Prazo.id Prazo.escritorio_id escritorio _ _ Hnd');
      [|done].
    apply elem_of_app. right. by left.
Qed.

Lemma criar_prazo_erros_e_criacao_witness :
  let c := {| Processo.id := 4; Processo.escritorio_id := 1;
              Processo.numero_cnj := Some "0000001-02.2024.4.03.6100";
              Processo.numero_administrativo := None;
              Processo.tipo_beneficio := TipoBeneficio.AUXILIO_DOENCA;
              Processo.fase := FaseProcessual.CITACAO;
              Processo.tribunal := None; Processo.vara := None;
              Processo.comarca := None; Processo.agencia_inss := None;
              Processo.data_entrada := 1; Processo.data_distribuicao := None;
              Processo.data_citacao := None; Processo.data_sentenca := None;
              Processo.data_transito := None; Processo.valor_causa := None;
              Processo.valor_condenacao := None; Processo.objeto := None;
              Processo.observacoes := None; Processo.is_active := true;
              Processo.is_archived := false; Processo.resultado := None;
              Processo.cliente_id := 9; Processo.advogado_responsavel_id := None |} in
  let dados := {| PrazoCreate.tipo := RECURSO;
                  PrazoCreate.descricao := "Recurso ordinario";
                  PrazoCreate.data_fatal := 20; PrazoCreate.data_inicio := None;
                  PrazoCreate.dias_prazo := None; PrazoCreate.observacoes := None;
                  PrazoCreate.processo_id := 4 |} in
  let s := Cenario.sessao [] [] [Cenario.prazo 1 1 PENDENTE 15 None] in
  ∃ p, ProcessoService.criar_prazo 1 [c] dados s
       = (com_prazos (prazos s ++ [p]) s, inr p)
       ∧ Prazo.status p = PENDENTE
       ∧ Prazo.escritorio_id p = 1%nat
       ∧ Prazo.processo_id p = 4%nat
       ∧ Prazo.data_fatal p = 20
       ∧ Prazo.processo_numero p = "0000001-02.2024.4.03.6100"
       ∧ NoDup (Prazo.id <$> prazos s ++ [p])
       ∧ get_by_id Prazo.id Prazo.escritorio_id 1 (Prazo.id p) (prazos s ++ [p])
         = inr (Some p).
Proof.
  intros c dados s.
  assert (NoDup (Processo.id <$> [c])) as Hc.
  { apply NoDup_cons. split; [apply not_elem_of_nil|apply NoDup_nil_2]. }
  assert (NoDup (Prazo.id <$> prazos s)) as Hp.
  { apply NoDup_cons. split; [apply not_elem_of_nil|apply NoDup_nil_2]. }
  exact (proj2 (criar_prazo_erros_e_criacao 1 [c] dados s Hc Hp) c
           (list_elem_of_here _ _) eq_refl eq_refl).
Defined.

(** X9: [arquivar_processo] on a case of the tenant sets [is_archived]
    and nothing else that identifies the case; archiving again returns
    the same case and leaves the table as it is, and from then on
    [criar_prazo] for that case raises and creates nothing. *)
Theorem arquivar_processo_idempotente
    (escritorio : UUID) (processos : list Processo.t) (c : Processo.t) :
  NoDup (Processo.id <$> processos) →
  c ∈ processos →
  Processo.escritorio_id c = escritorio →
  ∃ processos' c',
    ProcessoService.arquivar_processo escritorio (Processo.id c) processos
      = (processos', inr (Some c'))
    ∧ Processo.is_archived c' = true
    ∧ Processo.id c' = Processo.id c
    ∧ Processo.numero_principal c' = Processo.numero_principal c
    ∧ Processo.id <$> processos' = Processo.id <$> processos
    ∧ ProcessoService.arquivar_processo escritorio (Processo.id c) processos'
      = (processos', inr (Some c'))
    ∧ ∀ dados s, PrazoCreate.processo_id dados = Processo.id c →
        ProcessoService.criar_prazo escritorio processos' dados s
        = (s, inl (ProcessoService.ProcessoArquivadoError (Processo.id c))).
Proof.
  intros Hnd Hc He.
  pose proof (get_by_id_elem Processo.id Processo.escritorio_id escritorio
                processos c Hnd Hc He) as Hget.
  assert (∀ (ps : list Processo.t) (c' : Processo.t),
            get_by_id Processo.id Processo.escritorio_id escritorio (Processo.id c) ps
              = inr (Some c') →
            Processo.is_archived c' = true →
            ProcessoService.arquivar_processo escritorio (Processo.id c) ps
              = (ps, inr (Some c'))
            ∧ ∀ dados s, PrazoCreate.processo_id dados = Processo.id c →
                ProcessoService.criar_prazo escritorio ps dados s
                = (s, inl (ProcessoService.ProcessoArquivadoError (Processo.id c))))
    as Harq.
  { intros ps c' Hg Ha. split.
    - unfold ProcessoService.arquivar_processo, ProcessoService.buscar_processo,
        ProcessoRepository.get_by_id. by rewrite Hg, Ha.
    - intros dados s Hd.
      unfold ProcessoService.criar_prazo, ProcessoService.buscar_processo,
        ProcessoRepository.get_by_id. by rewrite Hd, Hg, Ha. }
  destruct (Processo.is_archived c) eqn:Ha.
  - exists processos, c. destruct (Harq processos c Hget Ha) as [H1 H2].
    split; [done|]. repeat (split; [done|]). done.
  - set (kw := {| Processo.kw_is_archived := Some true |}).
    exists (persist Processo.id Processo.escritorio_id Processo.setattrs escritorio
              (Processo.id c) kw processos), (Processo.setattrs kw c).
    assert (get_by_id Processo.id Processo.escritorio_id escritorio (Processo.id c)
              (persist Processo.id Processo.escritorio_id Processo.setattrs escritorio
                 (Processo.id c) kw processos)
            = inr (Some (Processo.setattrs kw c))) as Hget'.
    { apply get_by_id_persist_same;
        [apply Processo_setattrs_id|apply Processo_setattrs_escritorio_id|done]. }
    destruct (Harq _ _ Hget' eq_refl) as [H1 H2].
    split.
    { unfold ProcessoService.arquivar_processo, ProcessoService.buscar_processo,
        ProcessoRepository.get_by_id, ProcessoRepository.update.
      rewrite Hget, Ha. by erewrite update_Some by exact Hget. }
    split; [done|]. split; [done|]. split; [done|].
    split; [apply persist_ids, Processo_setattrs_id|]. by split.
Qed.

Lemma arquivar_processo_idempotente_witness :
  let c := {| Processo.id := 4; Processo.escritorio_id := 1;
              Processo.numero_cnj := None;
              Processo.numero_administrativo := Some "NB 123";
              Processo.tipo_beneficio := TipoBeneficio.AUXILIO_DOENCA;
              Processo.fase := FaseProcessual.CITACAO;
              Processo.tribunal := None; Processo.vara := None;
              Processo.comarca := None; Processo.agencia_inss := None;
              Processo.data_entrada := 1; Processo.data_distribuicao := None;
              Processo.data_citacao := None; Processo.data_sentenca := None;
              Processo.data_transito := None; Processo.valor_causa := None;
              Processo.valor_condenacao := None; Processo.objeto := None;
              Processo.observacoes := None; Processo.is_active := true;
              Processo.is_archived := false; Processo.resultado := None;
              Processo.cliente_id := 9; Processo.advogado_responsavel_id := None |} in
  ∃ processos' c',
    ProcessoService.arquivar_processo 1 4 [c] = (processos', inr (Some c'))
    ∧ Processo.is_archived c' = true
    ∧ Processo.id c' = 4%nat
    ∧ Processo.numero_principal c' = "NB 123"
    ∧ Processo.id <$> processos' = [4%nat]
    ∧ ProcessoService.arquivar_processo 1 4 processos' = (processos', inr (Some c'))
    ∧ ∀ dados s, PrazoCreate.processo_id dados = 4%nat →
        ProcessoService.criar_prazo 1 processos' dados s
        = (s, inl (ProcessoService.ProcessoArquivadoError 4)).
Proof.
  intros c.
  assert (NoDup (Processo.id <$> [c])) as Hc.
  { apply NoDup_cons. split; [apply not_elem_of_nil|apply NoDup_nil_2]. }
  exact (arquivar_processo_idempotente 1 [c] c Hc (list_elem_of_here _ _) eq_refl).
Defined.

Lemma cumprir_prazo_pendente escritorio prazo_id usuario agora s p :
  get_by_id Prazo.id Prazo.escritorio_id escritorio prazo_id (prazos s)
    = inr (Some p) →
  Prazo.status p = PENDENTE →
  let kw := {| Prazo.kw_descricao := None; Prazo.kw_data_fatal := None;
               Prazo.kw_status := Some CUMPRIDO; Prazo.kw_observacoes := None;
               Prazo.kw_data_cumprimento := Some agora;
               Prazo.kw_cumprido_por_id := Some usuario |} in
  ProcessoService.cumprir_prazo escritorio prazo_id usuario agora s
  = (com_prazos (persist Prazo.id Prazo.escritorio_id Prazo.setattrs escritorio
                   prazo_id kw (prazos s)) s,
     inr (Some (Prazo.setattrs kw p))).
Proof.
  intros Hget Hst kw.
  unfold ProcessoService.cumprir_prazo, bind, PrazoRepository.get_by_id,
    PrazoRepository.update.
  rewrite Hget. rewrite decide_False by (intros H; by apply H).
  by erewrite update_Some by exact Hget.
Qed.

Lemma atualizar_prazo_encontrado escritorio prazo_id dados s p :
  get_by_id Prazo.id Prazo.escritorio_id escritorio prazo_id (prazos s)
    = inr (Some p) →
  let kw := {| Prazo.kw_descricao := PrazoUpdate.descricao dados;
               Prazo.kw_data_fatal := PrazoUpdate.data_fatal dados;
               Prazo.kw_status := PrazoUpdate.status dados;
               Prazo.kw_observacoes := PrazoUpdate.observacoes dados;
               Prazo.kw_data_cumprimento := None;
               Prazo.kw_cumprido_por_id := None |} in
  ProcessoService.atualizar_prazo escritorio prazo_id dados s
  = (com_prazos (persist Prazo.id Prazo.escritorio_id Prazo.setattrs escritorio
                   prazo_id kw (prazos s)) s,
     inr (Some (Prazo.setattrs kw p))).
Proof.
  intros Hget kw.
  unfold ProcessoService.atualizar_prazo, bind, PrazoRepository.get_by_id,
    PrazoRepository.update.
  rewrite Hget. by erewrite update_Some by exact Hget.
Qed.

(** X10: [atualizar_prazo] has no guard on the status.  After
    [cumprir_prazo], an update with [status = PENDENTE] reopens the
    deadline; the actor and instant of the fulfilment stay on the row,
    and the deadline can then be fulfilled once more. *)
Theorem atualizar_prazo_reabre_cumprido
    (escritorio prazo_id usuario usuario2 : UUID) (agora agora2 : Z)
    (s : Estado) (p : Prazo.t) :
  get_by_id Prazo.id Prazo.escritorio_id escritorio prazo_id (prazos s)
    = inr (Some p) →
  Prazo.status p = PENDENTE →
  let reabrir := {| PrazoUpdate.descricao := None; PrazoUpdate.data_fatal := None;
                    PrazoUpdate.status := Some PENDENTE;
                    PrazoUpdate.observacoes := None |} in
  let s1 := (ProcessoService.cumprir_prazo escritorio prazo_id usuario agora s).1 in
  ∃ s2 p2,
    ProcessoService.atualizar_prazo escritorio prazo_id reabrir s1
      = (s2, inr (Some p2))
    ∧ get_by_id Prazo.id Prazo.escritorio_id escritorio prazo_id (prazos s2)
      = inr (Some p2)
    ∧ Prazo.status p2 = PENDENTE
    ∧ Prazo.data_cumprimento p2 = Some agora
    ∧ Prazo.cumprido_por_id p2 = Some usuario
    ∧ ∃ s3 p3,
        ProcessoService.cumprir_prazo escritorio prazo_id usuario2 agora2 s2
          = (s3, inr (Some p3))
        ∧ Prazo.status p3 = CUMPRIDO
        ∧ Prazo.cumprido_por_id p3 = Some usuario2.
Proof.
  intros Hget Hst reabrir s1. subst s1.
  rewrite (cumprir_prazo_pendente _ _ _ _ _ _ Hget Hst). cbn [fst].
  match goal with
  | |- context [com_prazos (persist _ _ _ _ _ ?kw _) s] => set (kw1 := kw)
  end.
  assert (get_by_id Prazo.id Prazo.escritorio_id escritorio prazo_id
            (prazos (com_prazos
                       (persist Prazo.id Prazo.escritorio_id Prazo.setattrs escritorio
                          prazo_id kw1 (prazos s)) s))
          = inr (Some (Prazo.setattrs kw1 p))) as Hget1.
  { apply get_by_id_persist_same;
      [apply Prazo_setattrs_id|apply Prazo_setattrs_escritorio_id|exact Hget]. }
  rewrite (atualizar_prazo_encontrado _ _ reabrir _ _ Hget1).
  match goal with
  | |- context [Prazo.setattrs ?kw (Prazo.setattrs kw1 p)] => set (kw2 := kw)
  end.
  eexists _, _. split; [reflexivity|].
  assert (get_by_id Prazo.id Prazo.escritorio_id escritorio prazo_id
            (prazos (com_prazos
               (persist Prazo.id Prazo.escritorio_id Prazo.setattrs escritorio
                  prazo_id kw2
                  (prazos (com_prazos
                     (persist Prazo.id Prazo.escritorio_id Prazo.setattrs escritorio
                        prazo_id kw1 (prazos s)) s)))
               (com_prazos
                  (persist Prazo.id Prazo.escritorio_id Prazo.setattrs escritorio
                     prazo_id kw1 (prazos s)) s)))
          = inr (Some (Prazo.setattrs kw2 (Prazo.setattrs kw1 p)))) as Hget2.
  { apply get_by_id_persist_same;
      [apply Prazo_setattrs_id|apply Prazo_setattrs_escritorio_id|exact Hget1]. }
  split; [exact Hget2|]. split; [done|]. split; [done|]. split; [done|].
  eexists _, _. split; [apply (cumprir_prazo_pendente _ _ _ _ _ _ Hget2); done|].
  by split.
Qed.

Lemma atualizar_prazo_reabre_cumprido_witness :
  let s := Cenario.sessao [] [] [Cenario.prazo 1 1 PENDENTE 10 None] in
  let reabrir := {| PrazoUpdate.descricao := None; PrazoUpdate.data_fatal := None;
                    PrazoUpdate.status := Some PENDENTE;
                    PrazoUpdate.observacoes := None |} in
  let s1 := (ProcessoService.cumprir_prazo 1 1 7 100 s).1 in
  ∃ s2 p2,
    ProcessoService.atualizar_prazo 1 1 reabrir s1 = (s2, inr (Some p2))
    ∧ get_by_id Prazo.id Prazo.escritorio_id 1 1 (prazos s2) = inr (Some p2)
    ∧ Prazo.status p2 = PENDENTE
    ∧ Prazo.data_cumprimento p2 = Some 100
    ∧ Prazo.cumprido_por_id p2 = Some 7%nat
    ∧ ∃ s3 p3,
        ProcessoService.cumprir_prazo 1 1 8 200 s2 = (s3, inr (Some p3))
        ∧ Prazo.status p3 = CUMPRIDO
        ∧ Prazo.cumprido_por_id p3 = Some 8%nat.
Proof.
  exact (atualizar_prazo_reabre_cumprido 1 1 7 8 100 200
           (Cenario.sessao [] [] [Cenario.prazo 1 1 PENDENTE 10 None])
           (Cenario.prazo 1 1 PENDENTE 10 None) eq_refl eq_refl).
Defined.









(** ** The generic repository: listing, deleting, soft delete *)

(** X12: [get_all] never returns a row of another tenant.  A page holds
    [min limit (count - skip)] rows, so at most [limit], and none once
    [skip] reaches [count]; from offset 0 with a limit of [count] or
    more it is every row of the tenant. *)
Theorem get_all_so_do_escritorio {Row : Type} (row_escritorio_id : Row → UUID)
    (escritorio : UUID) (skip limit : nat) (tabela : list Row) :
  (∀ r, r ∈ Repository.get_all row_escritorio_id escritorio skip limit tabela →
        r ∈ tabela ∧ row_escritorio_id r = escritorio)
  ∧ length (Repository.get_all row_escritorio_id escritorio skip limit tabela)
    = (limit `min` (Repository.count row_escritorio_id escritorio tabela - skip))%nat
  ∧ ((Repository.count row_escritorio_id escritorio tabela ≤ limit)%nat →
     ∀ r, r ∈ Repository.get_all row_escritorio_id escritorio 0 limit tabela
          ↔ r ∈ tabela ∧ row_escritorio_id r = escritorio).
Proof.
  unfold Repository.get_all, Repository.count. split; [|split].
  - intros r Hr. apply subseteq_take, subseteq_drop, list_elem_of_filter in Hr. tauto.
  - by rewrite length_take, length_drop.
  - intros Hle r. rewrite drop_0, take_ge by done. rewrite list_elem_of_filter. tauto.
Qed.



Lemma filter_fmap_length {A} (P Q : A → Prop) `{∀ x, Decision (P x)}
    `{∀ x, Decision (Q x)} (f : A → A) (l : list A) :
  (∀ x, x ∈ l → P (f x) ↔ Q x) →
  length (filter P (f <$> l)) = length (filter Q l).
Proof.
  induction l as [|x l IH]; intros Hf; [done|].
  rewrite fmap_cons, !filter_cons.
  pose proof (Hf x (list_elem_of_here _ _)) as Hx.
  assert (length (filter P (f <$> l)) = length (filter Q l)) as IH'.
  { apply IH. intros y Hy. apply Hf. by right. }
  destruct (decide (P (f x))), (decide (Q x)); simpl; tauto || by rewrite IH'.
Qed.

(** The row that [update(id, is_active=False)] leaves: as it was when it
    was inactive already, otherwise inactive and with [updated_at] at
    the instant of the flush. *)
Lemma setattrs_commit_is_active {V : Type} `{EqDecision V} (agora falso : V)
    (x : gmap string (option V)) :
  BaseRepository.setattrs_commit agora [("is_active", Some falso)] x
  = if decide (x !! "is_active" = Some (Some falso)) then x
    else <["updated_at" := Some agora]> (<["is_active" := Some falso]> x).
Proof.
  unfold BaseRepository.setattrs_commit, BaseRepository.flush. simpl.
  unfold BaseRepository.setattr.
  destruct (decide (<["is_active" := Some falso]> x = x)) as [Heq|Hne].
  - rewrite decide_True; [done|]. rewrite <- Heq. apply lookup_insert_eq.
  - destruct (decide (x !! "is_active" = Some (Some falso))) as [Hx|Hx];
      [exfalso; apply Hne; by apply insert_id|].
    rewrite decide_True; [done|]. by apply lookup_insert_ne.
Qed.

(** X14: [soft_delete] on a model with an [is_active] column sets it to
    [False] on the row of the tenant.  When the row was active the
    UPDATE also sets [updated_at] to the instant of the flush; when it
    was inactive already nothing is written.  No other attribute
    changes, and the row is neither removed nor hidden: [get_by_id]
    still returns it and [count] is unchanged.  For the id of a row of
    another tenant the result is [None] and the table is unchanged. *)
Theorem soft_delete_nao_esconde {V : Type} `{EqDecision V}
    (row_id row_escritorio_id : gmap string (option V) → UUID)
    (escritorio : UUID) (falso agora : V) (tabela : list (gmap string (option V)))
    (r : gmap string (option V)) :
  (∀ k v x, k = "is_active" ∨ k = "updated_at" → row_id (<[k := v]> x) = row_id x) →
  (∀ k v x, k = "is_active" ∨ k = "updated_at" →
            row_escritorio_id (<[k := v]> x) = row_escritorio_id x) →
  NoDup (row_id <$> tabela) →
  r ∈ tabela →
  is_Some (r !! "is_active") →
  (row_escritorio_id r = escritorio →
   ∃ tabela' r',
     Repository.soft_delete row_id row_escritorio_id escritorio falso agora
       (row_id r) tabela
       = (tabela', inr (Some r'))
     ∧ r' !! "is_active" = Some (Some falso)
     ∧ r' !! "updated_at"
       = (if decide (r !! "is_active" = Some (Some falso)) then r !! "updated_at"
          else Some (Some agora))
     ∧ (∀ k, k ≠ "is_active" → k ≠ "updated_at" → r' !! k = r !! k)
     ∧ r' ∈ tabela'
     ∧ get_by_id row_id row_escritorio_id escritorio (row_id r) tabela'
       = inr (Some r')
     ∧ Repository.count row_escritorio_id escritorio tabela'
       = Repository.count row_escritorio_id escritorio tabela
     ∧ ∀ x, x ∈ tabela → x ≠ r → x ∈ tabela')
  ∧ (row_escritorio_id r ≠ escritorio →
     Repository.soft_delete row_id row_escritorio_id escritorio falso agora
       (row_id r) tabela
     = (tabela, inr None)).
Proof.
  intros Hid Hesc Hnd Hr _.
  set (st := λ (_ : unit) (x : gmap string (option V)),
               BaseRepository.setattrs_commit agora [("is_active", Some falso)] x).
  assert (∀ kw x, row_id (st kw x) = row_id x) as Hid'.
  { intros kw x. unfold st. rewrite setattrs_commit_is_active.
    case_decide; [done|]. rewrite !Hid; [done|by left|by right]. }
  assert (∀ kw x, row_escritorio_id (st kw x) = row_escritorio_id x) as Hesc'.
  { intros kw x. unfold st. rewrite setattrs_commit_is_active.
    case_decide; [done|]. rewrite !Hesc; [done|by left|by right]. }
  split; intros He.
  - pose proof (get_by_id_elem row_id row_escritorio_id escritorio tabela r Hnd Hr He)
      as Hget.
    unfold Repository.soft_delete, update. rewrite Hget.
    change (persist row_id row_escritorio_id (BaseRepository.setattrs_commit agora)
              escritorio (row_id r) [("is_active", Some falso)] tabela)
      with (persist row_id row_escritorio_id st escritorio (row_id r) () tabela).
    change (BaseRepository.setattrs_commit agora [("is_active", Some falso)] r)
      with (st () r).
    pose proof (get_by_id_persist_same row_id row_escritorio_id st Hid' Hesc'
                  escritorio (row_id r) () tabela r Hget) as Hget'.
    eexists _, _. split; [reflexivity|].
    assert (st () r !! "is_active" = Some (Some falso)
            ∧ st () r !! "updated_at"
              = (if decide (r !! "is_active" = Some (Some falso))
                 then r !! "updated_at" else Some (Some agora))
            ∧ ∀ k, k ≠ "is_active" → k ≠ "updated_at" → st () r !! k = r !! k)
      as (Ha & Hu & Hk).
    { unfold st. rewrite setattrs_commit_is_active.
      destruct (decide (r !! "is_active" = Some (Some falso))) as [Hin|Hin].
      - done.
      - split; [by rewrite lookup_insert_ne, lookup_insert_eq|].
        split; [apply lookup_insert_eq|].
        intros k Hk1 Hk2. by rewrite !lookup_insert_ne. }
    split; [exact Ha|]. split; [exact Hu|]. split; [exact Hk|].
    split; [by apply (get_by_id_Some row_id row_escritorio_id) in Hget' as (? & _)|].
    split; [exact Hget'|].
    split.
    + unfold Repository.count, persist. apply filter_fmap_length.
      intros x _. simpl.
      destruct (decide (row_id x = row_id r ∧ row_escritorio_id x = escritorio));
        [by rewrite Hesc'|done].
    + intros x Hx Hne. unfold persist. apply list_elem_of_fmap. exists x.
      split; [|done]. rewrite decide_False; [done|].
      intros [Hxid _]. apply Hne.
      by apply (NoDup_fmap_chave row_id tabela x r).
  - unfold Repository.soft_delete.
    apply update_outro_escritorio.
    intros x Hx Hxid. by rewrite (NoDup_fmap_chave row_id tabela x r Hnd Hx Hr Hxid).
Qed.

Lemma soft_delete_nao_esconde_witness :
  let chave (k : string) (x : gmap string (option nat)) : UUID :=
    match x !! k with Some (Some n) => n | _ => 0%nat end in
  let r : gmap string (option nat) :=
    <["id" := Some 1%nat]> (<["escritorio_id" := Some 1%nat]>
      (<["is_active" := Some 1%nat]> (<["updated_at" := Some 50%nat]> ∅))) in
  (∃ tabela' r',
     Repository.soft_delete (chave "id") (chave "escritorio_id") 1 0%nat 99%nat 1 [r]
       = (tabela', inr (Some r'))
     ∧ r' !! "is_active" = Some (Some 0%nat)
     ∧ r' !! "updated_at" = Some (Some 99%nat)
     ∧ (∀ k, k ≠ "is_active" → k ≠ "updated_at" → r' !! k = r !! k)
     ∧ r' ∈ tabela'
     ∧ get_by_id (chave "id") (chave "escritorio_id") 1 1 tabela' = inr (Some r')
     ∧ Repository.count (chave "escritorio_id") 1 tabela'
       = Repository.count (chave "escritorio_id") 1 [r]
     ∧ ∀ x, x ∈ [r] → x ≠ r → x ∈ tabela')
  ∧ Repository.soft_delete (chave "id") (chave "escritorio_id") 2 0%nat 99%nat 1 [r]
    = ([r], inr None).
Proof.
  intros chave r.
  assert (∀ c, c ≠ "is_active" → c ≠ "updated_at" →
            ∀ k v x, k = "is_active" ∨ k = "updated_at" →
                     chave c (<[k := v]> x) = chave c x) as Hk.
  { intros c Hc1 Hc2 k v x [-> | ->]; unfold chave; by rewrite lookup_insert_ne. }
  assert (NoDup (chave "id" <$> [r])) as Hnd by apply NoDup_singleton.
  assert (is_Some (r !! "is_active")) as Hcol by (by eexists).
  pose proof (soft_delete_nao_esconde (chave "id") (chave "escritorio_id") 1
                0%nat 99%nat [r] r
                (Hk "id" ltac:(discriminate) ltac:(discriminate))
                (Hk "escritorio_id" ltac:(discriminate) ltac:(discriminate))
                Hnd (list_elem_of_here _ _) Hcol) as [H1 _].
  pose proof (soft_delete_nao_esconde (chave "id") (chave "escritorio_id") 2
                0%nat 99%nat [r] r
                (Hk "id" ltac:(discriminate) ltac:(discriminate))
                (Hk "escritorio_id" ltac:(discriminate) ltac:(discriminate))
                Hnd (list_elem_of_here _ _) Hcol) as [_ H2].
  split.
  - apply H1. reflexivity.
  - apply H2. vm_compute. discriminate.
Defined.

(** ** Notifications of a user: creation, listing, unread count *)

(** X15: the service creates no notification.  [criar_notificacao]
    raises [TypeError] whatever the payload, for [usuario_id] reaches
    [create] by keyword and again in the dump of the payload;
    [criar_notificacao_prazo] raises [AttributeError] with one to three
    days remaining and [ValidationError] otherwise; both leave the
    session as it is.  [create] of the repository, called with the
    attributes of a row, appends that row under an id that no row had
    and in the tenant of the repository: [get_by_id] of the tenant
    returns it, [get_by_id] of any other tenant returns [None], and
    when the row is an unread notification of a user, the unread count
    of the user goes up by one and the row is the first entry of the
    user's listing of unread notifications. *)
Theorem criar_notificacao_levanta
    (escritorio usuario prazo_id : UUID) (dados : NotificacaoCreate.t)
    (numero descricao : string) (data_fatal dias : Z)
    (novo : UUID → UUID → Notificacao.t) (limit : nat) (s : Estado) :
  NoDup (Notificacao.id <$> notificacoes s) →
  (∀ id e, Notificacao.id (novo id e) = id
           ∧ Notificacao.escritorio_id (novo id e) = e) →
  NotificacaoService.criar_notificacao escritorio dados usuario s
  = (s, inl (TypeError "got multiple values for keyword argument 'usuario_id'"))
  ∧ NotificacaoService.criar_notificacao_prazo escritorio usuario prazo_id numero
      descricao data_fatal dias s
    = (s, inl (if decide (1 ≤ dias ≤ 3)
               then AttributeError "TipoNotificacao" "PRAZO_URGENTE"
               else ValidationError "usuario_id"))
  ∧ ∃ n s',
      NotificacaoRepository.create escritorio novo s = (s', inr n)
      ∧ n = novo (Notificacao.id n) escritorio
      ∧ notificacoes s' = notificacoes s ++ [n]
      ∧ (Notificacao.id n ∉ Notificacao.id <$> notificacoes s)
      ∧ NoDup (Notificacao.id <$> notificacoes s')
      ∧ (NotificacaoRepository.get_by_id escritorio (Notificacao.id n) s').2
        = inr (Some n)
      ∧ (∀ outro, outro ≠ escritorio →
           (NotificacaoRepository.get_by_id outro (Notificacao.id n) s').2 = inr None)
      ∧ (Notificacao.usuario_id n = usuario →
         Notificacao.status n ≠ StatusNotificacao.LIDA →
         (∃ k, (NotificacaoService.contar_nao_lidas escritorio usuario s).2 = inr k
               ∧ (NotificacaoService.contar_nao_lidas escritorio usuario s').2
                 = inr (S k))
         ∧ ∃ l, (NotificacaoService.listar_notificacoes_usuario escritorio usuario
                   true 0 (S limit) s').2 = inr (n :: l)).
Proof.
  intros Hnd Hnovo.
  split; [apply criar_notificacao_falha|].
  split; [apply criar_notificacao_prazo_falha|].
  unfold NotificacaoRepository.create.
  set (n := novo (NotificacaoRepository.novo_id (notificacoes s)) escritorio).
  destruct (Hnovo (NotificacaoRepository.novo_id (notificacoes s)) escritorio)
    as [Hnid Hne]. fold n in Hnid, Hne.
  assert (Notificacao.id n ∉ Notificacao.id <$> notificacoes s) as Hfresh
    by (rewrite Hnid; apply novo_id_fresco).
  assert (NoDup (Notificacao.id <$> notificacoes s ++ [n])) as Hnd'
    by by apply NoDup_fmap_snoc.
  exists n, (com_notificacoes (notificacoes s ++ [n]) s).
  split; [done|]. split; [by rewrite Hnid|]. split; [done|].
  split; [done|]. split; [done|]. split; [|split].
  - unfold NotificacaoRepository.get_by_id. cbn [snd notificacoes com_notificacoes].
    apply (get_by_id_elem Notificacao.id Notificacao.escritorio_id); [done| |done].
    apply elem_of_app. right. apply list_elem_of_here.
  - intros outro Hout.
    unfold NotificacaoRepository.get_by_id. cbn [snd notificacoes com_notificacoes].
    apply get_by_id_nenhum. intros r Hr Hid.
    rewrite (NoDup_fmap_chave Notificacao.id _ r n Hnd' Hr
               ltac:(apply elem_of_app; right; apply list_elem_of_here) Hid).
    by rewrite Hne.
  - intros Hu Hst. split.
    + eexists. split; [reflexivity|].
      unfold NotificacaoService.contar_nao_lidas, NotificacaoRepository.count_nao_lidas.
      cbn [snd notificacoes com_notificacoes].
      rewrite filter_app, length_app.
      rewrite (filter_cons _ n), decide_True by done.
      simpl. f_equal. lia.
    + eexists.
      unfold NotificacaoService.listar_notificacoes_usuario,
        NotificacaoRepository.get_by_usuario.
      cbn [snd notificacoes com_notificacoes].
      rewrite filter_app, (filter_cons _ n), decide_True by done.
      rewrite reverse_app. reflexivity.
Qed.

Lemma criar_notificacao_levanta_witness :
  let dados :=
    {| NotificacaoCreate.tipo := SISTEMA;
       NotificacaoCreate.titulo := "Aviso";
       NotificacaoCreate.mensagem := "Manutencao";
       NotificacaoCreate.canal := IN_APP;
       NotificacaoCreate.usuario_id := 7;
       NotificacaoCreate.agendada_para := None;
       NotificacaoCreate.action_url := None;
       NotificacaoCreate.prazo_id := None;
       NotificacaoCreate.processo_id := None;
       NotificacaoCreate.andamento_id := None |} in
  let novo := λ id e, Cenario.notificacao id e 7 SISTEMA StatusNotificacao.PENDENTE
                        None in
  let s := Cenario.sessao
             [Cenario.notificacao 1 1 7 SISTEMA StatusNotificacao.LIDA None] [] [] in
  NotificacaoService.criar_notificacao 1 dados 7 s
  = (s, inl (TypeError "got multiple values for keyword argument 'usuario_id'"))
  ∧ NotificacaoService.criar_notificacao_prazo 1 7 3 "0001" "Recurso ordinario" 15 2 s
    = (s, inl (AttributeError "TipoNotificacao" "PRAZO_URGENTE"))
  ∧ NotificacaoService.criar_notificacao_prazo 1 7 3 "0001" "Recurso ordinario" 15 5 s
    = (s, inl (ValidationError "usuario_id"))
  ∧ ∃ n s',
      NotificacaoRepository.create 1 novo s = (s', inr n)
      ∧ Notificacao.id n = 2%nat
      ∧ (NotificacaoRepository.get_by_id 1 2 s').2 = inr (Some n)
      ∧ (NotificacaoRepository.get_by_id 2 2 s').2 = inr None
      ∧ (NotificacaoService.contar_nao_lidas 1 7 s').2 = inr 1%nat.
Proof.
  intros dados novo s.
  assert (NoDup (Notificacao.id <$> notificacoes s)) as Hnd by apply NoDup_singleton.
  assert (∀ id e, Notificacao.id (novo id e) = id
                  ∧ Notificacao.escritorio_id (novo id e) = e) as Hnovo by done.
  destruct (criar_notificacao_levanta 1 7 3 dados "0001" "Recurso ordinario" 15 2
              novo 0 s Hnd Hnovo) as (H1 & H2 & _).
  destruct (criar_notificacao_levanta 1 7 3 dados "0001" "Recurso ordinario" 15 5
              novo 0 s Hnd Hnovo)
    as (_ & H3 & n & s' & Heq & Hn & _ & _ & _ & Hget & Houtro & _).
  split; [exact H1|]. split; [exact H2|]. split; [exact H3|].
  exists n, s'.
  assert (Notificacao.id n = 2%nat) as Hid.
  { assert ((NotificacaoRepository.create 1 novo s).2 = inr n) as Hr
      by (by rewrite Heq).
    vm_compute in Hr. injection Hr as <-. reflexivity. }
  split; [done|]. split; [done|].
  rewrite Hid in Hget, Houtro.
  split; [done|].
  split; [apply Houtro; discriminate|].
  assert ((NotificacaoRepository.create 1 novo s).1 = s') as H1'
    by (by rewrite Heq).
  rewrite <- H1'. reflexivity.
Defined.

(** X16: the listing of a user holds only notifications of that user in
    the tenant, newest first, and only unread ones when
    [apenas_nao_lidas] is set; the unread listing has
    [min limit (contar_nao_lidas - skip)] entries, so the unread count and
    the unread listing agree. *)
Theorem listar_notificacoes_usuario_e_contagem
    (escritorio usuario : UUID) (apenas_nao_lidas : bool) (skip limit : nat)
    (s : Estado) :
  ∃ l,
    NotificacaoService.listar_notificacoes_usuario escritorio usuario
      apenas_nao_lidas skip limit s = (s, inr l)
    ∧ (∀ n, n ∈ l →
         n ∈ notificacoes s
         ∧ Notificacao.escritorio_id n = escritorio
         ∧ Notificacao.usuario_id n = usuario
         ∧ (apenas_nao_lidas = true → Notificacao.status n ≠ StatusNotificacao.LIDA))
    ∧ l `sublist_of` reverse (notificacoes s)
    ∧ (apenas_nao_lidas = true →
       ∃ k, (NotificacaoService.contar_nao_lidas escritorio usuario s).2 = inr k
            ∧ length l = (limit `min` (k - skip))%nat).
Proof.
  eexists. split; [reflexivity|]. split; [|split].
  - intros n Hn.
    apply subseteq_take, subseteq_drop, elem_of_reverse, list_elem_of_filter in Hn
      as [(He & Hu & Hst) Hn].
    split; [done|]. split; [done|]. split; [done|]. by intros ->.
  - etrans; [apply sublist_take|]. etrans; [apply sublist_drop|].
    rewrite <- filter_reverse. apply sublist_filter.
  - intros ->. eexists. split; [reflexivity|].
    rewrite length_take, length_drop, length_reverse.
    by rewrite (list_filter_iff
                  (NotificacaoRepository.where_usuario escritorio usuario true)
                  (NotificacaoRepository.where_todas escritorio usuario)).
Qed.

(** X17: [marcar_todas_como_lidas] returns the unread count of the user
    as it was before the call; afterwards the unread count is 0 and the
    unread listing is empty, a second call returns 0 and changes no row,
    no notification is removed from the user's listing, and the unread
    count of every other user or tenant is as before. *)
Theorem marcar_todas_como_lidas_zera_contagem
    (escritorio usuario : UUID) (agora : Z) (s : Estado) :
  ∃ k s',
    NotificacaoRepository.marcar_todas_como_lidas escritorio usuario agora s
      = (s', inr k)
    ∧ (NotificacaoRepository.count_nao_lidas escritorio usuario s).2 = inr k
    ∧ (NotificacaoRepository.count_nao_lidas escritorio usuario s').2 = inr 0%nat
    ∧ (∀ skip limit,
         (NotificacaoRepository.get_by_usuario escritorio usuario true skip limit s').2
         = inr [])
    ∧ (∀ depois,
         NotificacaoRepository.marcar_todas_como_lidas escritorio usuario depois s'
         = (s', inr 0%nat))
    ∧ (∀ skip limit l l',
         (NotificacaoRepository.get_by_usuario escritorio usuario false skip limit s).2
           = inr l →
         (NotificacaoRepository.get_by_usuario escritorio usuario false skip limit s').2
           = inr l' →
         length l' = length l)
    ∧ (∀ outro_escritorio outro_usuario,
         (outro_escritorio, outro_usuario) ≠ (escritorio, usuario) →
         (NotificacaoRepository.count_nao_lidas outro_escritorio outro_usuario s').2
         = (NotificacaoRepository.count_nao_lidas outro_escritorio outro_usuario s).2).
Proof.
  unfold NotificacaoRepository.marcar_todas_como_lidas,
    NotificacaoRepository.update_lida, NotificacaoRepository.count_nao_lidas,
    NotificacaoRepository.get_by_usuario.
  eexists _, _. split; [reflexivity|]. split; [reflexivity|].
  cbn [snd notificacoes com_notificacoes].
  set (f := λ n, if decide (NotificacaoRepository.where_todas escritorio usuario n)
                 then Notificacao.values_lida agora n else n).
  assert (∀ x, x ∈ f <$> notificacoes s →
               ¬ NotificacaoRepository.where_todas escritorio usuario x) as Hlidas.
  { intros x (y & -> & Hy)%list_elem_of_fmap. unfold f. case_decide; [|done].
    intros (_ & _ & Hst). by apply Hst. }
  assert (filter (NotificacaoRepository.where_todas escritorio usuario)
            (f <$> notificacoes s) = []) as Hvazio by by apply filter_nenhum.
  split; [by rewrite Hvazio|]. split; [|split; [|split]].
  - intros skip limit.
    rewrite (list_filter_iff
               (NotificacaoRepository.where_usuario escritorio usuario true)
               (NotificacaoRepository.where_todas escritorio usuario)) by done.
    rewrite Hvazio. by rewrite reverse_nil, drop_nil, take_nil.
  - intros depois. rewrite Hvazio. f_equal.
    destruct s as [ns ps zs cs]. unfold com_notificacoes.
    cbn [notificacoes preferencias prazos chamadas]. f_equal.
    rewrite <- (list_fmap_id (f <$> ns)) at 2. apply list_fmap_ext.
    intros i x Hx. simpl. rewrite decide_False; [done|].
    apply Hlidas. by eapply list_elem_of_lookup_2.
  - intros skip limit l l' [= <-] [= <-].
    rewrite !length_take, !length_drop, !length_reverse.
    rewrite (filter_fmap_length
               (NotificacaoRepository.where_usuario escritorio usuario false)
               (NotificacaoRepository.where_usuario escritorio usuario false)); [done|].
    intros x _. unfold f. by case_decide.
  - intros t' u' Hne. f_equal. apply filter_fmap_length.
    intros x _. unfold f. case_decide as Hx; [|done].
    destruct Hx as (He & Hu & _).
    split; intros (He' & Hu' & _); destruct Hne; simpl in *; congruence.
Qed.

(** ** The count and the progress of the dispatch sweep *)

Lemma filter_todos {A} (P : A → Prop) `{∀ x, Decision (P x)} (l : list A) :
  (∀ x, x ∈ l → P x) → filter P l = l.
Proof.
  induction l as [|x l IH]; intros Hall; [done|].
  rewrite filter_cons, decide_True by (apply Hall; by left).
  f_equal. apply IH. intros y Hy. apply Hall. by right.
Qed.

(** With one row of preferences per user at most, the lookup of the
    preferences does not raise. *)
Lemma preferencia_unica_get_by_usuario escritorio usuario s :
  preferencia_unica s →
  ∃ o, (PreferenciaNotificacaoRepository.get_by_usuario escritorio usuario s).2
       = inr o.
Proof.
  unfold preferencia_unica, PreferenciaNotificacaoRepository.get_by_usuario.
  intros Hnd. cbn [snd].
  destruct (filter _ (preferencias s)) as [|x [|y l]] eqn:Hf;
    [by eexists|by eexists|].
  exfalso.
  assert (x ∈ filter (λ p, PreferenciaNotificacao.escritorio_id p = escritorio
                           ∧ PreferenciaNotificacao.usuario_id p = usuario)
                (preferencias s)) as Hx
    by (rewrite Hf; set_solver).
  assert (y ∈ filter (λ p, PreferenciaNotificacao.escritorio_id p = escritorio
                           ∧ PreferenciaNotificacao.usuario_id p = usuario)
                (preferencias s)) as Hy
    by (rewrite Hf; set_solver).
  apply list_elem_of_filter in Hx as [[Hxe Hxu] _], Hy as [[Hye Hyu] _].
  assert (NoDup (chave_preferencia <$> x :: y :: l)) as Hnd'.
  { rewrite <- Hf. eapply sublist_NoDup; [exact Hnd|].
    apply fmap_sublist, sublist_filter. }
  rewrite !fmap_cons in Hnd'. apply NoDup_cons in Hnd' as [Hni _].
  apply Hni. unfold chave_preferencia. rewrite Hxe, Hxu, Hye, Hyu. by left.
Qed.

Section Contagem.

Variable adaptador : CanalNotificacao → Notificacao.t → bool.
Variable escritorio : UUID.
Variable agora : Z.

Lemma sem_escrita_resultado s r :
  sem_escrita escritorio s r → resultado escritorio s r = r.
Proof.
  unfold sem_escrita, resultado. intros [Hne|Hnone].
  - by rewrite decide_False.
  - case_decide; [|done]. by rewrite Hnone.
Qed.

Lemma processar_pendentes_sem_escrita s :
  NoDup (Notificacao.id <$> notificacoes s) →
  (∀ n, n ∈ pendentes_envio agora s → sem_escrita escritorio s n) →
  notificacoes (NotificacaoService.processar_pendentes adaptador escritorio agora s).1
    = notificacoes s
  ∧ preferencias
      (NotificacaoService.processar_pendentes adaptador escritorio agora s).1
    = preferencias s.
Proof.
  intros Hnd Hsem.
  destruct (processar_pendentes_spec adaptador escritorio agora s Hnd)
    as (s' & Heq & Hp & _ & Hrows & _).
  rewrite Heq. cbn [fst]. split; [|done].
  rewrite Hrows. rewrite <- (list_fmap_id (notificacoes s)) at 2.
  apply list_fmap_ext. intros i r Hi. simpl.
  case_decide as Hin; [|done].
  apply sem_escrita_resultado, Hsem.
  apply list_elem_of_fmap in Hin as (m & Hid & Hm).
  assert (r = m) as ->; [|done].
  eapply (NoDup_fmap_chave Notificacao.id); [exact Hnd| | |done].
  - by eapply list_elem_of_lookup_2.
  - by apply (pendentes_envio_elem agora).
Qed.

End Contagem.

(** X18: the sweep of a tenant never raises, and the count it returns is
    the number of claimed notifications whose recipient has no row of
    preferences in the tenant of the sweep; for each of these, and for
    no other notification, the in-app sender is called, once.  A claimed
    notification whose recipient has preferences is not counted, and
    when it is of the tenant the sweep leaves it FALHA.  The count is
    never more than 100, and it includes the claimed notifications of
    other tenants.  With no preferences in the table it is the number of
    claimed notifications, the smaller of 100 and the number of due
    PENDENTE notifications of all tenants.  No row is added or
    removed. *)
Theorem processar_pendentes_contagem
    (adaptador : CanalNotificacao → Notificacao.t → bool)
    (escritorio : UUID) (agora : Z) (s : Estado) :
  NoDup (Notificacao.id <$> notificacoes s) →
  ∃ s' c,
    NotificacaoService.processar_pendentes adaptador escritorio agora s = (s', inr c)
    ∧ c = length (filter (sem_preferencias escritorio s) (pendentes_envio agora s))
    ∧ (c ≤ 100)%nat
    ∧ chamadas s'
      = reverse ((λ n, (IN_APP, Notificacao.id n))
                   <$> filter (sem_preferencias escritorio s) (pendentes_envio agora s))
        ++ chamadas s
    ∧ Notificacao.id <$> notificacoes s' = Notificacao.id <$> notificacoes s
    ∧ (∀ n, n ∈ pendentes_envio agora s →
            Notificacao.escritorio_id n = escritorio →
            ¬ sem_preferencias escritorio s n →
            ∃ n', get_by_id Notificacao.id Notificacao.escritorio_id escritorio
                    (Notificacao.id n) (notificacoes s') = inr (Some n')
                  ∧ Notificacao.status n' = StatusNotificacao.FALHA)
    ∧ (preferencias s = [] →
       c = (100 `min` length (filter (NotificacaoRepository.pendente_envio None agora)
                                (notificacoes s)))%nat).
Proof.
  intros Hnd.
  destruct (processar_pendentes_spec adaptador escritorio agora s Hnd)
    as (s' & Heq & _ & _ & Hrows & Hcham).
  pose proof (processar_pendentes_linha adaptador escritorio agora s) as Hlinha.
  rewrite Heq in Hlinha. cbn [fst] in Hlinha.
  eexists s', _. split; [exact Heq|]. split; [reflexivity|].
  assert (length (pendentes_envio agora s)
          = (100 `min` length (filter (NotificacaoRepository.pendente_envio None agora)
                                 (notificacoes s)))%nat) as Hlen
    by (unfold pendentes_envio; apply length_take).
  split; [|split; [exact Hcham|split; [|split]]].
  - etrans; [apply length_filter|]. rewrite Hlen. lia.
  - rewrite Hrows, <- list_fmap_compose. apply list_fmap_ext.
    intros i r _. simpl. case_decide; [apply resultado_id|done].
  - intros n Hn He Hsem. exists (resultado escritorio s n).
    split; [by apply Hlinha|].
    unfold resultado. rewrite decide_True by done.
    unfold sem_preferencias in Hsem.
    by destruct (PreferenciaNotificacaoRepository.get_by_usuario _ _ _).2
      as [e|[prefs|]].
  - intros Hvazio. rewrite <- Hlen. f_equal.
    apply filter_todos. intros x _.
    unfold sem_preferencias, PreferenciaNotificacaoRepository.get_by_usuario.
    cbn [snd]. by rewrite Hvazio.
Qed.

Lemma processar_pendentes_contagem_witness :
  let s := Cenario.sessao
             [Cenario.notificacao 1 1 7 SISTEMA StatusNotificacao.PENDENTE None;
              Cenario.notificacao 2 2 8 SISTEMA StatusNotificacao.PENDENTE None;
              Cenario.notificacao 3 1 7 SISTEMA StatusNotificacao.ENVIADA None]
             [Cenario.preferencia 1 1 7] [] in
  ∃ s', NotificacaoService.processar_pendentes Cenario.envia_sempre 1 0 s
        = (s', inr 1%nat)
        ∧ chamadas s' = [(IN_APP, 2%nat)]
        ∧ Notificacao.status <$> notificacoes s'
          = [StatusNotificacao.FALHA; StatusNotificacao.PENDENTE;
             StatusNotificacao.ENVIADA].
Proof.
  intros s.
  assert (NoDup (Notificacao.id <$> notificacoes s)) as Hnd.
  { apply (NoDup_fmap_snoc Notificacao.id
             [Cenario.notificacao 1 1 7 SISTEMA StatusNotificacao.PENDENTE None;
              Cenario.notificacao 2 2 8 SISTEMA StatusNotificacao.PENDENTE None]).
    - apply (NoDup_fmap_snoc Notificacao.id
               [Cenario.notificacao 1 1 7 SISTEMA StatusNotificacao.PENDENTE None]).
      + apply NoDup_singleton.
      + intros H. apply list_elem_of_singleton in H. discriminate H.
    - intros H. apply elem_of_cons in H as [H|H]; [discriminate H|].
      apply list_elem_of_singleton in H. discriminate H. }
  destruct (processar_pendentes_contagem Cenario.envia_sempre 1 0 s Hnd)
    as (s' & c & Heq & Hc & _ & Hcham & _).
  exists s'. rewrite Heq, Hc. split; [reflexivity|]. split; [exact Hcham|].
  assert ((NotificacaoService.processar_pendentes Cenario.envia_sempre 1 0 s).1 = s')
    as <- by (by rewrite Heq).
  reflexivity.
Defined.

(** X19: when every notification that the sweep claims belongs to
    another tenant or to a recipient without preferences, the sweep
    writes nothing: after any number of sweeps the table of
    notifications is as before and the same notifications are claimed
    again, all still PENDENTE.  With 100 such notifications at the head
    of the queue no later notification is ever dispatched. *)
Theorem varridas_sem_progresso
    (adaptador : CanalNotificacao → Notificacao.t → bool)
    (escritorio : UUID) (agora : Z) (k : nat) (s : Estado) :
  NoDup (Notificacao.id <$> notificacoes s) →
  (∀ n, n ∈ pendentes_envio agora s → sem_escrita escritorio s n) →
  notificacoes (varridas adaptador escritorio agora k s) = notificacoes s
  ∧ pendentes_envio agora (varridas adaptador escritorio agora k s)
    = pendentes_envio agora s
  ∧ ∀ n, n ∈ notificacoes s →
         NotificacaoRepository.pendente_envio None agora n →
         n ∈ notificacoes (varridas adaptador escritorio agora k s)
         ∧ Notificacao.status n = StatusNotificacao.PENDENTE.
Proof.
  intros Hnd Hsem.
  assert (notificacoes (varridas adaptador escritorio agora k s) = notificacoes s)
    as Hrows.
  { revert s Hnd Hsem. induction k as [|k IH]; intros s Hnd Hsem; [done|].
    simpl.
    destruct (processar_pendentes_sem_escrita adaptador escritorio agora s Hnd Hsem)
      as [Hn Hp].
    rewrite IH; [done|by rewrite Hn|].
    intros n Hin. unfold pendentes_envio in Hin. rewrite Hn in Hin.
    destruct (Hsem n Hin) as [Hne|Hnone]; [by left|right].
    unfold PreferenciaNotificacaoRepository.get_by_usuario in *. cbn [snd] in *.
    by rewrite Hp. }
  split; [done|]. split.
  - unfold pendentes_envio. by rewrite Hrows.
  - intros n Hn Hpend. rewrite Hrows. split; [done|]. by destruct Hpend.
Qed.

Lemma varridas_sem_progresso_witness :
  let s := Cenario.sessao
             [Cenario.notificacao 1 2 8 SISTEMA StatusNotificacao.PENDENTE None;
              Cenario.notificacao 2 1 7 SISTEMA StatusNotificacao.PENDENTE None]
             [Cenario.preferencia 1 2 8] [] in
  notificacoes (varridas Cenario.envia_sempre 1 0 3 s) = notificacoes s
  ∧ pendentes_envio 0 (varridas Cenario.envia_sempre 1 0 3 s) = pendentes_envio 0 s.
Proof.
  intros s.
  assert (NoDup (Notificacao.id <$> notificacoes s)) as Hnd.
  { apply (NoDup_fmap_snoc Notificacao.id
             [Cenario.notificacao 1 2 8 SISTEMA StatusNotificacao.PENDENTE None]).
    - apply NoDup_singleton.
    - intros H. apply list_elem_of_singleton in H. discriminate H. }
  assert (∀ n, n ∈ pendentes_envio 0 s → sem_escrita 1 s n) as Hsem.
  { intros n Hn. vm_compute in Hn.
    apply elem_of_cons in Hn as [->|Hn].
    - left. discriminate.
    - apply list_elem_of_singleton in Hn as ->. right. reflexivity. }
  destruct (varridas_sem_progresso Cenario.envia_sempre 1 0 3 s Hnd Hsem)
    as (H1 & H2 & _).
  split; [exact H1|exact H2].
Defined.

(** ** What the daily scan does *)

(** X20: the daily scan creates nothing; it leaves the session as it
    is.  With a setting [NOTIFICATION_DAYS_BEFORE_DEADLINE] that is not
    the empty list, the list of [core/config.py] included, it raises
    [TypeError] before it lists a deadline.  With the empty list the
    window is 7 days: the scan raises [OverflowError] when today plus 7
    days is not a date; otherwise it returns 0 when
    [listar_prazos_pendentes] finds no deadline, and raises
    [AttributeError] on [responsavel_id] of the first deadline when it
    finds one. *)
Theorem verificar_prazos_e_notificar_nada_cria
    (escritorio : UUID) (dias : list Z) (hoje : Z) (s : Estado) :
  let r := NotificacaoService.verificar_prazos_e_notificar escritorio dias hoje s in
  r.1 = s
  ∧ (dias ≠ [] →
     r.2 = inl (TypeError "unsupported type for timedelta days component: list"))
  ∧ (dias = [] → ¬ janela_valida hoje 7 → r.2 = inl OverflowError)
  ∧ (dias = [] → janela_valida hoje 7 →
     ∃ listados,
       ProcessoService.listar_prazos_pendentes escritorio 7 hoje s = (s, inr listados)
       ∧ (∀ p, p ∈ listados ↔ p ∈ prazos s
                               ∧ Prazo.escritorio_id p = escritorio
                               ∧ Prazo.status p = PENDENTE
                               ∧ Prazo.data_fatal p ≤ hoje + 7)
       ∧ r.2 = match listados with
               | [] => inr 0%nat
               | _ :: _ => inl (AttributeError "Prazo" "responsavel_id")
               end)
  ∧ NotificacaoService.verificar_prazos_e_notificar escritorio
      settings.NOTIFICATION_DAYS_BEFORE_DEADLINE hoje s
    = (s, inl (TypeError "unsupported type for timedelta days component: list")).
Proof.
  intros r. subst r. rewrite verificar_prazos_e_notificar_spec. cbn [fst snd].
  split; [done|]. split; [by destruct dias|]. split; [|split; [|done]].
  - intros -> Hj. by rewrite today_plus_spec, decide_False.
  - intros -> Hj. rewrite today_plus_spec, decide_True by done.
    unfold ProcessoService.listar_prazos_pendentes.
    rewrite get_pendentes_spec, decide_True by done.
    eexists. split; [reflexivity|]. split.
    + intros p. rewrite order_by_data_fatal_elem, list_elem_of_filter.
      unfold PrazoRepository.where_pendentes. tauto.
    + pose proof (order_by_data_fatal_length
                    (filter (PrazoRepository.where_pendentes escritorio (hoje + 7))
                       (prazos s))) as Hlen.
      destruct (filter _ (prazos s)) as [|p l];
        destruct (PrazoRepository.order_by_data_fatal _) as [|q l'];
        simpl in Hlen; try discriminate Hlen; reflexivity.
Qed.

Lemma verificar_prazos_e_notificar_nada_cria_witness :
  let s := Cenario.sessao [] [] [Cenario.prazo 3 1 PENDENTE 15 None] in
  NotificacaoService.verificar_prazos_e_notificar 1 [] 10 s
  = (s, inl (AttributeError "Prazo" "responsavel_id"))
  ∧ NotificacaoService.verificar_prazos_e_notificar 2 [] 10 s = (s, inr 0%nat)
  ∧ NotificacaoService.verificar_prazos_e_notificar 1 [7; 3; 1; 0] 10 s
    = (s, inl (TypeError "unsupported type for timedelta days component: list")).
Proof.
  intros s.
  destruct (verificar_prazos_e_notificar_nada_cria 1 [] 10 s)
    as (H1 & _ & _ & Ha & _).
  destruct (verificar_prazos_e_notificar_nada_cria 2 [] 10 s)
    as (H2 & _ & _ & Hb & _).
  destruct (verificar_prazos_e_notificar_nada_cria 1 [7; 3; 1; 0] 10 s)
    as (_ & _ & _ & _ & Hc).
  destruct Ha as (la & Hla & _ & Hra); [done|janela|].
  destruct Hb as (lb & Hlb & _ & Hrb); [done|janela|].
  assert (la = [Cenario.prazo 3 1 PENDENTE 15 None]) as ->.
  { assert ((ProcessoService.listar_prazos_pendentes 1 7 10 s).2 = inr la) as Hl
      by (by rewrite Hla).
    vm_compute in Hl. by injection Hl as <-. }
  assert (lb = []) as ->.
  { assert ((ProcessoService.listar_prazos_pendentes 2 7 10 s).2 = inr lb) as Hl
      by (by rewrite Hlb).
    vm_compute in Hl. by injection Hl as <-. }
  split; [|split; [|exact Hc]].
  - rewrite (surjective_pairing (NotificacaoService.verificar_prazos_e_notificar _ _ _ _)).
    by rewrite H1, Hra.
  - rewrite (surjective_pairing (NotificacaoService.verificar_prazos_e_notificar _ _ _ _)).
    by rewrite H2, Hrb.
Defined.

(** ** The senders called for one notification *)

(** X21: [_enviar_notificacao] by the recipient's preferences in the
    tenant.  Without a row of preferences it calls the in-app sender,
    once, and returns; it does not mark the notification.  With a row
    of preferences it raises [AttributeError] at [prefs.tipos_ativos],
    before any sender is called and any row is written.  When the
    lookup of the preferences raises, which it cannot with one row per
    user at most, it raises that error.  In every case the table of
    notifications is left as it is, and no push, e-mail or SMS sender
    is called. *)
Theorem enviar_notificacao_por_preferencias
    (adaptador : CanalNotificacao → Notificacao.t → bool)
    (escritorio : UUID) (agora : Z) (s : Estado) (n : Notificacao.t) :
  let r := NotificacaoService._enviar_notificacao adaptador escritorio n agora s in
  match (PreferenciaNotificacaoRepository.get_by_usuario escritorio
           (Notificacao.usuario_id n) s).2 with
  | inr None => r = (com_chamada (IN_APP, Notificacao.id n) s, inr tt)
  | inr (Some prefs) =>
    r = (s, inl (AttributeError "PreferenciaNotificacao" "tipos_ativos"))
  | inl e => r = (s, inl e)
  end
  ∧ notificacoes r.1 = notificacoes s
  ∧ (∀ c, c ∈ chamadas r.1 → c ∈ chamadas s ∨ c = (IN_APP, Notificacao.id n))
  ∧ (preferencia_unica s →
     ∃ o, (PreferenciaNotificacaoRepository.get_by_usuario escritorio
             (Notificacao.usuario_id n) s).2 = inr o).
Proof.
  intros r. subst r. rewrite enviar_notificacao_spec.
  split; [|split; [|split]].
  - by destruct (PreferenciaNotificacaoRepository.get_by_usuario _ _ _).2
      as [e|[prefs|]].
  - by destruct (PreferenciaNotificacaoRepository.get_by_usuario _ _ _).2
      as [e|[prefs|]].
  - intros c.
    destruct (PreferenciaNotificacaoRepository.get_by_usuario _ _ _).2
      as [e|[prefs|]]; cbn [fst chamadas com_chamada]; [by left|by left|].
    intros [->|Hc]%elem_of_cons; [by right|by left].
  - apply preferencia_unica_get_by_usuario.
Qed.

Lemma enviar_notificacao_por_preferencias_witness :
  let n := Cenario.notificacao 1 1 7 SISTEMA StatusNotificacao.PENDENTE None in
  let s := Cenario.sessao [n] [Cenario.preferencia 1 1 7] [] in
  let s0 := Cenario.sessao [n] [] [] in
  NotificacaoService._enviar_notificacao Cenario.envia_sempre 1 n 0 s
  = (s, inl (AttributeError "PreferenciaNotificacao" "tipos_ativos"))
  ∧ NotificacaoService._enviar_notificacao Cenario.envia_sempre 1 n 0 s0
    = (com_chamada (IN_APP, 1%nat) s0, inr tt).
Proof.
  intros n s s0. split.
  - apply (enviar_notificacao_por_preferencias Cenario.envia_sempre 1 0 s n).
  - apply (enviar_notificacao_por_preferencias Cenario.envia_sempre 1 0 s0 n).
Defined.

(** ** Preferences of a user *)

Lemma filter_fmap_comuta {A} (P : A → Prop) `{∀ x, Decision (P x)} (f : A → A)
    (l : list A) :
  (∀ x, P (f x) ↔ P x) → filter P (f <$> l) = f <$> filter P l.
Proof.
  intros Hf. induction l as [|x l IH]; [done|].
  rewrite fmap_cons, !filter_cons, IH.
  destruct (decide (P (f x))) as [Hx|Hx], (decide (P x)) as [Hx'|Hx'];
    [done| | |done]; exfalso.
  - by apply Hx', Hf.
  - by apply Hx, Hf.
Qed.

Lemma NoDup_fmap_chave_geral {A K} (f : A → K) (l : list A) (x y : A) :
  NoDup (f <$> l) → x ∈ l → y ∈ l → f x = f y → x = y.
Proof.
  intros Hnd [i Hi]%list_elem_of_lookup [j Hj]%list_elem_of_lookup Heq.
  assert (i = j) as ->; [|congruence].
  eapply NoDup_lookup; [exact Hnd|..].
  - by rewrite list_lookup_fmap, Hi.
  - by rewrite list_lookup_fmap, Hj, Heq.
Qed.

Section Preferencias.

Variable escritorio : UUID.
Variable usuario : UUID.

Local Abbreviation do_usuario :=
  (λ p, PreferenciaNotificacao.escritorio_id p = escritorio
        ∧ PreferenciaNotificacao.usuario_id p = usuario).

Lemma preferencia_unica_filter s :
  preferencia_unica s →
  filter do_usuario (preferencias s) = []
  ∨ ∃ p, filter do_usuario (preferencias s) = [p].
Proof.
  intros Huni.
  destruct (preferencia_unica_get_by_usuario escritorio usuario s Huni) as [o Ho].
  unfold PreferenciaNotificacaoRepository.get_by_usuario in Ho. cbn [snd] in Ho.
  destruct (filter _ (preferencias s)) as [|x [|y l]];
    [by left|right; by eexists|discriminate Ho].
Qed.

(** [atualizar_preferencias] when the user has a row: the row is
    rewritten in place. *)
Lemma atualizar_preferencias_existente dados s anterior :
  NoDup (PreferenciaNotificacao.id <$> preferencias s) →
  preferencia_unica s →
  filter do_usuario (preferencias s) = [anterior] →
  let f := λ p, if decide (do_usuario p)
                then PreferenciaNotificacao.setattrs dados p else p in
  NotificacaoService.atualizar_preferencias escritorio usuario dados s
    = (com_preferencias (f <$> preferencias s) s,
       inr (Some (PreferenciaNotificacao.setattrs dados anterior))).
Proof.
  intros Hnd Huni Hf f.
  assert (anterior ∈ preferencias s ∧ do_usuario anterior) as [Hin [He Hu]].
  { assert (anterior ∈ filter do_usuario (preferencias s)) as H
      by (rewrite Hf; apply list_elem_of_here).
    apply list_elem_of_filter in H. tauto. }
  unfold NotificacaoService.atualizar_preferencias, bind,
    PreferenciaNotificacaoRepository.get_by_usuario.
  rewrite Hf. cbn [scalar_one_or_none].
  unfold PreferenciaNotificacaoRepository.update.
  rewrite (update_Some PreferenciaNotificacao.id PreferenciaNotificacao.escritorio_id
             PreferenciaNotificacao.setattrs escritorio
             (PreferenciaNotificacao.id anterior) dados (preferencias s) anterior)
    by (by apply get_by_id_elem).
  f_equal. f_equal. unfold persist. apply list_fmap_ext.
  intros i r Hr. apply list_elem_of_lookup_2 in Hr. unfold f.
  destruct (decide (PreferenciaNotificacao.id r = PreferenciaNotificacao.id anterior
                    ∧ PreferenciaNotificacao.escritorio_id r = escritorio))
    as [[Hid Hre]|Hno].
  - rewrite (NoDup_fmap_chave PreferenciaNotificacao.id _ r anterior Hnd Hr Hin Hid).
    by rewrite decide_True.
  - rewrite decide_False; [done|]. intros [Hre Hru]. apply Hno.
    rewrite (NoDup_fmap_chave_geral chave_preferencia _ r anterior Huni Hr Hin);
      [done|]. unfold chave_preferencia. by rewrite Hre, Hru, He, Hu.
Qed.

(** [atualizar_preferencias] when the user has no row: one is created. *)
Lemma atualizar_preferencias_nova dados s :
  filter do_usuario (preferencias s) = [] →
  NotificacaoService.atualizar_preferencias escritorio usuario dados s
    = (com_preferencias
         (preferencias s
            ++ [PreferenciaNotificacao.nova dados usuario
                  (PreferenciaNotificacaoRepository.novo_id (preferencias s))
                  escritorio]) s,
       inr (Some (PreferenciaNotificacao.nova dados usuario
                    (PreferenciaNotificacaoRepository.novo_id (preferencias s))
                    escritorio))).
Proof.
  intros Hf.
  unfold NotificacaoService.atualizar_preferencias, bind,
    PreferenciaNotificacaoRepository.get_by_usuario.
  rewrite Hf. reflexivity.
Qed.

(** What both cases share. *)
Lemma atualizar_preferencias_spec dados s :
  NoDup (PreferenciaNotificacao.id <$> preferencias s) →
  preferencia_unica s →
  ∃ prefs s',
    NotificacaoService.atualizar_preferencias escritorio usuario dados s
      = (s', inr (Some prefs))
    ∧ filter do_usuario (preferencias s') = [prefs]
    ∧ NoDup (PreferenciaNotificacao.id <$> preferencias s')
    ∧ preferencia_unica s'
    ∧ (∀ t' u', (t', u') ≠ (escritorio, usuario) →
         filter (λ p, PreferenciaNotificacao.escritorio_id p = t'
                      ∧ PreferenciaNotificacao.usuario_id p = u') (preferencias s')
         = filter (λ p, PreferenciaNotificacao.escritorio_id p = t'
                        ∧ PreferenciaNotificacao.usuario_id p = u') (preferencias s))
    ∧ match filter do_usuario (preferencias s) with
      | [anterior] =>
        prefs = PreferenciaNotificacao.setattrs dados anterior
        ∧ length (preferencias s') = length (preferencias s)
      | _ =>
        prefs = PreferenciaNotificacao.nova dados usuario
                  (PreferenciaNotificacaoRepository.novo_id (preferencias s))
                  escritorio
        ∧ preferencias s' = preferencias s ++ [prefs]
      end.
Proof.
  intros Hnd Huni.
  destruct (preferencia_unica_filter s Huni) as [Hf|[anterior Hf]].
  - rewrite atualizar_preferencias_nova by done. rewrite Hf.
    eexists _, _. split; [reflexivity|].
    cbn [preferencias com_preferencias].
    set (nova := PreferenciaNotificacao.nova dados usuario _ escritorio).
    split; [|split; [|split; [|split]]].
    + rewrite filter_app, Hf, filter_cons, decide_True by done. done.
    + apply NoDup_fmap_snoc; [done|]. apply novo_id_fresco.
    + unfold preferencia_unica. cbn [preferencias com_preferencias].
      rewrite fmap_app. apply NoDup_app. split; [done|]. split; [|apply NoDup_singleton].
      intros k (p & -> & Hp)%list_elem_of_fmap Hk.
      apply list_elem_of_singleton in Hk.
      assert (p ∈ filter do_usuario (preferencias s)) as Hin.
      { apply list_elem_of_filter. split; [|done].
        unfold chave_preferencia in Hk. by simplify_eq/=. }
      rewrite Hf in Hin. by apply elem_of_nil in Hin.
    + intros t' u' Hne. rewrite filter_app, filter_cons, decide_False.
      * by rewrite filter_nil, app_nil_r.
      * intros [Ht Hu]. apply Hne. simpl in Ht, Hu. by rewrite Ht, Hu.
    + done.
  - rewrite (atualizar_preferencias_existente dados s anterior) by done. rewrite Hf.
    eexists _, _. split; [reflexivity|].
    cbn [preferencias com_preferencias].
    set (f := λ p, if decide (do_usuario p)
                   then PreferenciaNotificacao.setattrs dados p else p).
    assert (∀ p, chave_preferencia (f p) = chave_preferencia p) as Hchave
      by (intros p; unfold f; by case_decide).
    assert (∀ t' u' p,
              (PreferenciaNotificacao.escritorio_id (f p) = t'
               ∧ PreferenciaNotificacao.usuario_id (f p) = u')
              ↔ (PreferenciaNotificacao.escritorio_id p = t'
                 ∧ PreferenciaNotificacao.usuario_id p = u')) as Hkey
      by (intros t' u' p; unfold f; by case_decide).
    split; [|split; [|split; [|split]]].
    + rewrite filter_fmap_comuta by apply Hkey. rewrite Hf. simpl. unfold f.
      rewrite decide_True; [done|].
      assert (anterior ∈ filter do_usuario (preferencias s)) as H
        by (rewrite Hf; apply list_elem_of_here).
      apply list_elem_of_filter in H. tauto.
    + rewrite <- list_fmap_compose. erewrite list_fmap_ext; [exact Hnd|].
      intros i p _. simpl. unfold f. by case_decide.
    + unfold preferencia_unica. cbn [preferencias com_preferencias].
      rewrite <- list_fmap_compose. erewrite list_fmap_ext; [exact Huni|].
      intros i p _. apply Hchave.
    + intros t' u' Hne. rewrite filter_fmap_comuta by apply Hkey.
      rewrite <- (list_fmap_id (filter _ (preferencias s))) at 2.
      apply list_fmap_ext. intros i p Hp. simpl.
      apply list_elem_of_lookup_2, list_elem_of_filter in Hp as [[Ht Hu] _].
      unfold f. rewrite decide_False; [done|].
      intros [Ht' Hu']. apply Hne. by rewrite <- Ht, <- Hu, Ht', Hu'.
    + split; [done|]. by rewrite length_fmap.
Qed.

End Preferencias.

Lemma preferencia_unica_snoc escritorio usuario s p :
  preferencia_unica s →
  filter (λ p, PreferenciaNotificacao.escritorio_id p = escritorio
               ∧ PreferenciaNotificacao.usuario_id p = usuario) (preferencias s) = [] →
  chave_preferencia p = (escritorio, usuario) →
  preferencia_unica (com_preferencias (preferencias s ++ [p]) s).
Proof.
  intros Huni Hf Hp. unfold preferencia_unica. cbn [preferencias com_preferencias].
  rewrite fmap_app. apply NoDup_app. split; [done|]. split; [|apply NoDup_singleton].
  intros k (q & -> & Hq)%list_elem_of_fmap Hk.
  apply list_elem_of_singleton in Hk.
  assert (q ∈ filter (λ p, PreferenciaNotificacao.escritorio_id p = escritorio
                           ∧ PreferenciaNotificacao.usuario_id p = usuario)
                (preferencias s)) as Hin.
  { apply list_elem_of_filter. split; [|done].
    rewrite Hp in Hk. unfold chave_preferencia in Hk. by simplify_eq/=. }
  rewrite Hf in Hin. by apply elem_of_nil in Hin.
Qed.

(** X22: with [id] a primary key and at most one row of preferences per
    user, [atualizar_preferencias] never raises and returns the row of
    the user, which [get_preferencias] then returns too.  Field by
    field: each of the eight switches that [dados] sets reads back with
    the value given, [False] included, and each that [dados] leaves
    unset keeps the value of the row the user had, or takes the column
    default (SMS off, every other switch on) when the user had no row.
    A token in [dados] is stored; without [fcm_token] in [dados], or
    with [None] for it, the stored token is kept, so the call cannot
    clear a token.  The row of a user who had one keeps its id and no
    second row is created; for a user who had none exactly one row is
    appended.  The preferences of every other user or tenant are as
    before. *)
Theorem atualizar_preferencias_grava
    (escritorio usuario : UUID) (dados : PreferenciaNotificacao.kwargs) (s : Estado) :
  NoDup (PreferenciaNotificacao.id <$> preferencias s) →
  preferencia_unica s →
  ∃ prefs s' anterior,
    (NotificacaoService.get_preferencias escritorio usuario s).2 = inr anterior
    ∧ NotificacaoService.atualizar_preferencias escritorio usuario dados s
      = (s', inr (Some prefs))
    ∧ PreferenciaNotificacao.escritorio_id prefs = escritorio
    ∧ PreferenciaNotificacao.usuario_id prefs = usuario
    ∧ (NotificacaoService.get_preferencias escritorio usuario s').2 = inr (Some prefs)
    ∧ (let lido (kw : PreferenciaNotificacao.kwargs → option bool)
                (coluna : PreferenciaNotificacao.t → bool) (padrao : bool) :=
         coluna prefs = match kw dados with
                        | Some valor => valor
                        | None => from_option coluna padrao anterior
                        end in
       lido PreferenciaNotificacao.kw_push_enabled
         PreferenciaNotificacao.push_enabled true
       ∧ lido PreferenciaNotificacao.kw_email_enabled
           PreferenciaNotificacao.email_enabled true
       ∧ lido PreferenciaNotificacao.kw_sms_enabled
           PreferenciaNotificacao.sms_enabled false
       ∧ lido PreferenciaNotificacao.kw_prazo_vencendo_enabled
           PreferenciaNotificacao.prazo_vencendo_enabled true
       ∧ lido PreferenciaNotificacao.kw_prazo_hoje_enabled
           PreferenciaNotificacao.prazo_hoje_enabled true
       ∧ lido PreferenciaNotificacao.kw_prazo_vencido_enabled
           PreferenciaNotificacao.prazo_vencido_enabled true
       ∧ lido PreferenciaNotificacao.kw_novo_andamento_enabled
           PreferenciaNotificacao.novo_andamento_enabled true
       ∧ lido PreferenciaNotificacao.kw_mudanca_fase_enabled
           PreferenciaNotificacao.mudanca_fase_enabled true)
    ∧ PreferenciaNotificacao.fcm_token prefs
      = match PreferenciaNotificacao.kw_fcm_token dados with
        | Some token => Some token
        | None => anterior ≫= PreferenciaNotificacao.fcm_token
        end
    ∧ match anterior with
      | Some a =>
        PreferenciaNotificacao.id prefs = PreferenciaNotificacao.id a
        ∧ length (preferencias s') = length (preferencias s)
      | None => preferencias s' = preferencias s ++ [prefs]
      end
    ∧ NoDup (PreferenciaNotificacao.id <$> preferencias s')
    ∧ preferencia_unica s'
    ∧ ∀ outro_escritorio outro_usuario,
        (outro_escritorio, outro_usuario) ≠ (escritorio, usuario) →
        (NotificacaoService.get_preferencias outro_escritorio outro_usuario s').2
        = (NotificacaoService.get_preferencias outro_escritorio outro_usuario s).2.
Proof.
  intros Hnd Huni.
  destruct (atualizar_preferencias_spec escritorio usuario dados s Hnd Huni)
    as (prefs & s' & Heq & Hf & Hnd' & Huni' & Houtros & Hcaso).
  assert (prefs ∈ filter (λ p, PreferenciaNotificacao.escritorio_id p = escritorio
                               ∧ PreferenciaNotificacao.usuario_id p = usuario)
                    (preferencias s')) as Hin
    by (rewrite Hf; apply list_elem_of_here).
  apply list_elem_of_filter in Hin as [[He Hu] _].
  unfold NotificacaoService.get_preferencias,
    PreferenciaNotificacaoRepository.get_by_usuario. cbn [snd].
  destruct (preferencia_unica_filter escritorio usuario s Huni) as [Hf0|[a Hf0]];
    rewrite Hf0 in Hcaso |- *; cbn [scalar_one_or_none];
    destruct Hcaso as [Hprefs Hrows];
    eexists prefs, s', _; (split; [reflexivity|]);
    (split; [exact Heq|]); (split; [exact He|]); (split; [exact Hu|]);
    (split; [by rewrite Hf|]).
  - split.
    { rewrite Hprefs. cbn.
      repeat split;
        match goal with |- context [default _ ?o] => by destruct o end. }
    split; [rewrite Hprefs; cbn; by destruct (PreferenciaNotificacao.kw_fcm_token _)|].
    split; [exact Hrows|]. split; [exact Hnd'|]. split; [exact Huni'|].
    intros t' u' Hne. by rewrite Houtros.
  - split.
    { rewrite Hprefs. cbn.
      repeat split;
        match goal with |- context [default _ ?o] => by destruct o end. }
    split; [rewrite Hprefs; cbn; by destruct (PreferenciaNotificacao.kw_fcm_token _)|].
    split; [split; [by rewrite Hprefs|exact Hrows]|].
    split; [exact Hnd'|]. split; [exact Huni'|].
    intros t' u' Hne. by rewrite Houtros.
Qed.

Lemma atualizar_preferencias_grava_witness :
  let dados :=
    {| PreferenciaNotificacao.kw_push_enabled := Some false;
       PreferenciaNotificacao.kw_email_enabled := None;
       PreferenciaNotificacao.kw_sms_enabled := Some true;
       PreferenciaNotificacao.kw_prazo_vencendo_enabled := None;
       PreferenciaNotificacao.kw_prazo_hoje_enabled := None;
       PreferenciaNotificacao.kw_prazo_vencido_enabled := None;
       PreferenciaNotificacao.kw_novo_andamento_enabled := None;
       PreferenciaNotificacao.kw_mudanca_fase_enabled := None;
       PreferenciaNotificacao.kw_fcm_token := None |} in
  let s := Cenario.sessao [] [Cenario.preferencia 1 1 7] [] in
  ∃ prefs s',
    NotificacaoService.atualizar_preferencias 1 7 dados s = (s', inr (Some prefs))
    ∧ (NotificacaoService.get_preferencias 1 7 s').2 = inr (Some prefs)
    ∧ PreferenciaNotificacao.push_enabled prefs = false
    ∧ PreferenciaNotificacao.email_enabled prefs = true
    ∧ PreferenciaNotificacao.sms_enabled prefs = true
    ∧ PreferenciaNotificacao.fcm_token prefs = Some "token"
    ∧ length (preferencias s') = 1%nat.
Proof.
  intros dados s.
  assert (NoDup (PreferenciaNotificacao.id <$> preferencias s)) as Hnd
    by apply NoDup_singleton.
  assert (preferencia_unica s) as Huni by apply NoDup_singleton.
  destruct (atualizar_preferencias_grava 1 7 dados s Hnd Huni)
    as (prefs & s' & anterior & Hant & Heq & _ & _ & Hget & Hcols & Htok & Hcaso & _).
  assert (anterior = Some (Cenario.preferencia 1 1 7)) as ->.
  { vm_compute in Hant. by injection Hant as <-. }
  destruct Hcols as (Hpush & Hemail & Hsms & _). destruct Hcaso as [_ Hlen].
  exists prefs, s'. split; [exact Heq|]. split; [exact Hget|].
  split; [exact Hpush|]. split; [exact Hemail|]. split; [exact Hsms|].
  split; [exact Htok|exact Hlen].
Defined.

(** X23: [atualizar_fcm_token] of the service stores the token in the
    row of the user, which [get_preferencias] then returns; an empty
    string is stored as given, and then the token does not count as
    present.  When the user has a row, the table is the one that the
    bulk update [atualizar_fcm_token] of the repository produces; when
    the user has none, the repository's update changes nothing while
    the service creates the row, with the column defaults. *)
Theorem atualizar_fcm_token_grava
    (escritorio usuario : UUID) (fcm_token : string) (s : Estado) :
  NoDup (PreferenciaNotificacao.id <$> preferencias s) →
  preferencia_unica s →
  ∃ prefs s',
    NotificacaoService.atualizar_fcm_token escritorio usuario fcm_token s
      = (s', inr (Some prefs))
    ∧ PreferenciaNotificacao.fcm_token prefs = Some fcm_token
    ∧ (NotificacaoService.get_preferencias escritorio usuario s').2 = inr (Some prefs)
    ∧ (fcm_token_truthy (PreferenciaNotificacao.fcm_token prefs)
       ↔ fcm_token ≠ EmptyString)
    ∧ match (NotificacaoService.get_preferencias escritorio usuario s).2 with
      | inr (Some anterior) =>
        (PreferenciaNotificacaoRepository.atualizar_fcm_token escritorio usuario
           fcm_token s).1 = s'
        ∧ PreferenciaNotificacao.push_enabled prefs
          = PreferenciaNotificacao.push_enabled anterior
        ∧ PreferenciaNotificacao.id prefs = PreferenciaNotificacao.id anterior
        ∧ PreferenciaNotificacao.email_enabled prefs
          = PreferenciaNotificacao.email_enabled anterior
        ∧ PreferenciaNotificacao.sms_enabled prefs
          = PreferenciaNotificacao.sms_enabled anterior
        ∧ PreferenciaNotificacao.prazo_vencendo_enabled prefs
          = PreferenciaNotificacao.prazo_vencendo_enabled anterior
        ∧ PreferenciaNotificacao.prazo_hoje_enabled prefs
          = PreferenciaNotificacao.prazo_hoje_enabled anterior
        ∧ PreferenciaNotificacao.prazo_vencido_enabled prefs
          = PreferenciaNotificacao.prazo_vencido_enabled anterior
        ∧ PreferenciaNotificacao.novo_andamento_enabled prefs
          = PreferenciaNotificacao.novo_andamento_enabled anterior
        ∧ PreferenciaNotificacao.mudanca_fase_enabled prefs
          = PreferenciaNotificacao.mudanca_fase_enabled anterior
      | _ =>
        (PreferenciaNotificacaoRepository.atualizar_fcm_token escritorio usuario
           fcm_token s).1 = s
        ∧ preferencias s' = preferencias s ++ [prefs]
        ∧ PreferenciaNotificacao.push_enabled prefs = true
        ∧ PreferenciaNotificacao.email_enabled prefs = true
        ∧ PreferenciaNotificacao.sms_enabled prefs = false
      end.
Proof.
  intros Hnd Huni.
  change (NotificacaoService.atualizar_fcm_token escritorio usuario fcm_token s)
    with (NotificacaoService.atualizar_preferencias escritorio usuario
            (NotificacaoService.fcm_token_kwargs fcm_token) s).
  unfold NotificacaoService.get_preferencias,
    PreferenciaNotificacaoRepository.get_by_usuario,
    PreferenciaNotificacaoRepository.atualizar_fcm_token. cbn [snd fst].
  destruct (preferencia_unica_filter escritorio usuario s Huni) as [Hf|[anterior Hf]].
  - rewrite atualizar_preferencias_nova by done.
    eexists _, _. split; [reflexivity|].
    cbn [preferencias com_preferencias]. split; [done|].
    split; [by rewrite filter_app, Hf, filter_cons, decide_True|].
    split; [done|]. rewrite Hf. cbn [scalar_one_or_none].
    split; [|done].
    destruct s as [ns ps zs cs]. unfold com_preferencias.
    cbn [notificacoes preferencias prazos chamadas] in *. f_equal.
    rewrite <- (list_fmap_id ps) at 2. apply list_fmap_ext.
    intros i p Hp. simpl. rewrite decide_False; [done|].
    intros Hk.
    assert (p ∈ filter (λ p, PreferenciaNotificacao.escritorio_id p = escritorio
                             ∧ PreferenciaNotificacao.usuario_id p = usuario) ps)
      as Hin by (apply list_elem_of_filter; split;
                 [done|by eapply list_elem_of_lookup_2]).
    rewrite Hf in Hin. by apply elem_of_nil in Hin.
  - rewrite (atualizar_preferencias_existente escritorio usuario
               (NotificacaoService.fcm_token_kwargs fcm_token) s anterior)
      by done.
    eexists _, _. split; [reflexivity|].
    cbn [preferencias com_preferencias]. split; [done|].
    assert (anterior ∈ filter (λ p, PreferenciaNotificacao.escritorio_id p = escritorio
                                    ∧ PreferenciaNotificacao.usuario_id p = usuario)
                         (preferencias s)) as Hin
      by (rewrite Hf; apply list_elem_of_here).
    apply list_elem_of_filter in Hin as [Hk _].
    split.
    + rewrite filter_fmap_comuta by (intros p; by case_decide).
      rewrite Hf. simpl. by rewrite decide_True.
    + split; [done|]. rewrite Hf. cbn [scalar_one_or_none]. done.
Qed.

Lemma atualizar_fcm_token_grava_witness :
  let s := Cenario.sessao [] [] [] in
  ∃ prefs s',
    NotificacaoService.atualizar_fcm_token 1 7 "abc" s = (s', inr (Some prefs))
    ∧ PreferenciaNotificacao.fcm_token prefs = Some "abc"
    ∧ (NotificacaoService.get_preferencias 1 7 s').2 = inr (Some prefs)
    ∧ (PreferenciaNotificacaoRepository.atualizar_fcm_token 1 7 "abc" s).1 = s.
Proof.
  intros s.
  assert (NoDup (PreferenciaNotificacao.id <$> preferencias s)) as Hnd
    by apply NoDup_nil_2.
  assert (preferencia_unica s) as Huni by apply NoDup_nil_2.
  destruct (atualizar_fcm_token_grava 1 7 "abc" s Hnd Huni)
    as (prefs & s' & Heq & Htok & Hget & _ & Hcaso).
  exists prefs, s'. split; [exact Heq|]. split; [exact Htok|]. split; [exact Hget|].
  reflexivity.
Defined.

(** X24: with at most one row of preferences per user, [get_or_create]
    never raises and is idempotent: it returns the row of the user
    unchanged when there is one, and otherwise creates it with the
    column defaults (push and email on, SMS off, no token); a second
    call returns the same row and creates nothing. *)
Theorem get_or_create_idempotente (escritorio usuario : UUID) (s : Estado) :
  preferencia_unica s →
  ∃ prefs s',
    PreferenciaNotificacaoRepository.get_or_create escritorio usuario s
      = (s', inr prefs)
    ∧ PreferenciaNotificacaoRepository.get_or_create escritorio usuario s'
      = (s', inr prefs)
    ∧ PreferenciaNotificacao.escritorio_id prefs = escritorio
    ∧ PreferenciaNotificacao.usuario_id prefs = usuario
    ∧ preferencia_unica s'
    ∧ match (PreferenciaNotificacaoRepository.get_by_usuario escritorio usuario s).2
      with
      | inr (Some anterior) => s' = s ∧ prefs = anterior
      | _ =>
        preferencias s' = preferencias s ++ [prefs]
        ∧ PreferenciaNotificacao.push_enabled prefs = true
        ∧ PreferenciaNotificacao.email_enabled prefs = true
        ∧ PreferenciaNotificacao.sms_enabled prefs = false
        ∧ PreferenciaNotificacao.fcm_token prefs = None
      end.
Proof.
  intros Huni.
  unfold PreferenciaNotificacaoRepository.get_or_create, bind,
    PreferenciaNotificacaoRepository.get_by_usuario. cbn [snd].
  destruct (preferencia_unica_filter escritorio usuario s Huni) as [Hf|[anterior Hf]].
  - rewrite Hf. cbn [scalar_one_or_none].
    unfold PreferenciaNotificacaoRepository.create.
    eexists _, _. split; [reflexivity|].
    cbn [preferencias com_preferencias].
    rewrite filter_app, Hf, filter_cons, decide_True by done.
    split; [reflexivity|]. split; [done|]. split; [done|].
    split; [by apply (preferencia_unica_snoc escritorio usuario)|done].
  - rewrite Hf. cbn [scalar_one_or_none]. unfold ret.
    eexists _, _. split; [reflexivity|]. rewrite Hf. cbn [scalar_one_or_none].
    assert (anterior ∈ filter (λ p, PreferenciaNotificacao.escritorio_id p = escritorio
                                    ∧ PreferenciaNotificacao.usuario_id p = usuario)
                         (preferencias s)) as Hin
      by (rewrite Hf; apply list_elem_of_here).
    apply list_elem_of_filter in Hin as [[He Hu] _].
    done.
Qed.

Lemma get_or_create_idempotente_witness :
  let s := Cenario.sessao [] [Cenario.preferencia 1 1 7] [] in
  ∃ prefs s',
    PreferenciaNotificacaoRepository.get_or_create 1 8 s = (s', inr prefs)
    ∧ PreferenciaNotificacaoRepository.get_or_create 1 8 s' = (s', inr prefs)
    ∧ length (preferencias s') = 2%nat
    ∧ PreferenciaNotificacao.sms_enabled prefs = false.
Proof.
  intros s.
  assert (preferencia_unica s) as Huni by apply NoDup_singleton.
  destruct (get_or_create_idempotente 1 8 s Huni)
    as (prefs & s' & Heq & Heq' & _ & _ & _ & Hcaso).
  exists prefs, s'. split; [exact Heq|]. split; [exact Heq'|].
  change ((PreferenciaNotificacaoRepository.get_by_usuario 1 8 s).2)
    with (@inr Erro (option PreferenciaNotificacao.t) None) in Hcaso.
  destruct Hcaso as (Hrows & _ & _ & Hsms & _).
  split; [by rewrite Hrows|exact Hsms].
Defined.

(** ** The status of a delivery *)

(** X25: [atualizar_status_envio] has no condition on the tenant: it
    rewrites the notification of the given id even when the row belongs
    to another tenant, where [update] of the same repository finds
    nothing and writes nothing.  It sets the status, adds one to
    [tentativas] whatever the status, sets [enviada_em] only for
    ENVIADA, records the error text only for FALHA with a text that is
    not empty, and leaves every other row as it is. *)
Theorem atualizar_status_envio_sem_escritorio
    (escritorio : UUID) (status : StatusNotificacao.t) (erro : option string)
    (agora : Z) (kw : Notificacao.kwargs) (s : Estado) (n : Notificacao.t) :
  NoDup (Notificacao.id <$> notificacoes s) →
  n ∈ notificacoes s →
  ∃ s' n',
    NotificacaoRepository.atualizar_status_envio (Notificacao.id n) status erro agora s
      = (s', inr tt)
    ∧ n' ∈ notificacoes s'
    ∧ Notificacao.id n' = Notificacao.id n
    ∧ Notificacao.escritorio_id n' = Notificacao.escritorio_id n
    ∧ Notificacao.status n' = status
    ∧ Notificacao.tentativas n' = Notificacao.tentativas n + 1
    ∧ Notificacao.enviada_em n'
      = (if decide (status = StatusNotificacao.ENVIADA) then Some agora
         else Notificacao.enviada_em n)
    ∧ (∀ e, status = StatusNotificacao.FALHA → erro = Some e → e ≠ EmptyString →
            Notificacao.erro_envio n' = Some e)
    ∧ (status ≠ StatusNotificacao.FALHA ∨ erro = None ∨ erro = Some EmptyString →
       Notificacao.erro_envio n' = Notificacao.erro_envio n)
    ∧ (∀ m, m ∈ notificacoes s → m ≠ n → m ∈ notificacoes s')
    ∧ (Notificacao.escritorio_id n ≠ escritorio →
       NotificacaoRepository.update escritorio (Notificacao.id n) kw s = (s, inr None)).
Proof.
  intros Hnd Hn.
  unfold NotificacaoRepository.atualizar_status_envio.
  eexists _, _. split; [reflexivity|]. cbn [notificacoes com_notificacoes].
  split.
  { apply list_elem_of_fmap. exists n. split; [|done]. by rewrite decide_True. }
  cbn [Notificacao.id Notificacao.escritorio_id Notificacao.status
       Notificacao.tentativas Notificacao.enviada_em Notificacao.erro_envio].
  split; [done|]. split; [done|]. split; [done|]. split; [done|]. split; [done|].
  split; [|split; [|split]].
  - intros e -> -> He. rewrite decide_False by discriminate.
    rewrite decide_True by done. by rewrite decide_False.
  - intros Hcaso. destruct (decide (status = StatusNotificacao.ENVIADA)); [done|].
    destruct (decide (status = StatusNotificacao.FALHA)) as [Hf|Hf]; [|done].
    destruct Hcaso as [Hne|[->| ->]]; [done|done|]. by rewrite decide_True.
  - intros m Hm Hne. apply list_elem_of_fmap. exists m. split; [|done].
    rewrite decide_False; [done|]. intros Hid. apply Hne.
    by apply (NoDup_fmap_chave Notificacao.id (notificacoes s)).
  - intros Hfora. unfold NotificacaoRepository.update.
    rewrite (update_outro_escritorio Notificacao.id Notificacao.escritorio_id
               Notificacao.setattrs).
    + by destruct s.
    + intros r Hr Hid.
      by rewrite (NoDup_fmap_chave Notificacao.id _ r n Hnd Hr Hn Hid).
Qed.

Lemma atualizar_status_envio_sem_escritorio_witness :
  let n := Cenario.notificacao 1 2 8 SISTEMA StatusNotificacao.PENDENTE None in
  let s := Cenario.sessao [n] [] [] in
  ∃ s' n',
    NotificacaoRepository.atualizar_status_envio 1 StatusNotificacao.FALHA
      (Some "timeout") 0 s = (s', inr tt)
    ∧ n' ∈ notificacoes s'
    ∧ Notificacao.escritorio_id n' = 2%nat
    ∧ Notificacao.status n' = StatusNotificacao.FALHA
    ∧ Notificacao.tentativas n' = 1
    ∧ Notificacao.erro_envio n' = Some "timeout"
    ∧ NotificacaoRepository.update 1 1 NotificacaoService.marcar_falha s
      = (s, inr None).
Proof.
  intros n s.
  assert (NoDup (Notificacao.id <$> notificacoes s)) as Hnd by apply NoDup_singleton.
  destruct (atualizar_status_envio_sem_escritorio 1 StatusNotificacao.FALHA
              (Some "timeout") 0 NotificacaoService.marcar_falha s n Hnd
              (list_elem_of_here _ _))
    as (s' & n' & Heq & Hin & _ & Hesc & Hst & Htent & _ & Herro & _ & _ & Hupd).
  exists s', n'. split; [exact Heq|]. split; [exact Hin|].
  split; [exact Hesc|]. split; [exact Hst|]. split; [exact Htent|].
  split; [by apply Herro|]. apply Hupd. discriminate.
Defined.
